(** * Shake&Tune resonance analysis: the shaper recommendation pipeline

    A shallow embedding of [src/shaketune/resonances.py]: [calibrate_shaper],
    [plot_freq_response] and [graph_resonances_test_results].

    Python floats are IEEE binary64 numbers, modelled by Rocq's primitive
    floats; their comparisons and arithmetic are the kernel's, specified by
    [FloatAxioms].  NumPy one-dimensional arrays are lists.  Exceptions are an
    error value, console output and drawing calls are a trace of events. *)

From Stdlib Require Import ZArith List String Ascii Bool Lia.
From Stdlib Require Import Floats.
Import ListNotations.

Set Warnings "-inexact-float".

Open Scope string_scope.
Open Scope list_scope.
Open Scope float_scope.

(** ** Module constants (resonances.py, lines 19-22) *)

Definition PEAKS_DETECTION_THRESHOLD : float := 0.05.
Definition PEAKS_EFFECT_THRESHOLD : float := 0.12.
Definition SPECTROGRAM_LOW_PERCENTILE_FILTER : float := 5.
Definition MAX_SMOOTHING : float := 0.1.

(** ** Exceptions *)

Inductive Exn : Type :=
| ValueError (msg : string)
| OverflowError (msg : string)
| IndexError (msg : string)
| AttributeError (msg : string)
| TypeError (msg : string)
| CollaboratorError (msg : string).

(** ** Python and NumPy primitives used by the module *)

Module Py.

(** [str.upper], on the ASCII letters. *)
Definition upper_ascii (c : ascii) : ascii :=
  let n := nat_of_ascii c in
  if ((97 <=? n) && (n <=? 122))%nat then ascii_of_nat (n - 32) else c.

Fixpoint upper (s : string) : string :=
  match s with
  | EmptyString => EmptyString
  | String c s' => String (upper_ascii c) (upper s')
  end.

(** [a > b] on floats is [b < a]. *)
Definition gtb (a b : float) : bool := b <? a.

(** The nearest integer to [m / 2^k], ties to the even one. *)
Definition round_half_even_pos (m : positive) (k : positive) : Z :=
  let d := Z.pow_pos 2 k in
  let q := (Z.pos m / d)%Z in
  let r := (Z.pos m mod d)%Z in
  match (2 * r ?= d)%Z with
  | Lt => q
  | Gt => (q + 1)%Z
  | Eq => if Z.even q then q else (q + 1)%Z
  end.

(** [round(x)] with one argument: a Python int, by rounding half to even;
    NaN and the infinities raise. *)
Definition round (x : float) : Exn + Z :=
  match Prim2SF x with
  | S754_zero _ => inr 0%Z
  | S754_nan => inl (ValueError "cannot convert float NaN to integer")
  | S754_infinity _ =>
      inl (OverflowError "cannot convert float infinity to integer")
  | S754_finite s m e =>
      let a := match e with
               | Z0 => Z.pos m
               | Zpos p => (Z.pos m * Z.pow_pos 2 p)%Z
               | Zneg p => round_half_even_pos m p
               end in
      inr (if s then (- a)%Z else a)
  end.

(** Conversion of a Python int to a float, as done by [int * float];
    rounds to nearest even, raises when the int is out of range. *)
Definition float_of_int (z : Z) : Exn + float :=
  let f := SF2Prim (binary_normalize prec emax z 0 false) in
  if is_infinity f
  then inl (OverflowError "int too large to convert to float")
  else inr f.

End Py.

Module Np.

(** [arr.max()]: raises on an empty array, propagates NaN. *)
Definition max2 (a x : float) : float :=
  if is_nan a then a else if is_nan x then x else if a <? x then x else a.

Definition max (arr : list float) : Exn + float :=
  match arr with
  | [] => inl (ValueError
      "zero-size array to reduction operation maximum which has no identity")
  | x :: xs => inr (fold_left max2 xs x)
  end.

(** [arr <= c]: the boolean mask. *)
Definition le_mask (arr : list float) (c : float) : list bool :=
  map (fun x => x <=? c) arr.

(** The entries of [arr] kept by an aligned mask. *)
Fixpoint compress (mask : list bool) (arr : list float) : list float :=
  match mask, arr with
  | b :: mask', x :: arr' =>
      if b then x :: compress mask' arr' else compress mask' arr'
  | _, _ => []
  end.

(** [arr[mask]]: boolean indexing; the mask must have the array's length. *)
Definition bool_index (arr : list float) (mask : list bool)
  : Exn + list float :=
  if (List.length mask =? List.length arr)%nat
  then inr (compress mask arr)
  else inl (IndexError "boolean index did not match indexed array").

(** [arr[i]] for an integer [i]: negative indices count from the end. *)
Definition item (arr : list float) (i : Z) : Exn + float :=
  let n := Z.of_nat (List.length arr) in
  let j := if (i <? 0)%Z then (i + n)%Z else i in
  if ((0 <=? j) && (j <? n))%Z
  then match nth_error arr (Z.to_nat j) with
       | Some x => inr x
       | None => inl (IndexError "index out of bounds")
       end
  else inl (IndexError "index out of bounds").

(** [arr[idx]] for an array of integer indices. *)
Fixpoint take (arr : list float) (idx : list Z) : Exn + list float :=
  match idx with
  | [] => inr []
  | i :: idx' =>
      match item arr i with
      | inl e => inl e
      | inr x =>
          match take arr idx' with
          | inl e => inl e
          | inr xs => inr (x :: xs)
          end
      end
  end.

(** [a * b] elementwise, with broadcasting of a one-element operand. *)
Fixpoint zip_mul (a b : list float) : list float :=
  match a, b with
  | x :: a', y :: b' => (x * y) :: zip_mul a' b'
  | _, _ => []
  end.

Definition mul (a b : list float) : Exn + list float :=
  if (List.length a =? List.length b)%nat then inr (zip_mul a b)
  else match a, b with
       | [x], _ => inr (map (fun y => x * y) b)
       | _, [y] => inr (map (fun x => x * y) a)
       | _, _ => inl (ValueError "operands could not be broadcast together")
       end.

(** [np.sum] of a boolean array: the number of [True] entries. *)
Definition count_true (bs : list bool) : nat :=
  List.length (filter (fun b => b) bs).

End Np.

(** ** Data model *)

(** Modelled from the spec: the [CalibrationResult] tuple of the imported
    [shaper_calibrate] module (a ShaperCandidate: name, target frequency,
    frequency response vector, vibration fraction, smoothing, maximum
    acceleration); the fields are those this module reads. *)
Record CalibrationResult : Type := mkCalibrationResult {
  name : string;
  freq : float;
  vals : list float;
  vibrs : float;
  smoothing : float;
  max_accel : float
}.

(** Modelled from the spec: the [CalibrationData] object of the imported
    [shaper_calibrate] module (frequency bins, per-axis and combined PSD).
    The attribute [freqs] does not exist until the pipeline assigns it. *)
Record CalibrationData : Type := mkCalibrationData {
  freq_bins : list float;
  psd_sum : list float;
  psd_x : list float;
  psd_y : list float;
  psd_z : list float;
  freqs : option (list float)
}.

(** ** The trace: console lines and drawing calls *)

(** Legend texts, kept with their arguments instead of the formatted string. *)
Inductive Label : Type :=
| Text (s : string)
| ShaperCurve (NAME : string) (f vibr_percent sm accel : float)
| RecommendedPerformance (NAME : string) (f : float)
| RecommendedLowVibrations (NAME : string) (f : float)
| RecommendedBest (NAME : string) (f : float)
| WithApplied (NAME : string)
| EstimatedDampingRatio (zeta : float).

(** [ax] and its twin [ax2] carry the frequency profile; the second subplot
    carries the spectrogram; [fig] is the figure itself. *)
Inductive Axes : Type := ax | ax2 | spectrogram_ax | fig.

Inductive FontStyle : Type := RedBold | BlackNormal.

Inductive TitleLine : Type :=
| Title (s : string)
| SquareCornerVelocity (scv : float)
| MaxAllowedSmoothing (max_smoothing : option float)
| Blank.

(** The Matplotlib calls the module makes, each with the arguments that
    carry data; colours of curves are kept where they tell the curves apart,
    the other styling arguments are dropped.  [plot_legend_line l] is
    [plot([], [], ' ', label=l)], [plot_markers] the ["x"] markers of the
    peaks, [annotate] the number written next to a peak. *)
Inductive Call : Type :=
| set_xlabel (s : string)
| set_xlim (lo hi : float)
| set_ylabel (s : string)
| set_ylim (lo hi : float)
| plot (xs ys : list float) (label : Label) (style : string)
| plot_legend_line (label : Label)
| plot_markers (xs ys : list float)
| xaxis_set_minor_locator
| yaxis_set_minor_locator
| ticklabel_format
| grid (which color : string)
| twinx
| yaxis_set_visible (b : bool)
| annotate (number : nat) (x y : float) (font : FontStyle)
| axhline (y : float)
| fill_between (xs : list float) (lo hi : float) (color : string) (label : Label)
| set_title (fr zeta : float)
| legend (loc : string)
| set_title_text (s : string)
| imshow (vmin : float) (extent : float * float * float * float)
| axvline (x : float)
| annotate_peak (number : nat) (x y : float)
| subplots
| set_size_inches
| fig_text (line : TitleLine).

(** The lines the module prints, with their arguments. *)
Inductive ConsoleLine : Type :=
| NoRecommendedShaper
| RecommendedShaper (NAME : string) (f scv zeta : float)
| PeaksDetected (num_peaks : Z) (peaks_freqs : list float) (above_effect : nat)
| FilenameWarning (csv_name : string)
| Logged (line : string).

Inductive Event : Type :=
| Print (line : ConsoleLine)
| Draw (target : Axes) (c : Call).

Definition Trace : Type := list Event.

(** ** Computations: a trace and either an exception or a value *)

(** A computation has printed and drawn [Trace] when it returns a value or
    raises; what was emitted before an exception stays in the trace. *)
Definition M (A : Type) : Type := (Trace * (Exn + A))%type.

Definition ret {A} (a : A) : M A := ([], inr a).

Definition raise {A} (e : Exn) : M A := ([], inl e).

Definition lift {A} (r : Exn + A) : M A := ([], r).

Definition emit (ev : Event) : M unit := ([ev], inr tt).

Definition bind {A B} (m : M A) (k : A -> M B) : M B :=
  match m with
  | (t, inl e) => (t, inl e)
  | (t, inr a) => let (t', r) := k a in (t ++ t', r)
  end.

Notation "x <- m ;; k" := (bind m (fun x => k))
  (at level 61, m at next level, right associativity).
Notation "m ;;; k" := (bind m (fun _ => k))
  (at level 61, right associativity).

(** A drawing call is recorded in the trace and returns.  Matplotlib's own
    checks of its arguments (two vectors of different lengths given to
    [plot], a NaN or infinite axis limit) are not part of this module and are
    not modelled: where such a call raises, the program stops there, and what
    it has printed and drawn is a prefix of the trace given here.  The
    properties below are therefore stated either about every line present in
    the trace, or about runs that return. *)
Definition draw (target : Axes) (c : Call) : M unit := emit (Draw target c).

(** A call that prints lines through [logger=print] before it returns or
    raises. *)
Definition logged {A} (r : list string * (Exn + A)) : M A :=
  (map (fun line => Print (Logged line)) (fst r), snd r).

Definition trace_of {A} (m : M A) : Trace := fst m.
Definition outcome {A} (m : M A) : Exn + A := snd m.

(** [for x in xs: s = body(s, x)] *)
Fixpoint for_each {A St} (body : St -> A -> M St) (xs : list A) (s : St)
  : M St :=
  match xs with
  | [] => ret s
  | x :: xs' => s' <- body s x ;; for_each body xs' s'
  end.

(** ** plot_freq_response (resonances.py, lines 77-228) *)

(** The locals assigned by the loop over the shapers (lines 107-115). *)
Record Locals : Type := mkLocals {
  lowvib_shaper_vibrs : float;
  lowvib_shaper : option string;
  lowvib_shaper_freq : option float;
  lowvib_shaper_accel : float;
  lowvib_shaper_vals : option (list float);
  performance_shaper_freq : option float;
  performance_shaper_vibr : option float;
  performance_shaper_vals : option (list float)
}.

Definition initial_locals : Locals :=
  {| lowvib_shaper_vibrs := infinity;
     lowvib_shaper := None;
     lowvib_shaper_freq := None;
     lowvib_shaper_accel := 0;
     lowvib_shaper_vals := None;
     performance_shaper_freq := None;
     performance_shaper_vibr := None;
     performance_shaper_vals := None |}.

(** Lines 128-130. *)
Definition assign_performance (st : Locals) (shaper : CalibrationResult)
  : Locals :=
  {| lowvib_shaper_vibrs := lowvib_shaper_vibrs st;
     lowvib_shaper := lowvib_shaper st;
     lowvib_shaper_freq := lowvib_shaper_freq st;
     lowvib_shaper_accel := lowvib_shaper_accel st;
     lowvib_shaper_vals := lowvib_shaper_vals st;
     performance_shaper_freq := Some (freq shaper);
     performance_shaper_vibr := Some (vibrs shaper * 100);
     performance_shaper_vals := Some (vals shaper) |}.

(** Lines 136-140. *)
Definition assign_lowvib (st : Locals) (shaper : CalibrationResult)
  (shaper_max_accel : float) : Locals :=
  {| lowvib_shaper_vibrs := vibrs shaper * 100;
     lowvib_shaper := Some (name shaper);
     lowvib_shaper_freq := Some (freq shaper);
     lowvib_shaper_accel := shaper_max_accel;
     lowvib_shaper_vals := Some (vals shaper);
     performance_shaper_freq := performance_shaper_freq st;
     performance_shaper_vibr := performance_shaper_vibr st;
     performance_shaper_vals := performance_shaper_vals st |}.

(** Line 120: [round(shaper.max_accel / 100.) * 100.] *)
Definition rounded_max_accel (shaper : CalibrationResult) : Exn + float :=
  match Py.round (max_accel shaper / 100) with
  | inl e => inl e
  | inr n =>
      match Py.float_of_int n with
      | inl e => inl e
      | inr f => inr (f * 100)
      end
  end.

(** The condition of lines 133-135. *)
Definition lowvib_condition (st : Locals) (shaper : CalibrationResult)
  (shaper_max_accel : float) : bool :=
  ((vibrs shaper * 100 <? lowvib_shaper_vibrs st)
   || ((vibrs shaper * 100 =? lowvib_shaper_vibrs st)
       && Py.gtb shaper_max_accel (lowvib_shaper_accel st)))
  && (smoothing shaper <? MAX_SMOOTHING).

(** The body of the loop, lines 120-140. *)
Definition shaper_step (freqs : list float) (performance_shaper : string)
  (st : Locals) (shaper : CalibrationResult) : M Locals :=
  shaper_max_accel <- lift (rounded_max_accel shaper) ;;
  draw ax2 (plot freqs (vals shaper)
              (ShaperCurve (Py.upper (name shaper)) (freq shaper)
                 (vibrs shaper * 100) (smoothing shaper) shaper_max_accel)
              "dotted") ;;;
  let st1 := if String.eqb (name shaper) performance_shaper
             then assign_performance st shaper else st in
  let st2 := if lowvib_condition st1 shaper shaper_max_accel
             then assign_lowvib st1 shaper shaper_max_accel else st1 in
  ret st2.

(** The condition of line 152, once the performance shaper is known. *)
Definition two_recommendations (st : Locals) (performance_shaper : string)
  (performance_vibr : float) : bool :=
  match lowvib_shaper st with
  | None => false
  | Some lowvib =>
      negb (String.eqb lowvib performance_shaper)
      && (lowvib_shaper_vibrs st <=? performance_vibr)
  end.

(** Lines 142-177: the check that a performance shaper was met, then the
    legend lines of the recommendation. *)
Definition recommend (freqs psd : list float) (performance_shaper : string)
  (st : Locals) : M unit :=
  match performance_shaper_freq st, performance_shaper_vibr st,
        performance_shaper_vals st with
  | Some p_freq, Some p_vibr, Some p_vals =>
      if two_recommendations st performance_shaper p_vibr then
        draw ax2 (plot_legend_line
          (RecommendedPerformance (Py.upper performance_shaper) p_freq)) ;;;
        with_perf <- lift (Np.mul psd p_vals) ;;
        draw ax (plot freqs with_perf
                   (WithApplied (Py.upper performance_shaper)) "cyan") ;;;
        match lowvib_shaper st, lowvib_shaper_freq st, lowvib_shaper_vals st
        with
        | Some l_name, Some l_freq, Some l_vals =>
            draw ax2 (plot_legend_line
              (RecommendedLowVibrations (Py.upper l_name) l_freq)) ;;;
            with_lowvib <- lift (Np.mul psd l_vals) ;;
            draw ax (plot freqs with_lowvib
                       (WithApplied (Py.upper l_name)) "lime")
        | _, _, _ => raise (TypeError "NoneType")
        end
      else
        draw ax2 (plot_legend_line
          (RecommendedBest (Py.upper performance_shaper) p_freq)) ;;;
        with_perf <- lift (Np.mul psd p_vals) ;;
        draw ax (plot freqs with_perf
                   (WithApplied (Py.upper performance_shaper)) "cyan")
  | _, _, _ => raise (ValueError "Failed to find a performance shaper")
  end.

(** Lines 186-191: a peak is drawn red and bold when its PSD value is above
    the effect threshold [peaks_threshold[1]]. *)
Definition peak_font (psd_at_peak effect_threshold : float) : FontStyle :=
  if Py.gtb psd_at_peak effect_threshold then RedBold else BlackNormal.

(** Lines 185-198: [for idx, peak in enumerate(peaks)]. *)
Fixpoint annotate_peaks (freqs psd : list float) (effect_threshold : float)
  (idx : nat) (peaks : list Z) : M unit :=
  match peaks with
  | [] => ret tt
  | peak :: peaks' =>
      p <- lift (Np.item psd peak) ;;
      let font := peak_font p effect_threshold in
      f <- lift (Np.item freqs peak) ;;
      draw ax (annotate (idx + 1) f p font) ;;;
      annotate_peaks freqs psd effect_threshold (S idx) peaks'
  end.

(** Lines 88-105: the axes, the four PSD curves and the twin axes. *)
Definition draw_axes (freqs psd px py pz : list float) (max_freq : float)
  : M unit :=
  draw ax (set_xlabel "Frequency (Hz)") ;;;
  draw ax (set_xlim 0 max_freq) ;;;
  draw ax (set_ylabel "Power spectral density") ;;;
  psd_max <- lift (Np.max psd) ;;
  draw ax (set_ylim 0 (psd_max + psd_max * 0.05)) ;;;
  draw ax (plot freqs psd (Text "X+Y+Z") "purple") ;;;
  draw ax (plot freqs px (Text "X") "red") ;;;
  draw ax (plot freqs py (Text "Y") "green") ;;;
  draw ax (plot freqs pz (Text "Z") "blue") ;;;
  draw ax xaxis_set_minor_locator ;;;
  draw ax yaxis_set_minor_locator ;;;
  draw ax ticklabel_format ;;;
  draw ax (grid "major" "grey") ;;;
  draw ax (grid "minor" "lightgrey") ;;;
  draw ax twinx ;;;
  draw ax2 (yaxis_set_visible false).

(** Lines 180-226: the damping ratio, the peaks with their numbers, the two
    threshold lines and regions, the title and the legends. *)
Definition draw_peaks (freqs psd : list float) (peaks : list Z)
  (peaks_freqs : list float) (peaks_threshold : float * float)
  (fr zeta : float) : M unit :=
  draw ax2 (plot_legend_line (EstimatedDampingRatio zeta)) ;;;
  psd_peaks <- lift (Np.take psd peaks) ;;
  draw ax (plot_markers peaks_freqs psd_peaks) ;;;
  annotate_peaks freqs psd (snd peaks_threshold) 0 peaks ;;;
  draw ax (axhline (fst peaks_threshold)) ;;;
  draw ax (axhline (snd peaks_threshold)) ;;;
  draw ax (fill_between freqs 0 (fst peaks_threshold) "green"
             (Text "Relax Region")) ;;;
  draw ax (fill_between freqs (fst peaks_threshold) (snd peaks_threshold)
             "orange" (Text "Warning Region")) ;;;
  draw ax (set_title fr zeta) ;;;
  draw ax (legend "upper left") ;;;
  draw ax2 (legend "upper right").

Definition plot_freq_response (calibration_data : CalibrationData)
  (shapers : list CalibrationResult) (performance_shaper : string)
  (peaks : list Z) (peaks_freqs : list float)
  (peaks_threshold : float * float) (fr zeta max_freq : float) : M unit :=
  freqs <- match freqs calibration_data with
           | Some f => ret f
           | None => raise (AttributeError "freqs")
           end ;;
  let psd := psd_sum calibration_data in
  let px := psd_x calibration_data in
  let py := psd_y calibration_data in
  let pz := psd_z calibration_data in
  draw_axes freqs psd px py pz max_freq ;;;
  st <- for_each (shaper_step freqs performance_shaper) shapers
          initial_locals ;;
  recommend freqs psd performance_shaper st ;;;
  draw_peaks freqs psd peaks peaks_freqs peaks_threshold fr zeta.

(** ** plot_spectrogram (resonances.py, lines 233-274) *)

(** [arr[0]] and [arr[-1]]. *)
Definition first_last (arr : list float) : Exn + (float * float) :=
  match Np.item arr 0, Np.item arr (-1) with
  | inr a, inr b => inr (a, b)
  | inl e, _ => inl e
  | _, inl e => inl e
  end.

Fixpoint mark_peaks (bins_last : float) (idx : nat) (peaks : list float)
  : M unit :=
  match peaks with
  | [] => ret tt
  | peak :: peaks' =>
      draw spectrogram_ax (axvline peak) ;;;
      draw spectrogram_ax (annotate_peak (idx + 1) peak (bins_last * 0.9)) ;;;
      mark_peaks bins_last (S idx) peaks'
  end.

(** [vmin_value] is [np.percentile(pdata, 5)], computed by the caller's
    NumPy; it is passed in here as [percentile]. *)
Definition plot_spectrogram {PData : Type}
  (percentile : PData -> float -> Exn + float)
  (t bins : list float) (pdata : PData) (peaks : option (list float))
  (max_freq : float) : M unit :=
  draw spectrogram_ax (set_title_text "Time-Frequency Spectrogram") ;;;
  vmin_value <- lift (percentile pdata SPECTROGRAM_LOW_PERCENTILE_FILTER) ;;
  tt' <- lift (first_last t) ;;
  bb <- lift (first_last bins) ;;
  draw spectrogram_ax
    (imshow vmin_value (fst tt', snd tt', fst bb, snd bb)) ;;;
  draw spectrogram_ax (set_xlim 0 max_freq) ;;;
  draw spectrogram_ax (set_ylabel "Time (s)") ;;;
  draw spectrogram_ax (set_xlabel "Frequency (Hz)") ;;;
  match peaks with
  | Some ps => mark_peaks (snd bb) 0 ps
  | None => ret tt
  end.

(** ** The imported collaborators

    [shaper_calibrate] and [common] are not part of this module: the
    pipeline is stated over any implementation of the functions it imports.
    Each may raise. *)
Record Collaborators : Type := mkCollaborators {
  Path : Type;
  RawData : Type;
  PData : Type;
  path_name : Path -> string;
  (** the header line built from the file name, [None] when the name does
      not have the expected shape (the [try] block raises) *)
  header_of_name : string -> option string;
  load_accelerometer_data : Path -> Exn + RawData;
  process_accelerometer_data : RawData -> Exn + CalibrationData;
  (** updates the calibration data in place; returns its new state *)
  normalize_to_frequencies : CalibrationData -> Exn + CalibrationData;
  (** returns [(fr, zeta, _)]; the third component, which the caller
      discards, is left out *)
  compute_mechanical_parameters :
    list float -> list float -> Exn + (float * float);
  (** [find_best_shaper calibration_data damping_ratio scv max_smoothing
      max_freq] returns [(shaper, all_shapers)], after the lines it prints
      through its logger *)
  find_best_shaper :
    CalibrationData -> float -> float -> option float -> float ->
    list string * (Exn + (option CalibrationResult * list CalibrationResult));
  (** returns [(pdata, bins, t)] *)
  compute_spectrogram : RawData -> Exn + (PData * list float * list float);
  (** [detect_peaks psd freqs threshold] returns
      [(num_peaks, peaks, peaks_freqs)] *)
  detect_peaks :
    list float -> list float -> float -> Exn + (Z * list Z * list float);
  percentile : PData -> float -> Exn + float
}.

Section Pipeline.

Variable env : Collaborators.

(** *** calibrate_shaper (lines 37-69) *)

Definition calibrate_shaper (data : RawData env)
  (max_smoothing : option float) (scv max_freq : float)
  : M (string * list CalibrationResult * CalibrationData * float * float) :=
  calibration_data <- lift (process_accelerometer_data env data) ;;
  calibration_data <- lift (normalize_to_frequencies env calibration_data) ;;
  mech <- lift (compute_mechanical_parameters env
                  (psd_sum calibration_data) (freq_bins calibration_data)) ;;
  let fr := fst mech in
  let zeta := snd mech in
  found <- logged (find_best_shaper env calibration_data zeta scv
                     max_smoothing max_freq) ;;
  let all_shapers := snd found in
  match fst found with
  | None =>
      emit (Print NoRecommendedShaper) ;;;
      raise (ValueError "Failed to find a shaper")
  | Some shaper =>
      emit (Print (RecommendedShaper (Py.upper (name shaper)) (freq shaper)
                     scv zeta)) ;;;
      ret (name shaper, all_shapers, calibration_data, fr, zeta)
  end.

(** *** graph_resonances_test_results (lines 282-385) *)

(** Lines 295-300: keep the part of the PSD data up to [max_freq]. *)
Definition trim (calibration_data : CalibrationData) (max_freq : float)
  : Exn + CalibrationData :=
  let freqs := freq_bins calibration_data in
  match Np.bool_index (psd_sum calibration_data) (Np.le_mask freqs max_freq)
  with inl e => inl e | inr new_sum =>
  match Np.bool_index (psd_x calibration_data) (Np.le_mask freqs max_freq)
  with inl e => inl e | inr new_x =>
  match Np.bool_index (psd_y calibration_data) (Np.le_mask freqs max_freq)
  with inl e => inl e | inr new_y =>
  match Np.bool_index (psd_z calibration_data) (Np.le_mask freqs max_freq)
  with inl e => inl e | inr new_z =>
  match Np.bool_index freqs (Np.le_mask freqs max_freq)
  with inl e => inl e | inr new_freqs =>
    inr {| freq_bins := freqs;
           psd_sum := new_sum;
           psd_x := new_x;
           psd_y := new_y;
           psd_z := new_z;
           freqs := Some new_freqs |}
  end end end end end.

(** The locals of the function once the peaks line is printed (line 318). *)
Record Analysis : Type := mkAnalysis {
  performance_shaper : string;
  shapers : list CalibrationResult;
  calibration_data : CalibrationData;
  a_fr : float;
  a_zeta : float;
  pdata : PData env;
  bins : list float;
  t : list float;
  peaks_threshold : float * float;
  num_peaks : Z;
  peaks : list Z;
  peaks_freqs : list float;
  num_peaks_above_effect_threshold : nat
}.

(** Lines 286-318. *)
Definition analyse (csv_path : Path env) (max_smoothing : option float)
  (scv max_freq : float) : M Analysis :=
  data <- lift (load_accelerometer_data env csv_path) ;;
  cal <- calibrate_shaper data max_smoothing scv max_freq ;;
  let '(performance_shaper, shapers, calibration_data, fr, zeta) := cal in
  spec <- lift (compute_spectrogram env data) ;;
  let '(pdata, bins, t) := spec in
  calibration_data <- lift (trim calibration_data max_freq) ;;
  freqs <- match freqs calibration_data with
           | Some f => ret f
           | None => raise (AttributeError "freqs")
           end ;;
  psd_max <- lift (Np.max (psd_sum calibration_data)) ;;
  let peaks_threshold :=
    (PEAKS_DETECTION_THRESHOLD * psd_max,
     PEAKS_EFFECT_THRESHOLD * psd_max) in
  detected <- lift (detect_peaks env (psd_sum calibration_data) freqs
                      (fst peaks_threshold)) ;;
  let '(num_peaks, peaks, peaks_freqs) := detected in
  psd_peaks <- lift (Np.take (psd_sum calibration_data) peaks) ;;
  let num_peaks_above_effect_threshold :=
    Np.count_true
      (map (fun p => Py.gtb p (snd peaks_threshold)) psd_peaks) in
  emit (Print (PeaksDetected num_peaks peaks_freqs
                 num_peaks_above_effect_threshold)) ;;;
  ret {| performance_shaper := performance_shaper;
         shapers := shapers;
         calibration_data := calibration_data;
         a_fr := fr;
         a_zeta := zeta;
         pdata := pdata;
         bins := bins;
         t := t;
         peaks_threshold := peaks_threshold;
         num_peaks := num_peaks;
         peaks := peaks;
         peaks_freqs := peaks_freqs;
         num_peaks_above_effect_threshold :=
           num_peaks_above_effect_threshold |}.

(** Lines 320-378: the figure and its header. *)
Definition figure_header (csv_path : Path env)
  (max_smoothing : option float) (scv : float) : M unit :=
  draw fig subplots ;;;
  draw fig set_size_inches ;;;
  draw fig (fig_text (Title "INPUT SHAPER CALIBRATION TOOL")) ;;;
  lines <- match header_of_name env (path_name env csv_path) with
           | Some title_line2 =>
               ret (Title title_line2, SquareCornerVelocity scv,
                    MaxAllowedSmoothing max_smoothing)
           | None =>
               emit (Print (FilenameWarning (path_name env csv_path))) ;;;
               ret (Title (path_name env csv_path), Blank, Blank)
           end ;;
  let '(title_line2, title_line3, title_line4) := lines in
  draw fig (fig_text title_line2) ;;;
  draw fig (fig_text title_line3) ;;;
  draw fig (fig_text title_line4).

(** Lines 320-385. *)
Definition render (csv_path : Path env) (max_smoothing : option float)
  (scv max_freq : float) (a : Analysis) : M unit :=
  figure_header csv_path max_smoothing scv ;;;
  plot_freq_response (calibration_data a) (shapers a)
    (performance_shaper a) (peaks a) (peaks_freqs a) (peaks_threshold a)
    (a_fr a) (a_zeta a) max_freq ;;;
  plot_spectrogram (percentile env) (t a) (bins a) (pdata a)
    (Some (peaks_freqs a)) max_freq.

Definition graph_resonances_test_results (csv_path : Path env)
  (max_smoothing : option float) (scv max_freq : float) : M unit :=
  a <- analyse csv_path max_smoothing scv max_freq ;;
  render csv_path max_smoothing scv max_freq a.

End Pipeline.

(** ** What a run recommends *)

(** The recommendation lines among the legend entries of a trace. *)
Definition recommendation_of (ev : Event) : list Label :=
  match ev with
  | Draw ax2 (plot_legend_line (RecommendedPerformance n f)) =>
      [RecommendedPerformance n f]
  | Draw ax2 (plot_legend_line (RecommendedLowVibrations n f)) =>
      [RecommendedLowVibrations n f]
  | Draw ax2 (plot_legend_line (RecommendedBest n f)) =>
      [RecommendedBest n f]
  | _ => []
  end.

Definition recommendations (t : Trace) : list Label :=
  flat_map recommendation_of t.

(** The state of the loop after one more shaper whose rounded maximum
    acceleration is [shaper_max_accel] (lines 127-140). *)
Definition next_locals (performance_shaper : string) (st : Locals)
  (shaper : CalibrationResult) (shaper_max_accel : float) : Locals :=
  let st1 := if String.eqb (name shaper) performance_shaper
             then assign_performance st shaper else st in
  if lowvib_condition st1 shaper shaper_max_accel
  then assign_lowvib st1 shaper shaper_max_accel else st1.

(** The loop of lines 119-140 without its drawing calls: the locals it ends
    with, or the exception of the first shaper whose rounding raises. *)
Fixpoint fold_locals (performance_shaper : string)
  (shapers : list CalibrationResult) (st : Locals) : Exn + Locals :=
  match shapers with
  | [] => inr st
  | shaper :: shapers' =>
      match rounded_max_accel shaper with
      | inl e => inl e
      | inr shaper_max_accel =>
          fold_locals performance_shaper shapers'
            (next_locals performance_shaper st shaper shaper_max_accel)
      end
  end.

(** The low-vibration locals describe one shaper of the list, which passed
    the smoothing test of line 135. *)
Definition lowvib_from (shapers : list CalibrationResult) (st : Locals)
  : Prop :=
  match lowvib_shaper st with
  | None => True
  | Some n =>
      exists s accel,
        In s shapers /\ name s = n
        /\ lowvib_shaper_freq st = Some (freq s)
        /\ lowvib_shaper_vals st = Some (vals s)
        /\ lowvib_shaper_vibrs st = vibrs s * 100
        /\ rounded_max_accel s = inr accel
        /\ lowvib_shaper_accel st = accel
        /\ (smoothing s <? MAX_SMOOTHING) = true
  end.

(** The three performance locals are assigned together. *)
Definition performance_locals_agree (st : Locals) : Prop :=
  (performance_shaper_freq st = None /\ performance_shaper_vibr st = None
   /\ performance_shaper_vals st = None)
  \/ (exists f v vs, performance_shaper_freq st = Some f
        /\ performance_shaper_vibr st = Some v
        /\ performance_shaper_vals st = Some vs).

(** ** Statements about the low-vibration choice *)

(** Every low-vibration recommendation of the trace names a shaper of the
    list whose smoothing is strictly below [bound]. *)
Definition chosen_below (bound : float) (shapers : list CalibrationResult)
  (t : Trace) : Prop :=
  forall NAME f,
    In (RecommendedLowVibrations NAME f) (recommendations t) ->
    exists s,
      In s shapers /\ Py.upper (name s) = NAME /\ freq s = f
      /\ (smoothing s <? bound) = true.

(** The candidate list a run of the pipeline hands to [plot_freq_response]:
    the [all_shapers] of the search, when the analysis gets that far. *)
Definition candidates_of_run (env : Collaborators) (csv_path : Path env)
  (max_smoothing : option float) (scv max_freq : float)
  : list CalibrationResult :=
  match outcome (analyse env csv_path max_smoothing scv max_freq) with
  | inr a => shapers env a
  | inl _ => []
  end.

(** The loop over [shapers] ends with [s] as the low-vibration shaper. *)
Definition picks (performance_shaper : string)
  (shapers : list CalibrationResult) (s : CalibrationResult) : Prop :=
  exists st,
    fold_locals performance_shaper shapers initial_locals = inr st
    /\ lowvib_shaper st = Some (name s)
    /\ lowvib_shaper_freq st = Some (freq s)
    /\ lowvib_shaper_vals st = Some (vals s).

(** ** Statements about the analysis *)

(** The thresholds of an analysis are 0.05 and 0.12 times the maximum of the
    trimmed combined PSD; its peaks are the detector's answer for the
    detection threshold alone; the effect threshold only counts, among the
    PSD values at those peaks, the ones strictly above it. *)
Definition thresholds_as_computed (env : Collaborators) (max_freq : float)
  (a : Analysis env) : Prop :=
  exists cd0 fs m psd_peaks,
    trim cd0 max_freq = inr (calibration_data env a)
    /\ freqs (calibration_data env a) = Some fs
    /\ Np.max (psd_sum (calibration_data env a)) = inr m
    /\ peaks_threshold env a = (0.05 * m, 0.12 * m)
    /\ detect_peaks env (psd_sum (calibration_data env a)) fs (0.05 * m)
       = inr (num_peaks env a, peaks env a, peaks_freqs env a)
    /\ Np.take (psd_sum (calibration_data env a)) (peaks env a)
       = inr psd_peaks
    /\ num_peaks_above_effect_threshold env a
       = List.length (filter (fun p => 0.12 * m <? p) psd_peaks)
    /\ forall p,
         peak_font p (snd (peaks_threshold env a)) = RedBold
         <-> (0.12 * m <? p) = true.

(** The four PSD vectors have the length of the trimmed frequency vector,
    and every frequency kept is at most [max_freq]. *)
Definition aligned_and_bounded (cd : CalibrationData) (max_freq : float)
  : Prop :=
  exists fs,
    freqs cd = Some fs
    /\ List.length (psd_sum cd) = List.length fs
    /\ List.length (psd_x cd) = List.length fs
    /\ List.length (psd_y cd) = List.length fs
    /\ List.length (psd_z cd) = List.length fs
    /\ Forall (fun f => (f <=? max_freq) = true) fs.

(** ** The selection as a function of the loop's locals *)

(** The recommendation lines that lines 152-177 draw when nothing raises. *)
Definition selected (performance_shaper : string) (st : Locals)
  : list Label :=
  match performance_shaper_freq st, performance_shaper_vibr st with
  | Some p_freq, Some p_vibr =>
      if two_recommendations st performance_shaper p_vibr then
        match lowvib_shaper st, lowvib_shaper_freq st with
        | Some l_name, Some l_freq =>
            [RecommendedPerformance (Py.upper performance_shaper) p_freq;
             RecommendedLowVibrations (Py.upper l_name) l_freq]
        | _, _ =>
            [RecommendedPerformance (Py.upper performance_shaper) p_freq]
        end
      else [RecommendedBest (Py.upper performance_shaper) p_freq]
  | _, _ => []
  end.

(** ** A concrete run

    A capture whose analysis finds two shapers: [zv], the performance pick of
    the search, and [mzv], with less vibration and a smoothing of 0.07. *)

Definition zv : CalibrationResult :=
  {| name := "zv"; freq := 60; vals := [0.5; 0.1; 0.4];
     vibrs := 0.05; smoothing := 0.03; max_accel := 9000 |}.

Definition mzv : CalibrationResult :=
  {| name := "mzv"; freq := 52; vals := [0.4; 0.05; 0.3];
     vibrs := 0.01; smoothing := 0.07; max_accel := 6000 |}.

Definition demo_shapers : list CalibrationResult := [zv; mzv].

Definition demo_data : CalibrationData :=
  {| freq_bins := [10; 20; 30; 250];
     psd_sum := [1; 9; 2; 1];
     psd_x := [0.5; 4; 1; 0.5];
     psd_y := [0.25; 3; 0.5; 0.25];
     psd_z := [0.25; 2; 0.5; 0.25];
     freqs := None |}.

(** Collaborators that return the capture above whatever they are given; the
    search reports [best] as its pick among [all_shapers]. *)
Definition demo_env (best : option CalibrationResult)
  (all_shapers : list CalibrationResult) : Collaborators :=
  {| Path := string;
     RawData := unit;
     PData := unit;
     path_name := fun p => p;
     header_of_name := fun _ => None;
     load_accelerometer_data := fun _ => inr tt;
     process_accelerometer_data := fun _ => inr demo_data;
     normalize_to_frequencies := fun cd => inr cd;
     compute_mechanical_parameters := fun _ _ => inr (20, 0.05);
     find_best_shaper := fun _ _ _ _ _ =>
       (["Fitting the shapers"], inr (best, all_shapers));
     compute_spectrogram := fun _ => inr (tt, [0; 100; 200], [0; 1; 2]);
     detect_peaks := fun _ _ _ => inr (1%Z, [1%Z], [20]);
     percentile := fun _ _ => inr 1 |}.

(** Two shapers with the same vibration fraction and a smoothing below
    [MAX_SMOOTHING]; their maximum accelerations, 8000 and 8040, round to the
    same multiple of 100. *)
Definition ei_8000 : CalibrationResult :=
  {| name := "ei"; freq := 48; vals := [0.3; 0.1; 0.2];
     vibrs := 0.02; smoothing := 0.06; max_accel := 8000 |}.

Definition two_hump_ei_8040 : CalibrationResult :=
  {| name := "2hump_ei"; freq := 44; vals := [0.2; 0.1; 0.2];
     vibrs := 0.02; smoothing := 0.08; max_accel := 8040 |}.

(** The same pair further apart: 8000 and 8400. *)
Definition two_hump_ei_8400 : CalibrationResult :=
  {| name := "2hump_ei"; freq := 44; vals := [0.2; 0.1; 0.2];
     vibrs := 0.02; smoothing := 0.08; max_accel := 8400 |}.

(** Scenario 2 of the specification; the target frequency and the response
    curve of the two candidates are left open. *)
Definition candidate_A (f : float) (v : list float) : CalibrationResult :=
  {| name := "A"; freq := f; vals := v;
     vibrs := 0.02; smoothing := 0.05; max_accel := 8000 |}.

Definition candidate_B (f : float) (v : list float) : CalibrationResult :=
  {| name := "B"; freq := f; vals := v;
     vibrs := 0.01; smoothing := 0.15; max_accel := 6000 |}.

(** The capture of the concrete run, trimmed to 200 Hz. *)
Definition demo_trimmed : CalibrationData :=
  {| freq_bins := [10; 20; 30; 250];
     psd_sum := [1; 9; 2];
     psd_x := [0.5; 4; 1];
     psd_y := [0.25; 3; 0.5];
     psd_z := [0.25; 2; 0.5];
     freqs := Some [10; 20; 30] |}.

(** The analysis of the concrete run at 200 Hz. *)
Definition demo_analysis : Analysis (demo_env (Some zv) demo_shapers) :=
  mkAnalysis (demo_env (Some zv) demo_shapers)
    "zv" demo_shapers demo_trimmed 20 0.05
    tt [0; 100; 200] [0; 1; 2]
    (0.05 * 9, 0.12 * 9) 1%Z [1%Z] [20] 1.

(** Another capture, with other PSD values on another frequency grid. *)
Definition other_trimmed : CalibrationData :=
  {| freq_bins := [5; 15; 25];
     psd_sum := [3; 2; 7];
     psd_x := [1; 1; 3];
     psd_y := [1; 0.5; 2];
     psd_z := [1; 0.5; 2];
     freqs := Some [5; 15; 25] |}.

(** ** An order on the binary64 values

    Every value but NaN gets a rank, a triple of integers compared
    lexicographically: the class (infinities, finite values by sign, the two
    zeros), then the exponent, then the mantissa. *)

Definition rank (x : spec_float) : option (Z * Z * Z) :=
  match x with
  | S754_nan => None
  | S754_zero _ => Some (0, 0, 0)%Z
  | S754_infinity s => Some (if s then (-2)%Z else 2%Z, 0%Z, 0%Z)
  | S754_finite s m e =>
      Some (if s then ((-1)%Z, (- e)%Z, Zneg m) else (1%Z, e, Zpos m))
  end.

Definition lex3 (a b : Z * Z * Z) : comparison :=
  match (fst (fst a) ?= fst (fst b))%Z with
  | Eq => match (snd (fst a) ?= snd (fst b))%Z with
          | Eq => (snd a ?= snd b)%Z
          | c => c
          end
  | c => c
  end.

Definition lt3 (a b : Z * Z * Z) : Prop :=
  (fst (fst a) < fst (fst b)
   \/ (fst (fst a) = fst (fst b)
       /\ (snd (fst a) < snd (fst b)
           \/ (snd (fst a) = snd (fst b) /\ snd a < snd b))))%Z.

(** ** More statements about the loop over the shapers *)

(** No shaper of [seen] that passes the smoothing test has a vibration
    percentage below the low-vibration one, nor the same percentage with a
    rounded maximum acceleration above the low-vibration one; as long as no
    shaper is picked the low-vibration percentage is still infinity. *)
Definition minimal_among (seen : list CalibrationResult) (st : Locals)
  : Prop :=
  (lowvib_shaper st = None -> lowvib_shaper_vibrs st = infinity)
  /\ forall s,
       In s seen -> (smoothing s <? MAX_SMOOTHING) = true ->
       (vibrs s * 100 <? lowvib_shaper_vibrs st) = false
       /\ forall accel,
            rounded_max_accel s = inr accel ->
            (vibrs s * 100 =? lowvib_shaper_vibrs st) = true ->
            (lowvib_shaper_accel st <? accel) = false.

(** The performance locals describe one shaper of the list that bears the
    performance name. *)
Definition performance_from (shapers : list CalibrationResult)
  (perf : string) (st : Locals) : Prop :=
  match performance_shaper_freq st with
  | None => True
  | Some f =>
      exists p,
        In p shapers /\ name p = perf /\ f = freq p
        /\ performance_shaper_vibr st = Some (vibrs p * 100)
        /\ performance_shaper_vals st = Some (vals p)
  end.

(** ** More observations on a trace *)

(** The numbers written next to the peaks of the frequency profile. *)
Definition annotation_of (ev : Event)
  : list (nat * float * float * FontStyle) :=
  match ev with
  | Draw ax (annotate n x y font) => [(n, x, y, font)]
  | _ => []
  end.

Definition annotations (t : Trace) : list (nat * float * float * FontStyle) :=
  flat_map annotation_of t.

Definition is_red_bold (a : nat * float * float * FontStyle) : bool :=
  match snd a with RedBold => true | BlackNormal => false end.

(** The drawing calls of a trace. *)
Definition drawing_of (ev : Event) : list (Axes * Call) :=
  match ev with
  | Draw target c => [(target, c)]
  | Print _ => []
  end.

Definition drawings (t : Trace) : list (Axes * Call) :=
  flat_map drawing_of t.

(** The vertical lines and the labels of the peaks on the spectrogram. *)
Definition peak_mark_of (ev : Event) : list Call :=
  match ev with
  | Draw spectrogram_ax (axvline x) => [axvline x]
  | Draw spectrogram_ax (annotate_peak n x y) => [annotate_peak n x y]
  | _ => []
  end.

Definition peak_marks (t : Trace) : list Call := flat_map peak_mark_of t.

(** What lines 264-272 draw for the peaks, numbered from [idx + 1]. *)
Fixpoint expected_peak_marks (bins_last : float) (idx : nat)
  (peaks : list float) : list Call :=
  match peaks with
  | [] => []
  | peak :: peaks' =>
      axvline peak :: annotate_peak (idx + 1) peak (bins_last * 0.9)
      :: expected_peak_marks bins_last (S idx) peaks'
  end.

(** What lines 185-198 write for peaks at frequencies [fs] with PSD values
    [ps], numbered from [idx + 1]. *)
Fixpoint expected_annotations (effect_threshold : float) (idx : nat)
  (fs ps : list float) : list (nat * float * float * FontStyle) :=
  match fs, ps with
  | f :: fs', p :: ps' =>
      ((idx + 1)%nat, f, p, peak_font p effect_threshold)
      :: expected_annotations effect_threshold (S idx) fs' ps'
  | _, _ => []
  end.

(** The locals after the loop over [demo_shapers] with [zv] as the
    performance shaper. *)
Definition demo_locals : Locals :=
  {| lowvib_shaper_vibrs := 1;
     lowvib_shaper := Some "mzv";
     lowvib_shaper_freq := Some 52;
     lowvib_shaper_accel := 6000;
     lowvib_shaper_vals := Some [0.4; 0.05; 0.3];
     performance_shaper_freq := Some 60;
     performance_shaper_vibr := Some 5;
     performance_shaper_vals := Some [0.5; 0.1; 0.4] |}.

(** Two shapers whose vibration fractions differ by one unit in the last
    place and give the same percentage 1.3 once multiplied by 100; the first
    bears the performance name and fails the smoothing test. *)
Definition zv_13 : CalibrationResult :=
  {| name := "zv"; freq := 60; vals := [0.5; 0.1; 0.4];
     vibrs := 0.013; smoothing := 0.15; max_accel := 9000 |}.

Definition mzv_13 : CalibrationResult :=
  {| name := "mzv"; freq := 52; vals := [0.4; 0.05; 0.3];
     vibrs := 0.013000000000000001; smoothing := 0.07; max_accel := 6000 |}.

(** * Properties *)

(** ** Facts on binary64 comparisons *)

Module FloatFacts.

Lemma compare_cont_Eq_antisym (m1 m2 : positive) :
  PosDef.Pos.compare_cont Eq m2 m1
  = CompOpp (PosDef.Pos.compare_cont Eq m1 m2).
Proof.
  change PosDef.Pos.compare_cont with Pos.compare_cont.
  rewrite Pos.compare_cont_antisym. reflexivity.
Qed.

Lemma SFcompare_antisym (x y : spec_float) :
  SFcompare y x = option_map CompOpp (SFcompare x y).
Proof.
  destruct x as [sx| sx | |sx mx ex], y as [sy|sy| |sy my ey]; simpl;
    try reflexivity;
    try (destruct sx; reflexivity); try (destruct sy; reflexivity);
    try (destruct sx, sy; reflexivity).
  rewrite (Z.compare_antisym ex ey), (compare_cont_Eq_antisym mx my).
  destruct sx, sy, (ex ?= ey)%Z; simpl; try reflexivity.
Qed.

Lemma SFcompare_refl (x : spec_float) :
  SFcompare x x = None \/ SFcompare x x = Some Eq.
Proof.
  destruct x as [s|s| |s m e]; simpl; auto.
  - destruct s; auto.
  - right. rewrite Z.compare_refl.
    change PosDef.Pos.compare_cont with Pos.compare_cont.
    replace (Pos.compare_cont Eq m m) with Eq
      by (symmetry; apply Pos.compare_refl).
    destruct s; reflexivity.
Qed.

Lemma ltb_asym (x y : float) : (x <? y) = true -> (y <? x) = false.
Proof.
  rewrite !ltb_spec. unfold SFltb.
  rewrite (SFcompare_antisym (Prim2SF x) (Prim2SF y)).
  destruct (SFcompare (Prim2SF x) (Prim2SF y)) as [[]|]; simpl; congruence.
Qed.


Lemma ltb_irrefl (x : float) : (x <? x) = false.
Proof.
  rewrite ltb_spec. unfold SFltb.
  destruct (SFcompare_refl (Prim2SF x)) as [H|H]; rewrite H; reflexivity.
Qed.

(** A float below another one is not NaN, so it equals itself. *)
Lemma ltb_eqb_refl (x y : float) : (x <? y) = true -> (x =? x) = true.
Proof.
  rewrite ltb_spec, eqb_spec. unfold SFltb, SFeqb.
  destruct (SFcompare_refl (Prim2SF x)) as [H|H]; rewrite H; auto.
  destruct (Prim2SF x) as [s|s| |s m e]; simpl in *; try discriminate.
Qed.

End FloatFacts.

(** ** Facts on traces and outcomes *)

Lemma trace_bind {A B} (m : M A) (k : A -> M B) :
  trace_of (bind m k)
  = trace_of m ++ match outcome m with
                  | inl _ => []
                  | inr a => trace_of (k a)
                  end.
Proof.
  destruct m as [t [e|a]]; simpl.
  - now rewrite app_nil_r.
  - destruct (k a); reflexivity.
Qed.

Lemma outcome_bind {A B} (m : M A) (k : A -> M B) :
  outcome (bind m k)
  = match outcome m with
    | inl e => inl e
    | inr a => outcome (k a)
    end.
Proof.
  destruct m as [t [e|a]]; simpl; [reflexivity|].
  destruct (k a); reflexivity.
Qed.

Lemma trace_draw (target : Axes) (c : Call) :
  trace_of (draw target c) = [Draw target c].
Proof. reflexivity. Qed.

Lemma outcome_draw (target : Axes) (c : Call) :
  outcome (draw target c) = inr tt.
Proof. reflexivity. Qed.

Lemma trace_emit (ev : Event) : trace_of (emit ev) = [ev].
Proof. reflexivity. Qed.

Lemma outcome_emit (ev : Event) : outcome (emit ev) = inr tt.
Proof. reflexivity. Qed.

Lemma trace_lift {A} (r : Exn + A) : trace_of (lift r) = [].
Proof. reflexivity. Qed.

Lemma outcome_lift {A} (r : Exn + A) : outcome (lift r) = r.
Proof. reflexivity. Qed.

Lemma trace_ret {A} (a : A) : trace_of (ret a) = [].
Proof. reflexivity. Qed.

Lemma outcome_ret {A} (a : A) : outcome (ret a) = inr a.
Proof. reflexivity. Qed.

Lemma trace_raise {A} (e : Exn) : trace_of (@raise A e) = [].
Proof. reflexivity. Qed.

Lemma outcome_raise {A} (e : Exn) : outcome (@raise A e) = inl e.
Proof. reflexivity. Qed.

Lemma trace_logged {A} (r : list string * (Exn + A)) :
  trace_of (logged r) = map (fun line => Print (Logged line)) (fst r).
Proof. reflexivity. Qed.

Lemma outcome_logged {A} (r : list string * (Exn + A)) :
  outcome (logged r) = snd r.
Proof. reflexivity. Qed.

Lemma logged_recommends_nothing (lines : list string) :
  recommendations (map (fun line => Print (Logged line)) lines) = [].
Proof. induction lines as [|l lines IH]; simpl; auto. Qed.

Lemma recommendations_app (t1 t2 : Trace) :
  recommendations (t1 ++ t2) = recommendations t1 ++ recommendations t2.
Proof. unfold recommendations. apply flat_map_app. Qed.

Create Rewrite HintDb run.

#[local] Hint Rewrite @trace_bind @outcome_bind trace_draw outcome_draw
  trace_emit outcome_emit @trace_lift @outcome_lift @trace_ret @outcome_ret
  @trace_raise @outcome_raise @trace_logged @outcome_logged
  logged_recommends_nothing recommendations_app : run.

Arguments bind : simpl never.
Arguments draw : simpl never.
Arguments emit : simpl never.
Arguments lift : simpl never.
Arguments ret : simpl never.
Arguments raise : simpl never.
Arguments logged : simpl never.
Arguments trace_of : simpl never.
Arguments outcome : simpl never.

Ltac run_simpl := autorewrite with run; simpl.

(** ** Checks on concrete values *)

Example round_half_to_even :
  Py.round 2.5 = inr 2%Z /\ Py.round 3.5 = inr 4%Z
  /\ Py.round (-0.5) = inr 0%Z /\ Py.round (8040 / 100) = inr 80%Z
  /\ Py.round (8050 / 100) = inr 80%Z /\ Py.round (8051 / 100) = inr 81%Z.
Proof. vm_compute. repeat split. Qed.

Example round_raises :
  Py.round nan = inl (ValueError "cannot convert float NaN to integer")
  /\ Py.round infinity
     = inl (OverflowError "cannot convert float infinity to integer").
Proof. vm_compute. split; reflexivity. Qed.

Example upper_of_name : Py.upper "2hump_ei" = "2HUMP_EI".
Proof. reflexivity. Qed.

Example max_of_array :
  Np.max [1; 9; 2] = inr 9 /\ Np.max [1; nan; 2] = inr nan
  /\ Np.max []
     = inl (ValueError
         "zero-size array to reduction operation maximum which has no identity").
Proof. vm_compute. repeat split. Qed.

Example index_from_the_end :
  Np.item [10; 20; 30] (-1) = inr 30
  /\ Np.item [10; 20; 30] 3 = inl (IndexError "index out of bounds").
Proof. vm_compute. split; reflexivity. Qed.

Example mask_up_to_200 :
  Np.bool_index [1; 9; 2; 1] (Np.le_mask [10; 20; 30; 250] 200)
  = inr [1; 9; 2].
Proof. vm_compute. reflexivity. Qed.

Example percent_of_fraction : 0.02 * 100 = 2 /\ 0.01 * 100 = 1.
Proof. vm_compute. split; reflexivity. Qed.

Example demo_run_recommends :
  recommendations
    (trace_of (graph_resonances_test_results
                 (demo_env (Some zv) demo_shapers) "capture.csv"
                 (Some 0.05) 5 200))
  = [RecommendedPerformance "ZV" 60; RecommendedLowVibrations "MZV" 52].
Proof. vm_compute. reflexivity. Qed.

Example demo_run_analysis :
  outcome (analyse (demo_env (Some zv) demo_shapers) "capture.csv"
             (Some 0.05) 5 200)
  = inr demo_analysis.
Proof. vm_compute. reflexivity. Qed.

(** ** The loop over the shapers *)

Lemma shaper_step_eq (fs : list float) (perf : string) (st : Locals)
  (s : CalibrationResult) :
  shaper_step fs perf st s
  = match rounded_max_accel s with
    | inl e => ([], inl e)
    | inr accel =>
        ([Draw ax2 (plot fs (vals s)
                      (ShaperCurve (Py.upper (name s)) (freq s)
                         (vibrs s * 100) (smoothing s) accel) "dotted")],
         inr (next_locals perf st s accel))
    end.
Proof.
  unfold shaper_step, next_locals.
  destruct (rounded_max_accel s); reflexivity.
Qed.

Lemma loop_outcome (fs : list float) (perf : string)
  (shapers : list CalibrationResult) :
  forall st,
    outcome (for_each (shaper_step fs perf) shapers st)
    = fold_locals perf shapers st.
Proof.
  induction shapers as [|s rest IH]; intro st; simpl; [reflexivity|].
  rewrite outcome_bind, shaper_step_eq.
  destruct (rounded_max_accel s); simpl; [reflexivity | apply IH].
Qed.

Lemma loop_recommends_nothing (fs : list float) (perf : string)
  (shapers : list CalibrationResult) :
  forall st,
    recommendations (trace_of (for_each (shaper_step fs perf) shapers st))
    = [].
Proof.
  induction shapers as [|s rest IH]; intro st; simpl; [reflexivity|].
  rewrite trace_bind, recommendations_app, shaper_step_eq.
  destruct (rounded_max_accel s); simpl; [reflexivity | apply IH].
Qed.

Lemma lowvib_from_incl (l1 l2 : list CalibrationResult) (st : Locals) :
  incl l1 l2 -> lowvib_from l1 st -> lowvib_from l2 st.
Proof.
  unfold lowvib_from. intros Hincl H.
  destruct (lowvib_shaper st) as [n|]; [|exact I].
  destruct H as (s & accel & Hin & H). exists s, accel. split; auto.
Qed.

Lemma next_locals_lowvib_from (perf : string) (seen : list CalibrationResult)
  (st : Locals) (s : CalibrationResult) (accel : float) :
  rounded_max_accel s = inr accel ->
  lowvib_from seen st ->
  lowvib_from (s :: seen) (next_locals perf st s accel).
Proof.
  intros Hr Hst. unfold next_locals.
  set (st1 := if String.eqb (name s) perf then assign_performance st s
              else st).
  assert (H1 : lowvib_from seen st1).
  { subst st1. destruct (String.eqb (name s) perf); exact Hst. }
  destruct (lowvib_condition st1 s accel) eqn:Hc.
  - unfold lowvib_from; simpl. exists s, accel.
    unfold lowvib_condition in Hc. apply andb_true_iff in Hc.
    destruct Hc as [_ Hsm]. repeat split; auto with datatypes.
  - apply lowvib_from_incl with (l1 := seen); [|exact H1].
    intros x Hx; now right.
Qed.

Lemma fold_locals_lowvib_from (perf : string)
  (shapers : list CalibrationResult) :
  forall seen st st',
    lowvib_from seen st ->
    fold_locals perf shapers st = inr st' ->
    lowvib_from (rev shapers ++ seen) st'.
Proof.
  induction shapers as [|s rest IH]; intros seen st st' Hst Hf; simpl in *.
  - now inversion Hf; subst.
  - destruct (rounded_max_accel s) as [e|accel] eqn:Hr; [discriminate|].
    rewrite <- app_assoc. simpl.
    apply (IH (s :: seen) _ _ (next_locals_lowvib_from perf seen st s accel Hr Hst) Hf).
Qed.

(** After the loop, a low-vibration shaper is one of the list and passed the
    smoothing test. *)
Lemma loop_lowvib_from (perf : string) (shapers : list CalibrationResult)
  (st : Locals) :
  fold_locals perf shapers initial_locals = inr st ->
  lowvib_from shapers st.
Proof.
  intro Hf.
  apply lowvib_from_incl with (l1 := rev shapers ++ []).
  - rewrite app_nil_r. intros x Hx. now apply in_rev.
  - apply (fold_locals_lowvib_from perf shapers [] initial_locals);
      [exact I | exact Hf].
Qed.

Lemma next_locals_performance_agree (perf : string) (st : Locals)
  (s : CalibrationResult) (accel : float) :
  performance_locals_agree st ->
  performance_locals_agree (next_locals perf st s accel).
Proof.
  intro H. unfold next_locals.
  set (st1 := if String.eqb (name s) perf then assign_performance st s
              else st).
  assert (H1 : performance_locals_agree st1).
  { subst st1. destruct (String.eqb (name s) perf); [|exact H].
    right. simpl. eauto 6. }
  destruct (lowvib_condition st1 s accel); [|exact H1].
  exact H1.
Qed.

Lemma fold_locals_performance_agree (perf : string)
  (shapers : list CalibrationResult) :
  forall st st',
    performance_locals_agree st ->
    fold_locals perf shapers st = inr st' ->
    performance_locals_agree st'.
Proof.
  induction shapers as [|s rest IH]; intros st st' Hst Hf; simpl in *.
  - now inversion Hf; subst.
  - destruct (rounded_max_accel s) as [e|accel]; [discriminate|].
    eapply IH; [|exact Hf]. now apply next_locals_performance_agree.
Qed.

(** When no shaper of the list bears the performance name, the loop leaves
    the performance locals as they were. *)
Lemma fold_locals_no_performance (perf : string)
  (shapers : list CalibrationResult) :
  (forall s, In s shapers -> name s <> perf) ->
  forall st st',
    fold_locals perf shapers st = inr st' ->
    performance_shaper_freq st' = performance_shaper_freq st.
Proof.
  induction shapers as [|s rest IH]; intros Hno st st' Hf; simpl in *.
  - now inversion Hf; subst.
  - destruct (rounded_max_accel s) as [e|accel]; [discriminate|].
    rewrite (IH (fun x Hx => Hno x (or_intror Hx)) _ _ Hf).
    unfold next_locals.
    destruct (String.eqb (name s) perf) eqn:Heq.
    + apply String.eqb_eq in Heq. exfalso. apply (Hno s); auto.
    + destruct (lowvib_condition st s accel); reflexivity.
Qed.

(** ** The phases of plot_freq_response *)

Ltac run_steps := repeat (progress (autorewrite with run; simpl)).

(** Closes a goal whose premise says that a run that raised returned. *)
Ltac raised := let H := fresh "H" in intro H; discriminate H.

Lemma draw_axes_recommends_nothing (fs psd px py pz : list float)
  (max_freq : float) :
  recommendations (trace_of (draw_axes fs psd px py pz max_freq)) = [].
Proof.
  unfold draw_axes. run_steps.
  destruct (Np.max psd); run_steps; reflexivity.
Qed.

Lemma draw_axes_outcome (fs psd px py pz : list float) (max_freq : float) :
  outcome (draw_axes fs psd px py pz max_freq)
  = match Np.max psd with
    | inl e => inl e
    | inr _ => inr tt
    end.
Proof.
  unfold draw_axes. run_steps.
  destruct (Np.max psd); run_steps; reflexivity.
Qed.

Lemma annotate_peaks_recommends_nothing (fs psd : list float) (thr : float)
  (peaks : list Z) :
  forall idx,
    recommendations (trace_of (annotate_peaks fs psd thr idx peaks)) = [].
Proof.
  induction peaks as [|p rest IH]; intro idx; simpl; [reflexivity|].
  run_steps.
  destruct (Np.item psd p); run_steps; [reflexivity|].
  destruct (Np.item fs p); run_steps; [reflexivity|].
  apply IH.
Qed.

Lemma draw_peaks_recommends_nothing (fs psd : list float) (peaks : list Z)
  (peaks_freqs : list float) (thr : float * float) (fr zeta : float) :
  recommendations
    (trace_of (draw_peaks fs psd peaks peaks_freqs thr fr zeta)) = [].
Proof.
  unfold draw_peaks. run_steps.
  destruct (Np.take psd peaks); run_steps; [reflexivity|].
  rewrite annotate_peaks_recommends_nothing.
  destruct (outcome (annotate_peaks fs psd (snd thr) 0 peaks));
    run_steps; reflexivity.
Qed.

(** Without a performance shaper nothing is recommended and the call
    raises (lines 142-146). *)
Lemma recommend_without_performance (fs psd : list float) (perf : string)
  (st : Locals) :
  performance_shaper_freq st = None ->
  recommend fs psd perf st
  = ([], inl (ValueError "Failed to find a performance shaper")).
Proof. intro H. unfold recommend. rewrite H. reflexivity. Qed.

(** The [else] branch of line 169: one "best shaper" line. *)
Lemma recommend_collapsed (fs psd : list float) (perf : string) (st : Locals)
  (p_freq p_vibr : float) (p_vals : list float) :
  performance_shaper_freq st = Some p_freq ->
  performance_shaper_vibr st = Some p_vibr ->
  performance_shaper_vals st = Some p_vals ->
  two_recommendations st perf p_vibr = false ->
  recommendations (trace_of (recommend fs psd perf st))
  = [RecommendedBest (Py.upper perf) p_freq].
Proof.
  intros Hf Hv Hvals Htwo. unfold recommend.
  rewrite Hf, Hv, Hvals, Htwo. run_steps.
  destruct (Np.mul psd p_vals); reflexivity.
Qed.

Lemma plot_recommendations (cd : CalibrationData)
  (shapers : list CalibrationResult) (perf : string) (peaks : list Z)
  (peaks_freqs : list float) (thr : float * float)
  (fr zeta max_freq : float) :
  recommendations
    (trace_of (plot_freq_response cd shapers perf peaks peaks_freqs thr
                 fr zeta max_freq))
  = match freqs cd, Np.max (psd_sum cd),
          fold_locals perf shapers initial_locals with
    | Some fs, inr _, inr st =>
        recommendations (trace_of (recommend fs (psd_sum cd) perf st))
    | _, _, _ => []
    end.
Proof.
  unfold plot_freq_response.
  destruct (freqs cd) as [fs|]; [|reflexivity].
  run_steps.
  rewrite draw_axes_recommends_nothing, draw_axes_outcome.
  destruct (Np.max (psd_sum cd)); [reflexivity|].
  run_steps. rewrite loop_recommends_nothing, loop_outcome.
  destruct (fold_locals perf shapers initial_locals) as [e|st];
    [reflexivity|].
  run_steps.
  destruct (outcome (recommend fs (psd_sum cd) perf st)).
  - now rewrite app_nil_r.
  - rewrite draw_peaks_recommends_nothing. now rewrite app_nil_r.
Qed.

Lemma plot_outcome_before_recommend (cd : CalibrationData)
  (shapers : list CalibrationResult) (perf : string) (peaks : list Z)
  (peaks_freqs : list float) (thr : float * float)
  (fr zeta max_freq : float) :
  outcome (plot_freq_response cd shapers perf peaks peaks_freqs thr
             fr zeta max_freq)
  = match freqs cd with
    | None => inl (AttributeError "freqs")
    | Some fs =>
        match Np.max (psd_sum cd) with
        | inl e => inl e
        | inr _ =>
            match fold_locals perf shapers initial_locals with
            | inl e => inl e
            | inr st =>
                match outcome (recommend fs (psd_sum cd) perf st) with
                | inl e => inl e
                | inr _ =>
                    outcome (draw_peaks fs (psd_sum cd) peaks peaks_freqs
                               thr fr zeta)
                end
            end
        end
    end.
Proof.
  unfold plot_freq_response.
  destruct (freqs cd) as [fs|]; [|reflexivity].
  run_steps. rewrite draw_axes_outcome.
  destruct (Np.max (psd_sum cd)); [reflexivity|].
  run_steps. rewrite loop_outcome.
  destruct (fold_locals perf shapers initial_locals) as [e|st];
    [reflexivity|].
  run_steps. reflexivity.
Qed.

(** ** The phases of graph_resonances_test_results *)

Lemma calibrate_shaper_recommends_nothing (env : Collaborators)
  (data : RawData env) (max_smoothing : option float) (scv max_freq : float) :
  recommendations
    (trace_of (calibrate_shaper env data max_smoothing scv max_freq)) = [].
Proof.
  unfold calibrate_shaper. run_steps.
  destruct (process_accelerometer_data env data) as [e|cd0]; run_steps;
    [reflexivity|].
  destruct (normalize_to_frequencies env cd0) as [e|cd]; run_steps;
    [reflexivity|].
  destruct (compute_mechanical_parameters env (psd_sum cd) (freq_bins cd))
    as [e|mech]; run_steps; [reflexivity|].
  destruct (find_best_shaper env cd (snd mech) scv max_smoothing max_freq)
    as [lines [e|[[best|] all]]]; run_steps; reflexivity.
Qed.

Lemma analyse_recommends_nothing (env : Collaborators) (csv_path : Path env)
  (max_smoothing : option float) (scv max_freq : float) :
  recommendations
    (trace_of (analyse env csv_path max_smoothing scv max_freq)) = [].
Proof.
  unfold analyse. run_steps.
  destruct (load_accelerometer_data env csv_path) as [e|data]; run_steps;
    [reflexivity|].
  rewrite calibrate_shaper_recommends_nothing.
  destruct (outcome (calibrate_shaper env data max_smoothing scv max_freq))
    as [e|[[[[perf shapers] cd] fr] zeta]]; run_steps; [reflexivity|].
  destruct (compute_spectrogram env data) as [e|[[pdata bins] t]]; run_steps;
    [reflexivity|].
  destruct (trim cd max_freq) as [e|cd']; run_steps; [reflexivity|].
  destruct (freqs cd') as [fs|]; run_steps; [|reflexivity].
  destruct (Np.max (psd_sum cd')) as [e|m]; run_steps; [reflexivity|].
  destruct (detect_peaks env (psd_sum cd') fs (PEAKS_DETECTION_THRESHOLD * m))
    as [e|[[n peaks] pf]]; run_steps; [reflexivity|].
  destruct (Np.take (psd_sum cd') peaks) as [e|pp]; run_steps; reflexivity.
Qed.

Lemma figure_header_recommends_nothing (env : Collaborators)
  (csv_path : Path env) (max_smoothing : option float) (scv : float) :
  recommendations (trace_of (figure_header env csv_path max_smoothing scv))
  = []
  /\ outcome (figure_header env csv_path max_smoothing scv) = inr tt.
Proof.
  unfold figure_header. run_steps.
  destruct (header_of_name env (path_name env csv_path)); run_steps;
    split; reflexivity.
Qed.

Lemma mark_peaks_recommends_nothing (bins_last : float) (peaks : list float) :
  forall idx,
    recommendations (trace_of (mark_peaks bins_last idx peaks)) = [].
Proof.
  induction peaks as [|p rest IH]; intro idx; simpl; [reflexivity|].
  run_steps. apply IH.
Qed.

Lemma plot_spectrogram_recommends_nothing {P : Type}
  (pct : P -> float -> Exn + float) (t bins : list float) (pdata : P)
  (peaks : option (list float)) (max_freq : float) :
  recommendations
    (trace_of (plot_spectrogram pct t bins pdata peaks max_freq)) = [].
Proof.
  unfold plot_spectrogram. run_steps.
  destruct (pct pdata SPECTROGRAM_LOW_PERCENTILE_FILTER); run_steps;
    [reflexivity|].
  destruct (first_last t); run_steps; [reflexivity|].
  destruct (first_last bins); run_steps; [reflexivity|].
  destruct peaks; run_steps;
    [apply mark_peaks_recommends_nothing | reflexivity].
Qed.

Lemma render_recommendations (env : Collaborators) (csv_path : Path env)
  (max_smoothing : option float) (scv max_freq : float) (a : Analysis env) :
  recommendations
    (trace_of (render env csv_path max_smoothing scv max_freq a))
  = recommendations
      (trace_of (plot_freq_response (calibration_data env a) (shapers env a)
                   (performance_shaper env a) (peaks env a)
                   (peaks_freqs env a) (peaks_threshold env a)
                   (a_fr env a) (a_zeta env a) max_freq)).
Proof.
  unfold render. run_steps.
  destruct (figure_header_recommends_nothing env csv_path max_smoothing scv)
    as [Ht Ho].
  rewrite Ht, Ho. simpl. run_steps.
  destruct (outcome (plot_freq_response _ _ _ _ _ _ _ _ _)).
  - now rewrite app_nil_r.
  - rewrite (plot_spectrogram_recommends_nothing (percentile env)).
    now rewrite app_nil_r.
Qed.

(** What the pipeline recommends is what [plot_freq_response] recommends for
    the analysis of the capture. *)
Lemma pipeline_recommendations (env : Collaborators) (csv_path : Path env)
  (max_smoothing : option float) (scv max_freq : float) :
  recommendations
    (trace_of (graph_resonances_test_results env csv_path max_smoothing scv
                 max_freq))
  = match outcome (analyse env csv_path max_smoothing scv max_freq) with
    | inl _ => []
    | inr a =>
        recommendations
          (trace_of (plot_freq_response (calibration_data env a)
                       (shapers env a) (performance_shaper env a)
                       (peaks env a) (peaks_freqs env a)
                       (peaks_threshold env a) (a_fr env a) (a_zeta env a)
                       max_freq))
    end.
Proof.
  unfold graph_resonances_test_results. run_steps.
  rewrite analyse_recommends_nothing. simpl.
  destruct (outcome (analyse env csv_path max_smoothing scv max_freq));
    [reflexivity | apply render_recommendations].
Qed.

(** ** The low-vibration choice and the smoothing bound *)

Lemma recommend_lowvib_in (fs psd : list float) (perf : string) (st : Locals)
  (NAME : string) (f : float) :
  In (RecommendedLowVibrations NAME f)
     (recommendations (trace_of (recommend fs psd perf st))) ->
  exists n,
    lowvib_shaper st = Some n /\ NAME = Py.upper n
    /\ lowvib_shaper_freq st = Some f.
Proof.
  unfold recommend.
  destruct (performance_shaper_freq st) as [p_freq|];
    [|run_steps; intros []].
  destruct (performance_shaper_vibr st) as [p_vibr|];
    [|run_steps; intros []].
  destruct (performance_shaper_vals st) as [p_vals|];
    [|run_steps; intros []].
  destruct (two_recommendations st perf p_vibr).
  - run_steps. destruct (Np.mul psd p_vals) as [e|wp]; run_steps.
    + intros [H|[]]; discriminate.
    + destruct (lowvib_shaper st) as [n|]; run_steps.
      * destruct (lowvib_shaper_freq st) as [lf|]; run_steps.
        -- destruct (lowvib_shaper_vals st) as [lv|]; run_steps.
           ++ intros [H|[H|H]]; try discriminate.
              ** inversion H; subst. exists n. auto.
              ** destruct (Np.mul psd lv); run_steps; destruct H.
           ++ intros [H|[]]; discriminate.
        -- intros [H|[]]; discriminate.
      * intros [H|[]]; discriminate.
  - run_steps. destruct (Np.mul psd p_vals); run_steps;
      intros [H|[]]; discriminate.
Qed.

Lemma plot_chosen_below (cd : CalibrationData)
  (shapers : list CalibrationResult) (perf : string) (peaks : list Z)
  (peaks_freqs : list float) (thr : float * float)
  (fr zeta max_freq : float) :
  chosen_below MAX_SMOOTHING shapers
    (trace_of (plot_freq_response cd shapers perf peaks peaks_freqs thr
                 fr zeta max_freq)).
Proof.
  intros NAME f Hin. rewrite plot_recommendations in Hin.
  destruct (freqs cd) as [fs|]; [|destruct Hin].
  destruct (Np.max (psd_sum cd)) as [e|m]; [destruct Hin|].
  destruct (fold_locals perf shapers initial_locals) as [e|st] eqn:Hfold;
    [destruct Hin|].
  apply recommend_lowvib_in in Hin. destruct Hin as (n & Hn & HN & Hf).
  pose proof (loop_lowvib_from perf shapers st Hfold) as Hfrom.
  unfold lowvib_from in Hfrom. rewrite Hn in Hfrom.
  destruct Hfrom as (s & accel & Hs & Hname & Hfreq & _ & _ & _ & _ & Hsm).
  exists s. repeat split; auto.
  - now rewrite Hname.
  - rewrite Hfreq in Hf. now inversion Hf.
Qed.

(** C1, amended.  Whatever [max_smoothing] the caller passes to the
    pipeline, a low-vibration recommendation names a shaper of the candidate
    list whose smoothing is strictly below the module constant
    [MAX_SMOOTHING] (0.1); the caller's [max_smoothing] is not consulted by
    the low-vibration selection. *)
Theorem lowvib_choice_below_MAX_SMOOTHING (env : Collaborators)
  (csv_path : Path env) (max_smoothing : option float)
  (scv max_freq : float) :
  chosen_below MAX_SMOOTHING
    (candidates_of_run env csv_path max_smoothing scv max_freq)
    (trace_of (graph_resonances_test_results env csv_path max_smoothing scv
                 max_freq)).
Proof.
  unfold chosen_below, candidates_of_run.
  rewrite pipeline_recommendations.
  destruct (outcome (analyse env csv_path max_smoothing scv max_freq))
    as [e|a]; [intros NAME f []|].
  apply plot_chosen_below.
Qed.

(** C1 as stated fails: with [max_smoothing = 0.05] the pipeline recommends
    [mzv], whose smoothing 0.07 is not below 0.05, as the low-vibration
    alternative. *)
Lemma lowvib_choice_ignores_max_smoothing :
  ~ chosen_below 0.05
      (candidates_of_run (demo_env (Some zv) demo_shapers) "capture.csv"
         (Some 0.05) 5 200)
      (trace_of (graph_resonances_test_results
                   (demo_env (Some zv) demo_shapers) "capture.csv"
                   (Some 0.05) 5 200)).
Proof.
  intro H.
  destruct (H "MZV" 52) as (s & Hin & Hname & _ & Hsm).
  - vm_compute. right. left. reflexivity.
  - vm_compute in Hin. destruct Hin as [Hs|[Hs|[]]]; subst s.
    + vm_compute in Hname. discriminate.
    + vm_compute in Hsm. discriminate.
Qed.

(** ** The tie-break on equal vibrations *)

Lemma lowvib_condition_after_performance (st : Locals)
  (p s : CalibrationResult) (accel : float) :
  lowvib_condition (assign_performance st p) s accel
  = lowvib_condition st s accel.
Proof. reflexivity. Qed.

(** One step of the loop, on the low-vibration locals. *)
Lemma next_locals_taken (perf : string) (st : Locals) (s : CalibrationResult)
  (accel : float) :
  lowvib_condition st s accel = true ->
  lowvib_shaper (next_locals perf st s accel) = Some (name s)
  /\ lowvib_shaper_freq (next_locals perf st s accel) = Some (freq s)
  /\ lowvib_shaper_vals (next_locals perf st s accel) = Some (vals s)
  /\ lowvib_shaper_vibrs (next_locals perf st s accel) = vibrs s * 100
  /\ lowvib_shaper_accel (next_locals perf st s accel) = accel.
Proof.
  intro Hc. unfold next_locals.
  destruct (String.eqb (name s) perf);
    rewrite ?lowvib_condition_after_performance, Hc; repeat split.
Qed.

Lemma next_locals_kept (perf : string) (st : Locals) (s : CalibrationResult)
  (accel : float) :
  lowvib_condition st s accel = false ->
  lowvib_shaper (next_locals perf st s accel) = lowvib_shaper st
  /\ lowvib_shaper_freq (next_locals perf st s accel) = lowvib_shaper_freq st
  /\ lowvib_shaper_vals (next_locals perf st s accel) = lowvib_shaper_vals st
  /\ lowvib_shaper_vibrs (next_locals perf st s accel)
     = lowvib_shaper_vibrs st
  /\ lowvib_shaper_accel (next_locals perf st s accel)
     = lowvib_shaper_accel st.
Proof.
  intro Hc. unfold next_locals.
  destruct (String.eqb (name s) perf);
    rewrite ?lowvib_condition_after_performance, Hc; repeat split.
Qed.

(** The first eligible shaper with a finite vibration is taken. *)
Lemma first_shaper_taken (s : CalibrationResult) (accel : float) :
  (vibrs s * 100 <? infinity) = true ->
  (smoothing s <? MAX_SMOOTHING) = true ->
  lowvib_condition initial_locals s accel = true.
Proof.
  intros Hv Hs. unfold lowvib_condition.
  change (lowvib_shaper_vibrs initial_locals) with infinity.
  now rewrite Hv, Hs.
Qed.

(** C2, amended.  For two smoothing-eligible candidates with the same
    (finite) vibration fraction whose maximum accelerations, once rounded to
    the nearest multiple of 100 by [round(max_accel / 100.) * 100.], differ,
    the loop picks the one with the higher rounded maximum acceleration as
    the low-vibration shaper, in whichever order the two are listed. *)
Theorem tie_break_by_rounded_max_accel (perf : string)
  (lo hi : CalibrationResult) (rlo rhi : float)
  (shapers : list CalibrationResult) :
  (smoothing lo <? MAX_SMOOTHING) = true ->
  (smoothing hi <? MAX_SMOOTHING) = true ->
  vibrs lo = vibrs hi ->
  (vibrs hi * 100 <? infinity) = true ->
  rounded_max_accel lo = inr rlo ->
  rounded_max_accel hi = inr rhi ->
  (rlo <? rhi) = true ->
  shapers = [lo; hi] \/ shapers = [hi; lo] ->
  picks perf shapers hi.
Proof.
  intros Hslo Hshi Hv Hfin Hrlo Hrhi Hlt Horder.
  assert (Hfin_lo : (vibrs lo * 100 <? infinity) = true) by now rewrite Hv.
  unfold picks.
  destruct Horder as [-> | ->]; simpl; rewrite Hrlo, Hrhi || rewrite Hrhi, Hrlo.
  - (* the lower one first: it is taken, then replaced *)
    destruct (next_locals_taken perf initial_locals lo rlo
                (first_shaper_taken lo rlo Hfin_lo Hslo))
      as (_ & _ & _ & Hvib & Hacc).
    set (st1 := next_locals perf initial_locals lo rlo) in *.
    assert (Hc : lowvib_condition st1 hi rhi = true).
    { unfold lowvib_condition, Py.gtb. rewrite Hvib, Hacc, Hv, Hlt, Hshi.
      rewrite (FloatFacts.ltb_eqb_refl _ _ Hfin).
      now rewrite orb_true_r. }
    destruct (next_locals_taken perf st1 hi rhi Hc) as (Hn & Hf & Hvals & _).
    eexists; split; [reflexivity|]. auto.
  - (* the higher one first: it is taken and kept *)
    destruct (next_locals_taken perf initial_locals hi rhi
                (first_shaper_taken hi rhi Hfin Hshi))
      as (Hn & Hf & Hvals & Hvib & Hacc).
    set (st1 := next_locals perf initial_locals hi rhi) in *.
    assert (Hc : lowvib_condition st1 lo rlo = false).
    { unfold lowvib_condition, Py.gtb. rewrite Hvib, Hacc, Hv.
      rewrite FloatFacts.ltb_irrefl, (FloatFacts.ltb_asym _ _ Hlt).
      now rewrite andb_false_r. }
    destruct (next_locals_kept perf st1 lo rlo Hc) as (Hn' & Hf' & Hvals' & _).
    eexists; split; [reflexivity|].
    rewrite Hn', Hf', Hvals'. auto.
Qed.

Lemma tie_break_by_rounded_max_accel_witness :
  picks "zv" [two_hump_ei_8400; ei_8000] two_hump_ei_8400.
Proof.
  apply (tie_break_by_rounded_max_accel "zv" ei_8000 two_hump_ei_8400
           8000 8400 [two_hump_ei_8400; ei_8000]);
    try (vm_compute; reflexivity).
  right. reflexivity.
Defined.

(** C2 as stated fails: 8000 and 8040 are different maximum accelerations,
    both round to 8000, and the loop keeps the first shaper although the
    second has the higher maximum acceleration. *)
Lemma tie_break_ignores_small_differences :
  (smoothing ei_8000 <? MAX_SMOOTHING) = true
  /\ (smoothing two_hump_ei_8040 <? MAX_SMOOTHING) = true
  /\ vibrs ei_8000 = vibrs two_hump_ei_8040
  /\ (max_accel ei_8000 <? max_accel two_hump_ei_8040) = true
  /\ rounded_max_accel ei_8000 = inr 8000
  /\ rounded_max_accel two_hump_ei_8040 = inr 8000
  /\ picks "zv" [ei_8000; two_hump_ei_8040] ei_8000
  /\ ~ picks "zv" [ei_8000; two_hump_ei_8040] two_hump_ei_8040.
Proof.
  repeat split; try (vm_compute; reflexivity).
  - eexists. split; [vm_compute; reflexivity|]. repeat split.
  - intros (st & Hfold & Hname & _).
    vm_compute in Hfold. inversion Hfold; subst st.
    vm_compute in Hname. discriminate.
Qed.

(** ** What a successful analysis went through *)

Lemma analyse_inv (env : Collaborators) (csv_path : Path env)
  (max_smoothing : option float) (scv max_freq : float) (a : Analysis env) :
  outcome (analyse env csv_path max_smoothing scv max_freq) = inr a ->
  exists data cd0 fs m psd_peaks,
    load_accelerometer_data env csv_path = inr data
    /\ outcome (calibrate_shaper env data max_smoothing scv max_freq)
       = inr (performance_shaper env a, shapers env a, cd0,
              a_fr env a, a_zeta env a)
    /\ compute_spectrogram env data = inr (pdata env a, bins env a, t env a)
    /\ trim cd0 max_freq = inr (calibration_data env a)
    /\ freqs (calibration_data env a) = Some fs
    /\ Np.max (psd_sum (calibration_data env a)) = inr m
    /\ peaks_threshold env a
       = (PEAKS_DETECTION_THRESHOLD * m, PEAKS_EFFECT_THRESHOLD * m)
    /\ detect_peaks env (psd_sum (calibration_data env a)) fs
         (PEAKS_DETECTION_THRESHOLD * m)
       = inr (num_peaks env a, peaks env a, peaks_freqs env a)
    /\ Np.take (psd_sum (calibration_data env a)) (peaks env a)
       = inr psd_peaks
    /\ num_peaks_above_effect_threshold env a
       = Np.count_true
           (map (fun p => Py.gtb p (PEAKS_EFFECT_THRESHOLD * m)) psd_peaks).
Proof.
  unfold analyse. run_steps.
  destruct (load_accelerometer_data env csv_path) as [e|data] eqn:Hload;
    run_steps;
    [raised|].
  destruct (outcome (calibrate_shaper env data max_smoothing scv max_freq))
    as [e|[[[[perf shs] cd] fr] zeta]] eqn:Hcal; run_steps; [raised|].
  destruct (compute_spectrogram env data) as [e|[[pd bn] tm]] eqn:Hspec;
    run_steps;
    [raised|].
  destruct (trim cd max_freq) as [e|cd'] eqn:Htrim; run_steps; [raised|].
  destruct (freqs cd') as [fs|] eqn:Hfs; run_steps; [|raised].
  destruct (Np.max (psd_sum cd')) as [e|m] eqn:Hmax; run_steps; [raised|].
  destruct (detect_peaks env (psd_sum cd') fs (PEAKS_DETECTION_THRESHOLD * m))
    as [e|[[n pk] pf]] eqn:Hdet; run_steps; [raised|].
  destruct (Np.take (psd_sum cd') pk) as [e|pp] eqn:Htake; run_steps;
    [raised|].
  intro H. inversion H; subst a; clear H. simpl.
  exists data, cd, fs, m, pp. repeat split; assumption.
Qed.

(** ** The collapse to a single recommendation *)

Lemma two_recommendations_false (st : Locals) (perf : string)
  (p_vibr : float) :
  (lowvib_shaper_vibrs st <=? p_vibr) = false
  \/ lowvib_shaper st = Some perf ->
  two_recommendations st perf p_vibr = false.
Proof.
  unfold two_recommendations. intros [Hle | Hsame].
  - destruct (lowvib_shaper st); [|reflexivity].
    rewrite Hle. apply andb_false_r.
  - rewrite Hsame, String.eqb_refl. reflexivity.
Qed.

(** C3, amended.  When the loop ends with a low-vibration shaper whose
    vibration percentage (the fraction times 100, as lines 129 and 139
    compute it) is not less than or equal to the performance shaper's
    percentage, or whose name is the performance shaper's, no low-vibration
    alternative is drawn: the only recommendation line the trace can hold is
    the "best shaper" line of the performance shaper, and a run that returns
    has drawn exactly that line. *)
Theorem collapse_to_performance_only (cd : CalibrationData)
  (shapers : list CalibrationResult) (perf : string) (peaks : list Z)
  (peaks_freqs : list float) (thr : float * float)
  (fr zeta max_freq : float) (fs : list float) (st : Locals)
  (p_freq p_vibr : float) :
  freqs cd = Some fs ->
  outcome (for_each (shaper_step fs perf) shapers initial_locals) = inr st ->
  performance_shaper_freq st = Some p_freq ->
  performance_shaper_vibr st = Some p_vibr ->
  (lowvib_shaper_vibrs st <=? p_vibr) = false
  \/ lowvib_shaper st = Some perf ->
  (forall line,
     In line
        (recommendations
           (trace_of (plot_freq_response cd shapers perf peaks peaks_freqs
                        thr fr zeta max_freq))) ->
     line = RecommendedBest (Py.upper perf) p_freq)
  /\ (outcome (plot_freq_response cd shapers perf peaks peaks_freqs thr
                 fr zeta max_freq) = inr tt ->
      recommendations
        (trace_of (plot_freq_response cd shapers perf peaks peaks_freqs thr
                     fr zeta max_freq))
      = [RecommendedBest (Py.upper perf) p_freq]).
Proof.
  intros Hfs Hloop Hpf Hpv Hcollapse.
  rewrite loop_outcome in Hloop.
  assert (Hrec : recommendations
                   (trace_of (recommend fs (psd_sum cd) perf st))
                 = [RecommendedBest (Py.upper perf) p_freq]).
  { destruct (fold_locals_performance_agree perf shapers initial_locals st)
      as [(Hnone & _) | (f & v & vs & _ & _ & Hvals)]; auto.
    - left. repeat split.
    - congruence.
    - apply recommend_collapsed with (p_vibr := p_vibr) (p_vals := vs); auto.
      now apply two_recommendations_false. }
  split.
  - intros line Hin.
    rewrite plot_recommendations, Hfs, Hloop in Hin.
    destruct (Np.max (psd_sum cd)); [destruct Hin|].
    rewrite Hrec in Hin. destruct Hin as [<- | []]. reflexivity.
  - intro Hret.
    rewrite plot_outcome_before_recommend, Hfs in Hret.
    rewrite plot_recommendations, Hfs, Hloop.
    destruct (Np.max (psd_sum cd)); [discriminate | exact Hrec].
Qed.

Lemma collapse_to_performance_only_witness :
  (forall line,
     In line
        (recommendations
           (trace_of (plot_freq_response demo_trimmed
                        [candidate_A 48 [0.3; 0.1; 0.2];
                         candidate_B 44 [0.2; 0.1; 0.2]]
                        "B" [1%Z] [20] (0.45, 1.08) 20 0.05 200))) ->
     line = RecommendedBest "B" 44)
  /\ recommendations
       (trace_of (plot_freq_response demo_trimmed
                    [candidate_A 48 [0.3; 0.1; 0.2];
                     candidate_B 44 [0.2; 0.1; 0.2]]
                    "B" [1%Z] [20] (0.45, 1.08) 20 0.05 200))
     = [RecommendedBest "B" 44].
Proof.
  destruct (collapse_to_performance_only demo_trimmed
              [candidate_A 48 [0.3; 0.1; 0.2]; candidate_B 44 [0.2; 0.1; 0.2]]
              "B" [1%Z] [20] (0.45, 1.08) 20 0.05 200 [10; 20; 30]
              {| lowvib_shaper_vibrs := 2; lowvib_shaper := Some "A";
                 lowvib_shaper_freq := Some 48; lowvib_shaper_accel := 8000;
                 lowvib_shaper_vals := Some [0.3; 0.1; 0.2];
                 performance_shaper_freq := Some 44;
                 performance_shaper_vibr := Some 1;
                 performance_shaper_vals := Some [0.2; 0.1; 0.2] |}
              44 1) as [Honly Hreturned].
  - vm_compute. reflexivity.
  - vm_compute. reflexivity.
  - reflexivity.
  - reflexivity.
  - left. vm_compute. reflexivity.
  - split; [exact Honly|]. apply Hreturned. vm_compute. reflexivity.
Defined.

(** C3 as stated, on vibration fractions, fails: the fraction of [mzv_13]
    is not less than or equal to that of the performance shaper [zv_13],
    both fractions give the percentage 1.3, the test of line 152 compares
    the percentages, and the run returns with [mzv_13] drawn as the
    low-vibration alternative. *)
Lemma collapse_on_fractions_fails :
  (vibrs mzv_13 <=? vibrs zv_13) = false
  /\ name zv_13 = "zv" /\ name mzv_13 <> "zv"
  /\ vibrs mzv_13 * 100 = vibrs zv_13 * 100
  /\ picks "zv" [zv_13; mzv_13] mzv_13
  /\ outcome (plot_freq_response demo_trimmed [zv_13; mzv_13] "zv" [1%Z]
                [20] (0.45, 1.08) 20 0.05 200) = inr tt
  /\ recommendations
       (trace_of (plot_freq_response demo_trimmed [zv_13; mzv_13] "zv"
                    [1%Z] [20] (0.45, 1.08) 20 0.05 200))
     = [RecommendedPerformance "ZV" 60; RecommendedLowVibrations "MZV" 52].
Proof.
  repeat split; try (vm_compute; reflexivity).
  - discriminate.
  - eexists. split; [vm_compute; reflexivity|]. repeat split.
Qed.

(** ** Scenario 2 *)

Lemma scenario_2_locals (fA fB : float) (vA vB : list float) :
  fold_locals "B" [candidate_A fA vA; candidate_B fB vB] initial_locals
  = inr {| lowvib_shaper_vibrs := 2;
           lowvib_shaper := Some "A";
           lowvib_shaper_freq := Some fA;
           lowvib_shaper_accel := 8000;
           lowvib_shaper_vals := Some vA;
           performance_shaper_freq := Some fB;
           performance_shaper_vibr := Some 1;
           performance_shaper_vals := Some vB |}.
Proof. vm_compute. reflexivity. Qed.

(** C4.  In a run with [max_smoothing = 0.10] whose analysis yields the
    candidates A (vibration 0.02, smoothing 0.05, maximum acceleration 8000)
    and B (vibration 0.01, smoothing 0.15, maximum acceleration 6000) with B
    as the performance shaper, the selection collapses to performance-only:
    no low-vibration alternative is drawn, the only recommendation line the
    trace can hold is the "best shaper" line for B, and a run that returns
    has drawn exactly that line. *)
Theorem scenario_2_performance_only (env : Collaborators)
  (csv_path : Path env) (scv max_freq : float) (a : Analysis env)
  (fA fB : float) (vA vB : list float) :
  outcome (analyse env csv_path (Some 0.10) scv max_freq) = inr a ->
  shapers env a = [candidate_A fA vA; candidate_B fB vB] ->
  performance_shaper env a = "B" ->
  (forall line,
     In line
        (recommendations
           (trace_of (graph_resonances_test_results env csv_path (Some 0.10)
                        scv max_freq))) ->
     line = RecommendedBest "B" fB)
  /\ (outcome (graph_resonances_test_results env csv_path (Some 0.10) scv
                 max_freq) = inr tt ->
      recommendations
        (trace_of (graph_resonances_test_results env csv_path (Some 0.10)
                     scv max_freq))
      = [RecommendedBest "B" fB]).
Proof.
  intros Ha Hshapers Hperf.
  assert (Hrec : recommendations
                   (trace_of (graph_resonances_test_results env csv_path
                                (Some 0.10) scv max_freq))
                 = [RecommendedBest "B" fB]).
  { rewrite pipeline_recommendations, Ha.
    destruct (analyse_inv env csv_path (Some 0.10) scv max_freq a Ha)
      as (_ & _ & fs & m & _ & _ & _ & _ & _ & Hfs & Hmax & _).
    rewrite plot_recommendations, Hfs, Hmax, Hshapers, Hperf.
    rewrite scenario_2_locals.
    apply recommend_collapsed with (p_vibr := 1) (p_vals := vB);
      reflexivity. }
  rewrite Hrec. split.
  - intros line [<- | []]. reflexivity.
  - reflexivity.
Qed.

Lemma scenario_2_performance_only_witness :
  (forall line,
     In line
        (recommendations
           (trace_of (graph_resonances_test_results
                        (demo_env (Some (candidate_B 44 [0.2; 0.1; 0.2]))
                           [candidate_A 48 [0.3; 0.1; 0.2];
                            candidate_B 44 [0.2; 0.1; 0.2]])
                        "capture.csv" (Some 0.10) 5 200))) ->
     line = RecommendedBest "B" 44)
  /\ recommendations
       (trace_of (graph_resonances_test_results
                    (demo_env (Some (candidate_B 44 [0.2; 0.1; 0.2]))
                       [candidate_A 48 [0.3; 0.1; 0.2];
                        candidate_B 44 [0.2; 0.1; 0.2]])
                    "capture.csv" (Some 0.10) 5 200))
     = [RecommendedBest "B" 44].
Proof.
  edestruct (scenario_2_performance_only
               (demo_env (Some (candidate_B 44 [0.2; 0.1; 0.2]))
                  [candidate_A 48 [0.3; 0.1; 0.2];
                   candidate_B 44 [0.2; 0.1; 0.2]])
               "capture.csv" 5 200) as [Honly Hreturned].
  - vm_compute. reflexivity.
  - vm_compute. reflexivity.
  - vm_compute. reflexivity.
  - split; [exact Honly|]. apply Hreturned. vm_compute. reflexivity.
Defined.

(** ** A search that finds no shaper *)

Lemma calibrate_shaper_none (env : Collaborators) (data : RawData env)
  (max_smoothing : option float) (scv max_freq : float)
  (cd0 cd : CalibrationData) (mech : float * float) (lines : list string)
  (all_shapers : list CalibrationResult) :
  process_accelerometer_data env data = inr cd0 ->
  normalize_to_frequencies env cd0 = inr cd ->
  compute_mechanical_parameters env (psd_sum cd) (freq_bins cd) = inr mech ->
  find_best_shaper env cd (snd mech) scv max_smoothing max_freq
  = (lines, inr (None, all_shapers)) ->
  calibrate_shaper env data max_smoothing scv max_freq
  = (map (fun line => Print (Logged line)) lines
       ++ [Print NoRecommendedShaper],
     inl (ValueError "Failed to find a shaper")).
Proof.
  intros Hp Hn Hm Hf.
  unfold calibrate_shaper, bind, lift, logged, emit, raise.
  rewrite Hp. cbv beta iota. rewrite Hn. cbv beta iota.
  rewrite Hm. cbv beta iota. rewrite Hf.
  reflexivity.
Qed.

(** C5.  When the search returns no shaper, [calibrate_shaper] prints the
    "no recommended shaper" line after the lines of the search and raises
    [ValueError]: it returns no tuple, so no shaper name, candidate list or
    frequency; the pipeline started on that capture raises the same error
    and has drawn nothing. *)
Theorem no_shaper_no_result (env : Collaborators) (csv_path : Path env)
  (data : RawData env) (max_smoothing : option float) (scv max_freq : float)
  (cd0 cd : CalibrationData) (mech : float * float) (lines : list string)
  (all_shapers : list CalibrationResult) :
  load_accelerometer_data env csv_path = inr data ->
  process_accelerometer_data env data = inr cd0 ->
  normalize_to_frequencies env cd0 = inr cd ->
  compute_mechanical_parameters env (psd_sum cd) (freq_bins cd) = inr mech ->
  find_best_shaper env cd (snd mech) scv max_smoothing max_freq
  = (lines, inr (None, all_shapers)) ->
  calibrate_shaper env data max_smoothing scv max_freq
  = (map (fun line => Print (Logged line)) lines
       ++ [Print NoRecommendedShaper],
     inl (ValueError "Failed to find a shaper"))
  /\ graph_resonances_test_results env csv_path max_smoothing scv max_freq
     = (map (fun line => Print (Logged line)) lines
          ++ [Print NoRecommendedShaper],
        inl (ValueError "Failed to find a shaper")).
Proof.
  intros Hl Hp Hn Hm Hf.
  pose proof (calibrate_shaper_none env data max_smoothing scv max_freq
                cd0 cd mech lines all_shapers Hp Hn Hm Hf) as Hcal.
  split; [exact Hcal|].
  unfold graph_resonances_test_results, analyse.
  unfold bind at 1 2. unfold lift at 1. rewrite Hl. cbv beta iota.
  unfold bind at 1. rewrite Hcal. reflexivity.
Qed.

Lemma no_shaper_no_result_witness :
  calibrate_shaper (demo_env None []) tt (Some 0.05) 5 200
  = ([Print (Logged "Fitting the shapers"); Print NoRecommendedShaper],
     inl (ValueError "Failed to find a shaper"))
  /\ graph_resonances_test_results (demo_env None []) "capture.csv"
       (Some 0.05) 5 200
     = ([Print (Logged "Fitting the shapers"); Print NoRecommendedShaper],
        inl (ValueError "Failed to find a shaper")).
Proof.
  apply (no_shaper_no_result (demo_env None []) "capture.csv" tt (Some 0.05)
           5 200 demo_data demo_data (20, 0.05) ["Fitting the shapers"] []);
    reflexivity.
Defined.

(** ** The two thresholds *)

Lemma count_true_map {A} (f : A -> bool) (l : list A) :
  Np.count_true (map f l) = List.length (filter f l).
Proof.
  unfold Np.count_true.
  induction l as [|x l IH]; simpl; [reflexivity|].
  destruct (f x); simpl; now rewrite IH.
Qed.

Lemma peak_font_red (p thr : float) :
  peak_font p thr = RedBold <-> (thr <? p) = true.
Proof.
  unfold peak_font, Py.gtb. destruct (thr <? p); split; congruence.
Qed.

(** C6.  In a successful analysis the detection threshold handed to the
    detector is 0.05 times the maximum of the trimmed combined PSD and the
    effect threshold is 0.12 times that maximum; the peaks are those the
    detector returns for the detection threshold, and the effect threshold
    only classifies them: a peak is counted, and drawn red and bold, exactly
    when its PSD value is strictly above the effect threshold. *)
Theorem thresholds_of_analysis (env : Collaborators) (csv_path : Path env)
  (max_smoothing : option float) (scv max_freq : float) (a : Analysis env) :
  outcome (analyse env csv_path max_smoothing scv max_freq) = inr a ->
  thresholds_as_computed env max_freq a.
Proof.
  intro Ha.
  destruct (analyse_inv env csv_path max_smoothing scv max_freq a Ha)
    as (data & cd0 & fs & m & pp & _ & _ & _ & Htrim & Hfs & Hmax & Hthr
        & Hdet & Htake & Hnum).
  exists cd0, fs, m, pp.
  repeat split; try assumption.
  - rewrite Hnum. apply count_true_map.
  - rewrite Hthr. simpl. apply peak_font_red.
  - rewrite Hthr. simpl. apply peak_font_red.
Qed.

Lemma thresholds_of_analysis_witness :
  thresholds_as_computed (demo_env (Some zv) demo_shapers) 200 demo_analysis.
Proof.
  apply (thresholds_of_analysis (demo_env (Some zv) demo_shapers)
           "capture.csv" (Some 0.05) 5 200 demo_analysis).
  vm_compute. reflexivity.
Defined.



(** ** The trimmed vectors *)

Lemma compress_length (mask : list bool) :
  forall arr,
    List.length mask = List.length arr ->
    List.length (Np.compress mask arr) = Np.count_true mask.
Proof.
  unfold Np.count_true.
  induction mask as [|b mask IH]; intros [|x arr] Hlen; simpl in *;
    try reflexivity; try discriminate.
  injection Hlen as Hlen. destruct b; simpl; now rewrite IH.
Qed.

Lemma bool_index_length (arr : list float) (mask : list bool)
  (kept : list float) :
  Np.bool_index arr mask = inr kept ->
  List.length kept = Np.count_true mask.
Proof.
  unfold Np.bool_index.
  destruct (List.length mask =? List.length arr)%nat eqn:Hlen;
    [|discriminate].
  intro H. inversion H; subst kept.
  apply compress_length. now apply Nat.eqb_eq.
Qed.

Lemma compress_le_mask (max_freq : float) (fs : list float) :
  Forall (fun f => (f <=? max_freq) = true)
    (Np.compress (Np.le_mask fs max_freq) fs).
Proof.
  induction fs as [|f fs IH]; simpl; [constructor|].
  destruct (f <=? max_freq) eqn:Hle; [constructor|]; assumption.
Qed.

Lemma trim_aligned (cd cd' : CalibrationData) (max_freq : float) :
  trim cd max_freq = inr cd' -> aligned_and_bounded cd' max_freq.
Proof.
  unfold trim.
  destruct (Np.bool_index (psd_sum cd) _) as [e|ns] eqn:Hs; [discriminate|].
  destruct (Np.bool_index (psd_x cd) _) as [e|nx] eqn:Hx; [discriminate|].
  destruct (Np.bool_index (psd_y cd) _) as [e|ny] eqn:Hy; [discriminate|].
  destruct (Np.bool_index (psd_z cd) _) as [e|nz] eqn:Hz; [discriminate|].
  destruct (Np.bool_index (freq_bins cd) _) as [e|nf] eqn:Hf; [discriminate|].
  intro H. inversion H; subst cd'; clear H.
  exists nf. simpl.
  rewrite (bool_index_length _ _ _ Hs), (bool_index_length _ _ _ Hx),
    (bool_index_length _ _ _ Hy), (bool_index_length _ _ _ Hz),
    (bool_index_length _ _ _ Hf).
  repeat split.
  unfold Np.bool_index in Hf.
  destruct (_ =? _)%nat in Hf; [|discriminate].
  inversion Hf. apply compress_le_mask.
Qed.

(** C8.  Once the pipeline has trimmed the calibration data to [max_freq],
    the combined PSD and the three per-axis PSD vectors have the length of
    the trimmed frequency vector, and every frequency kept is less than or
    equal to [max_freq]. *)
Theorem trimmed_vectors_aligned (env : Collaborators) (csv_path : Path env)
  (max_smoothing : option float) (scv max_freq : float) (a : Analysis env) :
  outcome (analyse env csv_path max_smoothing scv max_freq) = inr a ->
  aligned_and_bounded (calibration_data env a) max_freq.
Proof.
  intro Ha.
  destruct (analyse_inv env csv_path max_smoothing scv max_freq a Ha)
    as (_ & cd0 & _ & _ & _ & _ & _ & _ & Htrim & _).
  exact (trim_aligned cd0 (calibration_data env a) max_freq Htrim).
Qed.

Lemma trimmed_vectors_aligned_witness :
  aligned_and_bounded demo_trimmed 200.
Proof.
  apply (trimmed_vectors_aligned (demo_env (Some zv) demo_shapers)
           "capture.csv" (Some 0.05) 5 200 demo_analysis).
  vm_compute. reflexivity.
Defined.

(** ** A performance name that matches no shaper *)

(** C9.  When no shaper of the list bears the performance shaper's name (in
    particular when the list is empty), [plot_freq_response] raises and has
    drawn no recommendation line; unless an earlier statement raised first,
    the exception is the [ValueError] of line 146. *)
Theorem missing_performance_shaper_raises (cd : CalibrationData)
  (shapers : list CalibrationResult) (perf : string) (peaks : list Z)
  (peaks_freqs : list float) (thr : float * float)
  (fr zeta max_freq : float) :
  (forall s, In s shapers -> name s <> perf) ->
  (exists e,
     outcome (plot_freq_response cd shapers perf peaks peaks_freqs thr
                fr zeta max_freq) = inl e)
  /\ recommendations
       (trace_of (plot_freq_response cd shapers perf peaks peaks_freqs thr
                    fr zeta max_freq)) = []
  /\ (forall fs m st,
        freqs cd = Some fs ->
        Np.max (psd_sum cd) = inr m ->
        outcome (for_each (shaper_step fs perf) shapers initial_locals)
        = inr st ->
        outcome (plot_freq_response cd shapers perf peaks peaks_freqs thr
                   fr zeta max_freq)
        = inl (ValueError "Failed to find a performance shaper")).
Proof.
  intro Hno.
  rewrite plot_outcome_before_recommend, plot_recommendations.
  destruct (freqs cd) as [fs|].
  2: { repeat split; eauto. intros; discriminate. }
  destruct (Np.max (psd_sum cd)) as [e|m].
  1: { repeat split; eauto. intros; discriminate. }
  destruct (fold_locals perf shapers initial_locals) as [e|st] eqn:Hfold.
  1: { repeat split; eauto. intros fs' m' st' _ _ Hloop.
       rewrite loop_outcome, Hfold in Hloop. discriminate. }
  assert (Hnone : performance_shaper_freq st = None).
  { now rewrite (fold_locals_no_performance perf shapers Hno
                   initial_locals st Hfold). }
  rewrite (recommend_without_performance fs (psd_sum cd) perf st Hnone).
  repeat split; try reflexivity.
  eexists. reflexivity.
Qed.

Lemma missing_performance_shaper_raises_witness :
  outcome (plot_freq_response demo_trimmed demo_shapers "ei" [1%Z] [20]
             (0.45, 1.08) 20 0.05 200)
  = inl (ValueError "Failed to find a performance shaper")
  /\ recommendations
       (trace_of (plot_freq_response demo_trimmed demo_shapers "ei" [1%Z]
                    [20] (0.45, 1.08) 20 0.05 200)) = [].
Proof.
  destruct (missing_performance_shaper_raises demo_trimmed demo_shapers "ei"
              [1%Z] [20] (0.45, 1.08) 20 0.05 200)
    as (_ & Hnothing & Herror).
  - intros s [<- | [<- | []]]; discriminate.
  - split; [|exact Hnothing].
    eapply Herror; vm_compute; reflexivity.
Defined.

(** ** The selection depends on the candidates and the performance name
       only *)

Lemma recommend_selected (fs psd : list float) (perf : string) (st : Locals) :
  outcome (recommend fs psd perf st) = inr tt ->
  recommendations (trace_of (recommend fs psd perf st)) = selected perf st.
Proof.
  unfold recommend, selected.
  destruct (performance_shaper_freq st) as [p_freq|]; [|reflexivity].
  destruct (performance_shaper_vibr st) as [p_vibr|]; [|reflexivity].
  destruct (performance_shaper_vals st) as [p_vals|]; run_steps; [|raised].
  destruct (two_recommendations st perf p_vibr); run_steps.
  - destruct (Np.mul psd p_vals) as [e|wp]; run_steps; [raised|].
    destruct (lowvib_shaper st) as [n|]; run_steps; [|raised].
    destruct (lowvib_shaper_freq st) as [lf|]; run_steps; [|raised].
    destruct (lowvib_shaper_vals st) as [lv|]; run_steps; [|raised].
    destruct (Np.mul psd lv); run_steps; [raised | reflexivity].
  - destruct (Np.mul psd p_vals); run_steps; [raised | reflexivity].
Qed.

Lemma plot_selected (cd : CalibrationData)
  (shapers : list CalibrationResult) (perf : string) (peaks : list Z)
  (peaks_freqs : list float) (thr : float * float)
  (fr zeta max_freq : float) :
  outcome (plot_freq_response cd shapers perf peaks peaks_freqs thr
             fr zeta max_freq) = inr tt ->
  exists st,
    fold_locals perf shapers initial_locals = inr st
    /\ recommendations
         (trace_of (plot_freq_response cd shapers perf peaks peaks_freqs thr
                      fr zeta max_freq))
       = selected perf st.
Proof.
  rewrite plot_outcome_before_recommend, plot_recommendations.
  destruct (freqs cd) as [fs|]; [|raised].
  destruct (Np.max (psd_sum cd)) as [e|m]; [raised|].
  destruct (fold_locals perf shapers initial_locals) as [e|st]; [raised|].
  destruct (outcome (recommend fs (psd_sum cd) perf st)) as [e|[]] eqn:Hrec;
    [raised|].
  intros _. exists st. split; [reflexivity|].
  now apply recommend_selected.
Qed.

(** C7.  Two runs of [plot_freq_response] that return, on the same
    candidate list and the same performance shaper, draw the same
    recommendation lines: the same performance shaper and the same optional
    low-vibration shaper, whatever calibration data, peaks, thresholds,
    resonance parameters and frequency limit each run is given. *)
Theorem selection_is_deterministic (shapers : list CalibrationResult)
  (perf : string) (cd1 cd2 : CalibrationData) (peaks1 peaks2 : list Z)
  (peaks_freqs1 peaks_freqs2 : list float) (thr1 thr2 : float * float)
  (fr1 fr2 zeta1 zeta2 max_freq1 max_freq2 : float) :
  outcome (plot_freq_response cd1 shapers perf peaks1 peaks_freqs1 thr1
             fr1 zeta1 max_freq1) = inr tt ->
  outcome (plot_freq_response cd2 shapers perf peaks2 peaks_freqs2 thr2
             fr2 zeta2 max_freq2) = inr tt ->
  recommendations
    (trace_of (plot_freq_response cd1 shapers perf peaks1 peaks_freqs1 thr1
                 fr1 zeta1 max_freq1))
  = recommendations
      (trace_of (plot_freq_response cd2 shapers perf peaks2 peaks_freqs2
                   thr2 fr2 zeta2 max_freq2)).
Proof.
  intros H1 H2.
  destruct (plot_selected _ _ _ _ _ _ _ _ _ H1) as (st1 & Hst1 & ->).
  destruct (plot_selected _ _ _ _ _ _ _ _ _ H2) as (st2 & Hst2 & ->).
  rewrite Hst1 in Hst2. now inversion Hst2.
Qed.

Lemma selection_is_deterministic_witness :
  recommendations
    (trace_of (plot_freq_response demo_trimmed demo_shapers "zv" [1%Z] [20]
                 (0.45, 1.08) 20 0.05 200))
  = recommendations
      (trace_of (plot_freq_response other_trimmed demo_shapers "zv" [2%Z; 0%Z]
                   [25; 5] (0.35, 0.84) 25 0.1 100)).
Proof.
  apply (selection_is_deterministic demo_shapers "zv" demo_trimmed
           other_trimmed [1%Z] [2%Z; 0%Z] [20] [25; 5] (0.45, 1.08)
           (0.35, 0.84) 20 25 0.05 0.1 200 100);
    vm_compute; reflexivity.
Defined.

(** * Further properties of the module *)

(** ** The order of binary64 values *)

Module FloatOrder.

Lemma SFcompare_rank (x y : spec_float) :
  SFcompare x y
  = match rank x, rank y with
    | Some a, Some b => Some (lex3 a b)
    | _, _ => None
    end.
Proof.
  destruct x as [sx|sx| |sx mx ex], y as [sy|sy| |sy my ey]; simpl;
    try reflexivity;
    try (destruct sx; reflexivity); try (destruct sy; reflexivity);
    try (destruct sx, sy; reflexivity).
  unfold lex3.
  destruct sx, sy; simpl; try reflexivity.
  rewrite Z.compare_opp. rewrite (Z.compare_antisym ey ex).
  destruct (ey ?= ex)%Z eqn:He; simpl; reflexivity.
Qed.

Lemma lex3_Lt (a b : Z * Z * Z) : lex3 a b = Lt <-> lt3 a b.
Proof.
  unfold lex3, lt3. destruct a as [[a1 a2] a3], b as [[b1 b2] b3]; simpl.
  destruct (Z.compare_spec a1 b1), (Z.compare_spec a2 b2),
    (Z.compare_spec a3 b3); split; intro Hx; try discriminate;
    try reflexivity; try lia.
Qed.

Lemma lex3_Eq (a b : Z * Z * Z) : lex3 a b = Eq <-> a = b.
Proof.
  unfold lex3. destruct a as [[a1 a2] a3], b as [[b1 b2] b3]; simpl.
  destruct (Z.compare_spec a1 b1), (Z.compare_spec a2 b2),
    (Z.compare_spec a3 b3); split; intro Hx; try discriminate;
    try (inversion Hx; lia); subst; reflexivity.
Qed.

Lemma ltb_rank (x y : float) :
  (x <? y) = true
  <-> exists a b, rank (Prim2SF x) = Some a /\ rank (Prim2SF y) = Some b
                  /\ lt3 a b.
Proof.
  rewrite ltb_spec. unfold SFltb. rewrite SFcompare_rank.
  destruct (rank (Prim2SF x)) as [a|], (rank (Prim2SF y)) as [b|].
  - destruct (lex3 a b) eqn:Hl; split; intro H; try discriminate.
    + destruct H as (a' & b' & Ha & Hb & Hlt).
      assert (a' = a) by congruence. assert (b' = b) by congruence.
      subst a' b'. apply lex3_Lt in Hlt. congruence.
    + exists a, b. repeat split. now apply lex3_Lt.
    + reflexivity.
    + destruct H as (a' & b' & Ha & Hb & Hlt).
      assert (a' = a) by congruence. assert (b' = b) by congruence.
      subst a' b'. apply lex3_Lt in Hlt. congruence.
  - split; [discriminate|]. intros (a' & b' & _ & Hb & _). discriminate.
  - split; [discriminate|]. intros (a' & b' & Ha & _). discriminate.
  - split; [discriminate|]. intros (a' & b' & Ha & _). discriminate.
Qed.

Lemma eqb_rank (x y : float) :
  (x =? y) = true
  <-> exists a, rank (Prim2SF x) = Some a /\ rank (Prim2SF y) = Some a.
Proof.
  rewrite eqb_spec. unfold SFeqb. rewrite SFcompare_rank.
  destruct (rank (Prim2SF x)) as [a|], (rank (Prim2SF y)) as [b|].
  - destruct (lex3 a b) eqn:Hl; split; intro H; try discriminate.
    + apply lex3_Eq in Hl. subst. eauto.
    + reflexivity.
    + destruct H as (a' & Ha & Hb). assert (a = b) by congruence. subst b.
      rewrite (proj2 (lex3_Eq a a) eq_refl) in Hl. discriminate.
    + destruct H as (a' & Ha & Hb). assert (a = b) by congruence. subst b.
      rewrite (proj2 (lex3_Eq a a) eq_refl) in Hl. discriminate.
  - split; [discriminate|]. intros (a' & _ & Hb). discriminate.
  - split; [discriminate|]. intros (a' & Ha & _). discriminate.
  - split; [discriminate|]. intros (a' & Ha & _). discriminate.
Qed.

Lemma lt3_trans (a b c : Z * Z * Z) : lt3 a b -> lt3 b c -> lt3 a c.
Proof. unfold lt3. lia. Qed.

Lemma ltb_trans (x y z : float) :
  (x <? y) = true -> (y <? z) = true -> (x <? z) = true.
Proof.
  rewrite !ltb_rank. intros (a & b & Ha & Hb & Hab) (b' & c & Hb' & Hc & Hbc).
  rewrite Hb in Hb'. inversion Hb'; subst b'.
  exists a, c. repeat split; auto. eapply lt3_trans; eauto.
Qed.

Lemma ltb_eqb_trans (x y z : float) :
  (x <? y) = true -> (y =? z) = true -> (x <? z) = true.
Proof.
  rewrite !ltb_rank, eqb_rank. intros (a & b & Ha & Hb & Hab) (b' & Hb' & Hc).
  rewrite Hb in Hb'. inversion Hb'; subst b'.
  exists a, b. auto.
Qed.

Lemma eqb_ltb_trans (x y z : float) :
  (x =? y) = true -> (y <? z) = true -> (x <? z) = true.
Proof.
  rewrite !ltb_rank, eqb_rank. intros (a & Ha & Hb) (b' & c & Hb' & Hc & Hbc).
  rewrite Hb in Hb'. inversion Hb'; subst b'.
  exists a, c. auto.
Qed.

Lemma eqb_trans (x y z : float) :
  (x =? y) = true -> (y =? z) = true -> (x =? z) = true.
Proof.
  rewrite !eqb_rank. intros (a & Ha & Hb) (b' & Hb' & Hc).
  rewrite Hb in Hb'. inversion Hb'; subst b'. eauto.
Qed.

Lemma leb_ltb_or_eqb (x y : float) :
  (x <=? y) = true <-> ((x <? y) = true \/ (x =? y) = true).
Proof.
  rewrite leb_spec, ltb_spec, eqb_spec. unfold SFleb, SFltb, SFeqb.
  destruct (SFcompare (Prim2SF x) (Prim2SF y)) as [[]|]; split; intro H;
    auto; try discriminate; destruct H; discriminate.
Qed.

(** A NaN is the only value that differs from itself. *)
Lemma is_nan_Prim2SF (x : float) :
  is_nan x = true -> Prim2SF x = S754_nan.
Proof.
  unfold is_nan. rewrite eqb_spec. unfold SFeqb.
  destruct (Prim2SF x) as [s|s| |s m e] eqn:Hx; simpl; auto.
  - discriminate.
  - destruct s; discriminate.
  - intro H.
    destruct (FloatFacts.SFcompare_refl (S754_finite s m e)) as [Hc|Hc];
      simpl in Hc.
    + discriminate.
    + injection Hc as Hc. rewrite Hc in H. discriminate.
Qed.

End FloatOrder.

(** ** The low-vibration shaper is a best eligible one *)

Lemma lowvib_condition_true (st : Locals) (s : CalibrationResult)
  (accel : float) :
  lowvib_condition st s accel = true ->
  ((vibrs s * 100 <? lowvib_shaper_vibrs st) = true
   \/ ((vibrs s * 100 =? lowvib_shaper_vibrs st) = true
       /\ (lowvib_shaper_accel st <? accel) = true))
  /\ (smoothing s <? MAX_SMOOTHING) = true.
Proof.
  unfold lowvib_condition, Py.gtb. intro H.
  apply andb_true_iff in H. destruct H as [H Hsm]. split; [|exact Hsm].
  apply orb_true_iff in H. destruct H as [H|H]; [now left|].
  apply andb_true_iff in H. now right.
Qed.

Lemma lowvib_condition_false (st : Locals) (s : CalibrationResult)
  (accel : float) :
  lowvib_condition st s accel = false ->
  (smoothing s <? MAX_SMOOTHING) = true ->
  (vibrs s * 100 <? lowvib_shaper_vibrs st) = false
  /\ ((vibrs s * 100 =? lowvib_shaper_vibrs st) = true ->
      (lowvib_shaper_accel st <? accel) = false).
Proof.
  unfold lowvib_condition, Py.gtb. intros H Hsm.
  rewrite Hsm, andb_true_r in H.
  apply orb_false_iff in H. destruct H as [Hlt H]. split; [exact Hlt|].
  intro Heq. now rewrite Heq in H.
Qed.

Lemma next_locals_minimal (perf : string) (seen : list CalibrationResult)
  (st : Locals) (s : CalibrationResult) (accel : float) :
  rounded_max_accel s = inr accel ->
  minimal_among seen st ->
  minimal_among (s :: seen) (next_locals perf st s accel).
Proof.
  intros Hr [Hnone Hmin].
  destruct (lowvib_condition st s accel) eqn:Hc.
  - destruct (next_locals_taken perf st s accel Hc)
      as (Hn & _ & _ & Hvib & Hacc).
    destruct (lowvib_condition_true st s accel Hc) as [Hbetter _].
    split; [rewrite Hn; discriminate|].
    rewrite Hvib, Hacc. intros x [<- | Hx] Hsm.
    + split; [apply FloatFacts.ltb_irrefl|].
      intros a Ha _. rewrite Hr in Ha. injection Ha as <-.
      apply FloatFacts.ltb_irrefl.
    + destruct (Hmin x Hx Hsm) as [Hx1 Hx2]. split.
      * destruct (vibrs x * 100 <? vibrs s * 100) eqn:E; [|reflexivity].
        exfalso. destruct Hbetter as [Hlt | [Heq _]].
        -- rewrite (FloatOrder.ltb_trans _ _ _ E Hlt) in Hx1. discriminate.
        -- rewrite (FloatOrder.ltb_eqb_trans _ _ _ E Heq) in Hx1.
           discriminate.
      * intros a Ha Heqx.
        destruct (accel <? a) eqn:E; [|reflexivity].
        exfalso. destruct Hbetter as [Hlt | [Heq Hacc_lt]].
        -- rewrite (FloatOrder.eqb_ltb_trans _ _ _ Heqx Hlt) in Hx1.
           discriminate.
        -- pose proof (Hx2 a Ha (FloatOrder.eqb_trans _ _ _ Heqx Heq)) as Hle.
           rewrite (FloatOrder.ltb_trans _ _ _ Hacc_lt E) in Hle.
           discriminate.
  - destruct (next_locals_kept perf st s accel Hc)
      as (Hn & _ & _ & Hvib & Hacc).
    split; [rewrite Hn, Hvib; exact Hnone|].
    rewrite Hvib, Hacc. intros x [<- | Hx] Hsm.
    + destruct (lowvib_condition_false st s accel Hc Hsm) as [H1 H2].
      split; [exact H1|].
      intros a Ha Heq. rewrite Hr in Ha. injection Ha as <-. now apply H2.
    + now apply Hmin.
Qed.

Lemma fold_locals_minimal (perf : string) (shapers : list CalibrationResult) :
  forall seen st st',
    minimal_among seen st ->
    fold_locals perf shapers st = inr st' ->
    minimal_among (rev shapers ++ seen) st'.
Proof.
  induction shapers as [|s rest IH]; intros seen st st' Hst Hf; simpl in *.
  - now inversion Hf; subst.
  - destruct (rounded_max_accel s) as [e|accel] eqn:Hr; [discriminate|].
    rewrite <- app_assoc. simpl.
    apply (IH (s :: seen) _ _
             (next_locals_minimal perf seen st s accel Hr Hst) Hf).
Qed.

Lemma loop_minimal (perf : string) (shapers : list CalibrationResult)
  (st : Locals) :
  fold_locals perf shapers initial_locals = inr st ->
  minimal_among shapers st.
Proof.
  intro Hf.
  assert (H0 : minimal_among [] initial_locals).
  { split; [reflexivity | intros x []]. }
  pose proof (fold_locals_minimal perf shapers [] initial_locals st H0 Hf)
    as [Hnone Hmin].
  rewrite app_nil_r in Hmin.
  split; [exact Hnone|].
  intros x Hx. apply Hmin. now apply in_rev in Hx.
Qed.

(** X1.  When the loop over the shapers returns and some shaper of the list
    passes the smoothing test with a vibration percentage below infinity, a
    low-vibration shaper is picked; it is a shaper of the list that passes
    the smoothing test, no shaper that passes the test has a vibration
    percentage strictly below its own, and none with the same percentage has
    a rounded maximum acceleration strictly above its own. *)
Theorem lowvib_shaper_is_best_eligible (fs : list float) (perf : string)
  (shapers : list CalibrationResult) (st : Locals) (s : CalibrationResult) :
  outcome (for_each (shaper_step fs perf) shapers initial_locals) = inr st ->
  In s shapers ->
  (smoothing s <? MAX_SMOOTHING) = true ->
  (vibrs s * 100 <? infinity) = true ->
  exists c accel_c,
    In c shapers
    /\ lowvib_shaper st = Some (name c)
    /\ lowvib_shaper_freq st = Some (freq c)
    /\ (smoothing c <? MAX_SMOOTHING) = true
    /\ rounded_max_accel c = inr accel_c
    /\ forall x,
         In x shapers -> (smoothing x <? MAX_SMOOTHING) = true ->
         (vibrs x * 100 <? vibrs c * 100) = false
         /\ forall accel_x,
              rounded_max_accel x = inr accel_x ->
              (vibrs x * 100 =? vibrs c * 100) = true ->
              (accel_c <? accel_x) = false.
Proof.
  intros Hloop Hs Hsm Hfin. rewrite loop_outcome in Hloop.
  destruct (loop_minimal perf shapers st Hloop) as [Hnone Hmin].
  pose proof (loop_lowvib_from perf shapers st Hloop) as Hfrom.
  unfold lowvib_from in Hfrom.
  destruct (lowvib_shaper st) as [n|] eqn:Hn.
  - destruct Hfrom as (c & accel & Hc & Hname & Hfreq & _ & Hvib & Hr & Hacc
                       & Hcsm).
    exists c, accel. rewrite Hname. repeat split; auto.
    + rewrite <- Hvib. now apply Hmin.
    + intros a Ha Heq. rewrite <- Hacc. rewrite <- Hvib in Heq.
      now apply (proj2 (Hmin x H H0) a).
  - exfalso. destruct (Hmin s Hs Hsm) as [Hlt _].
    rewrite (Hnone eq_refl), Hfin in Hlt. discriminate.
Qed.

Lemma lowvib_shaper_is_best_eligible_witness :
  exists c accel_c,
    In c demo_shapers
    /\ lowvib_shaper demo_locals = Some (name c)
    /\ lowvib_shaper_freq demo_locals = Some (freq c)
    /\ (smoothing c <? MAX_SMOOTHING) = true
    /\ rounded_max_accel c = inr accel_c
    /\ forall x,
         In x demo_shapers -> (smoothing x <? MAX_SMOOTHING) = true ->
         (vibrs x * 100 <? vibrs c * 100) = false
         /\ forall accel_x,
              rounded_max_accel x = inr accel_x ->
              (vibrs x * 100 =? vibrs c * 100) = true ->
              (accel_c <? accel_x) = false.
Proof.
  apply (lowvib_shaper_is_best_eligible [10; 20; 30] "zv" demo_shapers
           demo_locals zv);
    [vm_compute; reflexivity | now left | | ];
    vm_compute; reflexivity.
Defined.

(** X2.  Of two listed shapers, when the first passes the smoothing test
    with a vibration percentage below infinity, and the second has neither a
    strictly lower vibration percentage nor a strictly higher rounded
    maximum acceleration, the first stays the low-vibration shaper: ties are
    resolved in favour of the earlier shaper. *)
Theorem earlier_shaper_kept_on_ties (perf : string)
  (first second : CalibrationResult) (r1 r2 : float) :
  (smoothing first <? MAX_SMOOTHING) = true ->
  (vibrs first * 100 <? infinity) = true ->
  rounded_max_accel first = inr r1 ->
  rounded_max_accel second = inr r2 ->
  (vibrs second * 100 <? vibrs first * 100) = false ->
  (r1 <? r2) = false ->
  picks perf [first; second] first.
Proof.
  intros Hsm Hfin Hr1 Hr2 Hnot_lower Hnot_higher.
  unfold picks. simpl. rewrite Hr1, Hr2.
  destruct (next_locals_taken perf initial_locals first r1
              (first_shaper_taken first r1 Hfin Hsm))
    as (Hn & Hf & Hvals & Hvib & Hacc).
  set (st1 := next_locals perf initial_locals first r1) in *.
  assert (Hc : lowvib_condition st1 second r2 = false).
  { unfold lowvib_condition, Py.gtb.
    rewrite Hvib, Hacc, Hnot_lower, Hnot_higher.
    now rewrite andb_false_r. }
  destruct (next_locals_kept perf st1 second r2 Hc) as (Hn' & Hf' & Hvals' & _).
  eexists; split; [reflexivity|].
  rewrite Hn', Hf', Hvals'. auto.
Qed.

Lemma earlier_shaper_kept_on_ties_witness :
  picks "zv" [ei_8000; two_hump_ei_8040] ei_8000.
Proof.
  apply (earlier_shaper_kept_on_ties "zv" ei_8000 two_hump_ei_8040
           8000 8000);
    vm_compute; reflexivity.
Defined.

(** ** The performance locals *)

Lemma fold_locals_app (perf : string) (l1 l2 : list CalibrationResult) :
  forall st,
    fold_locals perf (l1 ++ l2) st
    = match fold_locals perf l1 st with
      | inl e => inl e
      | inr st1 => fold_locals perf l2 st1
      end.
Proof.
  induction l1 as [|s l1 IH]; intro st; simpl; [reflexivity|].
  destruct (rounded_max_accel s); [reflexivity | apply IH].
Qed.

Lemma next_locals_performance (perf : string) (st : Locals)
  (s : CalibrationResult) (accel : float) :
  performance_shaper_freq (next_locals perf st s accel)
  = (if String.eqb (name s) perf then Some (freq s)
     else performance_shaper_freq st)
  /\ performance_shaper_vibr (next_locals perf st s accel)
     = (if String.eqb (name s) perf then Some (vibrs s * 100)
        else performance_shaper_vibr st)
  /\ performance_shaper_vals (next_locals perf st s accel)
     = (if String.eqb (name s) perf then Some (vals s)
        else performance_shaper_vals st).
Proof.
  unfold next_locals.
  destruct (String.eqb (name s) perf);
    rewrite ?lowvib_condition_after_performance;
    destruct (lowvib_condition st s accel); repeat split.
Qed.

Lemma fold_locals_keeps_performance (perf : string)
  (shapers : list CalibrationResult) :
  (forall s, In s shapers -> name s <> perf) ->
  forall st st',
    fold_locals perf shapers st = inr st' ->
    performance_shaper_freq st' = performance_shaper_freq st
    /\ performance_shaper_vibr st' = performance_shaper_vibr st
    /\ performance_shaper_vals st' = performance_shaper_vals st.
Proof.
  induction shapers as [|s rest IH]; intros Hno st st' Hf; simpl in *.
  - inversion Hf; subst. repeat split.
  - destruct (rounded_max_accel s) as [e|accel]; [discriminate|].
    destruct (IH (fun x Hx => Hno x (or_intror Hx)) _ _ Hf) as (H1 & H2 & H3).
    destruct (next_locals_performance perf st s accel) as (N1 & N2 & N3).
    assert (Hneq : String.eqb (name s) perf = false).
    { apply String.eqb_neq. apply Hno. now left. }
    rewrite Hneq in N1, N2, N3.
    rewrite H1, H2, H3, N1, N2, N3. repeat split.
Qed.

(** X3.  When several shapers bear the performance name, the performance
    locals after the loop are those of the last one: its frequency, its
    vibration percentage and its response curve. *)
Theorem performance_locals_of_last_match (fs : list float) (perf : string)
  (before after : list CalibrationResult) (p : CalibrationResult)
  (st : Locals) :
  outcome (for_each (shaper_step fs perf) (before ++ p :: after)
             initial_locals) = inr st ->
  name p = perf ->
  (forall x, In x after -> name x <> perf) ->
  performance_shaper_freq st = Some (freq p)
  /\ performance_shaper_vibr st = Some (vibrs p * 100)
  /\ performance_shaper_vals st = Some (vals p).
Proof.
  intros Hloop Hname Hafter.
  rewrite loop_outcome, fold_locals_app in Hloop.
  destruct (fold_locals perf before initial_locals) as [e|st0];
    [discriminate|].
  simpl in Hloop.
  destruct (rounded_max_accel p) as [e|accel]; [discriminate|].
  destruct (fold_locals_keeps_performance perf after Hafter _ _ Hloop)
    as (H1 & H2 & H3).
  destruct (next_locals_performance perf st0 p accel) as (N1 & N2 & N3).
  rewrite Hname, String.eqb_refl in N1, N2, N3.
  rewrite H1, H2, H3. auto.
Qed.

Lemma performance_locals_of_last_match_witness :
  performance_shaper_freq
    {| lowvib_shaper_vibrs := 2; lowvib_shaper := Some "A";
       lowvib_shaper_freq := Some 48; lowvib_shaper_accel := 8000;
       lowvib_shaper_vals := Some [0.3];
       performance_shaper_freq := Some 44;
       performance_shaper_vibr := Some 1;
       performance_shaper_vals := Some [0.2] |}
  = Some (freq (candidate_B 44 [0.2]))
  /\ Some 1 = Some (vibrs (candidate_B 44 [0.2]) * 100)
  /\ Some [0.2] = Some (vals (candidate_B 44 [0.2])).
Proof.
  apply (performance_locals_of_last_match [10] "B"
           [candidate_B 40 [0.1]; candidate_A 48 [0.3]]
           [candidate_A 50 [0.4]] (candidate_B 44 [0.2])).
  - vm_compute. reflexivity.
  - reflexivity.
  - intros x [<- | []]. discriminate.
Defined.

(** ** What the recommendation lines can be *)

Lemma next_locals_performance_from (perf : string)
  (seen : list CalibrationResult) (st : Locals) (s : CalibrationResult)
  (accel : float) :
  performance_from seen perf st ->
  performance_from (s :: seen) perf (next_locals perf st s accel).
Proof.
  unfold performance_from. intro H.
  destruct (next_locals_performance perf st s accel) as (N1 & N2 & N3).
  rewrite N1, N2, N3.
  destruct (String.eqb (name s) perf) eqn:Heq.
  - apply String.eqb_eq in Heq. exists s. repeat split; auto. now left.
  - destruct (performance_shaper_freq st) as [f|]; [|exact I].
    destruct H as (p & Hp & H). exists p. split; [now right | exact H].
Qed.

Lemma fold_locals_performance_from (perf : string)
  (shapers : list CalibrationResult) :
  forall seen st st',
    performance_from seen perf st ->
    fold_locals perf shapers st = inr st' ->
    performance_from (rev shapers ++ seen) perf st'.
Proof.
  induction shapers as [|s rest IH]; intros seen st st' Hst Hf; simpl in *.
  - now inversion Hf; subst.
  - destruct (rounded_max_accel s) as [e|accel]; [discriminate|].
    rewrite <- app_assoc. simpl.
    apply (IH (s :: seen) _ _
             (next_locals_performance_from perf seen st s accel Hst) Hf).
Qed.

Lemma loop_performance_from (perf : string)
  (shapers : list CalibrationResult) (st : Locals) :
  fold_locals perf shapers initial_locals = inr st ->
  performance_from shapers perf st.
Proof.
  intro Hf.
  pose proof (fold_locals_performance_from perf shapers [] initial_locals st
                I Hf) as H.
  rewrite app_nil_r in H. unfold performance_from in *.
  destruct (performance_shaper_freq st) as [f|]; [|exact I].
  destruct H as (p & Hp & H). exists p. split; [|exact H].
  now apply in_rev in Hp.
Qed.

(** The recommendation lines of lines 152-177 as far as they get drawn. *)
Lemma recommend_shapes (fs psd : list float) (perf : string) (st : Locals) :
  recommendations (trace_of (recommend fs psd perf st)) = []
  \/ exists p_freq p_vibr,
       performance_shaper_freq st = Some p_freq
       /\ performance_shaper_vibr st = Some p_vibr
       /\ ((two_recommendations st perf p_vibr = false
            /\ recommendations (trace_of (recommend fs psd perf st))
               = [RecommendedBest (Py.upper perf) p_freq])
           \/ (two_recommendations st perf p_vibr = true
               /\ (recommendations (trace_of (recommend fs psd perf st))
                   = [RecommendedPerformance (Py.upper perf) p_freq]
                   \/ exists l l_freq,
                        lowvib_shaper st = Some l
                        /\ lowvib_shaper_freq st = Some l_freq
                        /\ recommendations
                             (trace_of (recommend fs psd perf st))
                           = [RecommendedPerformance (Py.upper perf) p_freq;
                              RecommendedLowVibrations (Py.upper l)
                                l_freq]))).
Proof.
  unfold recommend.
  destruct (performance_shaper_freq st) as [p_freq|]; [|now left].
  destruct (performance_shaper_vibr st) as [p_vibr|]; [|now left].
  destruct (performance_shaper_vals st) as [p_vals|]; [|now left].
  right. exists p_freq, p_vibr. repeat split.
  destruct (two_recommendations st perf p_vibr) eqn:Htwo; run_steps.
  - right. split; [reflexivity|].
    destruct (Np.mul psd p_vals) as [e|wp]; run_steps; [now left|].
    destruct (lowvib_shaper st) as [l|]; run_steps; [|now left].
    destruct (lowvib_shaper_freq st) as [lf|]; run_steps; [|now left].
    destruct (lowvib_shaper_vals st) as [lv|]; run_steps; [|now left].
    right. exists l, lf. repeat split.
    destruct (Np.mul psd lv); reflexivity.
  - left. split; [reflexivity|].
    destruct (Np.mul psd p_vals); reflexivity.
Qed.

(** X4.  Whatever its arguments, [plot_freq_response] draws either no
    recommendation line, or the "best shaper" line alone, or the
    "performance shaper" line alone (when the run raised right after it),
    or the "performance shaper" line followed by the "low vibrations
    shaper" line; the first line always carries the performance name and
    the frequency of a listed shaper bearing that name, the second the name
    and the frequency of a listed shaper.  A low-vibration line never comes
    alone. *)
Theorem recommendation_lines_shapes (cd : CalibrationData)
  (shapers : list CalibrationResult) (perf : string) (peaks : list Z)
  (peaks_freqs : list float) (thr : float * float)
  (fr zeta max_freq : float) :
  recommendations
    (trace_of (plot_freq_response cd shapers perf peaks peaks_freqs thr
                 fr zeta max_freq)) = []
  \/ exists p,
       In p shapers /\ name p = perf
       /\ (recommendations
             (trace_of (plot_freq_response cd shapers perf peaks peaks_freqs
                          thr fr zeta max_freq))
           = [RecommendedBest (Py.upper perf) (freq p)]
           \/ recommendations
                (trace_of (plot_freq_response cd shapers perf peaks
                             peaks_freqs thr fr zeta max_freq))
              = [RecommendedPerformance (Py.upper perf) (freq p)]
           \/ exists c,
                In c shapers
                /\ recommendations
                     (trace_of (plot_freq_response cd shapers perf peaks
                                  peaks_freqs thr fr zeta max_freq))
                   = [RecommendedPerformance (Py.upper perf) (freq p);
                      RecommendedLowVibrations (Py.upper (name c))
                        (freq c)]).
Proof.
  rewrite plot_recommendations.
  destruct (freqs cd) as [fs|]; [|now left].
  destruct (Np.max (psd_sum cd)) as [e|m]; [now left|].
  destruct (fold_locals perf shapers initial_locals) as [e|st] eqn:Hfold;
    [now left|].
  pose proof (loop_performance_from perf shapers st Hfold) as Hperf.
  pose proof (loop_lowvib_from perf shapers st Hfold) as Hlow.
  unfold performance_from in Hperf. unfold lowvib_from in Hlow.
  destruct (recommend_shapes fs (psd_sum cd) perf st)
    as [Hnil | (p_freq & p_vibr & Hpf & Hpv & Hcases)]; [now left|].
  rewrite Hpf in Hperf. destruct Hperf as (p & Hp & Hname & -> & _).
  right. exists p. repeat split; auto.
  destruct Hcases as [[_ Hbest] | [_ [Hone | (l & lf & Hl & Hlf & Hboth)]]].
  - now left.
  - right. now left.
  - right. right. rewrite Hl in Hlow.
    destruct Hlow as (c & accel & Hc & Hcname & Hcfreq & _).
    exists c. split; [exact Hc|].
    rewrite Hcname. rewrite Hlf in Hcfreq. injection Hcfreq as <-.
    exact Hboth.
Qed.

(** X5.  A "low vibrations shaper" line names a listed shaper that is not
    the performance shaper, passes the smoothing test, and whose vibration
    percentage is less than or equal to that of a listed shaper bearing the
    performance name. *)
Theorem lowvib_recommendation_is_justified (cd : CalibrationData)
  (shapers : list CalibrationResult) (perf : string) (peaks : list Z)
  (peaks_freqs : list float) (thr : float * float)
  (fr zeta max_freq : float) (NAME : string) (f : float) :
  In (RecommendedLowVibrations NAME f)
     (recommendations
        (trace_of (plot_freq_response cd shapers perf peaks peaks_freqs thr
                     fr zeta max_freq))) ->
  exists c p,
    In c shapers /\ In p shapers
    /\ NAME = Py.upper (name c) /\ f = freq c
    /\ name p = perf /\ name c <> perf
    /\ (smoothing c <? MAX_SMOOTHING) = true
    /\ (vibrs c * 100 <=? vibrs p * 100) = true.
Proof.
  rewrite plot_recommendations.
  destruct (freqs cd) as [fs|]; [|intros []].
  destruct (Np.max (psd_sum cd)) as [e|m]; [intros []|].
  destruct (fold_locals perf shapers initial_locals) as [e|st] eqn:Hfold;
    [intros []|].
  pose proof (loop_performance_from perf shapers st Hfold) as Hperf.
  pose proof (loop_lowvib_from perf shapers st Hfold) as Hlow.
  unfold performance_from in Hperf. unfold lowvib_from in Hlow.
  destruct (recommend_shapes fs (psd_sum cd) perf st)
    as [Hnil | (p_freq & p_vibr & Hpf & Hpv & Hcases)].
  { rewrite Hnil. intros []. }
  rewrite Hpf in Hperf. destruct Hperf as (p & Hp & Hname & _ & Hvibr & _).
  destruct Hcases as [[_ Hr] | [Htwo [Hr | (l & lf & Hl & Hlf & Hr)]]];
    rewrite Hr.
  - intros [H|[]]; discriminate.
  - intros [H|[]]; discriminate.
  - intros [H|[H|[]]]; [discriminate|]. injection H as <- <-.
    rewrite Hl in Hlow.
    destruct Hlow as (c & accel & Hc & Hcname & Hcfreq & _ & Hcvib & _ & _
                      & Hsm).
    unfold two_recommendations in Htwo. rewrite Hl in Htwo.
    apply andb_true_iff in Htwo. destruct Htwo as [Hdiff Hle].
    exists c, p. rewrite Hcname. repeat split; auto.
    + rewrite Hlf in Hcfreq. now injection Hcfreq.
    + apply negb_true_iff, String.eqb_neq in Hdiff. congruence.
    + rewrite Hcvib in Hle. rewrite Hpv in Hvibr. injection Hvibr as ->.
      exact Hle.
Qed.

Lemma lowvib_recommendation_is_justified_witness :
  exists c p,
    In c demo_shapers /\ In p demo_shapers
    /\ "MZV" = Py.upper (name c) /\ 52 = freq c
    /\ name p = "zv" /\ name c <> "zv"
    /\ (smoothing c <? MAX_SMOOTHING) = true
    /\ (vibrs c * 100 <=? vibrs p * 100) = true.
Proof.
  apply (lowvib_recommendation_is_justified demo_trimmed demo_shapers "zv"
           [1%Z] [20] (0.45, 1.08) 20 0.05 200 "MZV" 52).
  vm_compute. right. left. reflexivity.
Defined.

(** X6.  In a run of [plot_freq_response] that returns, when the loop ended
    with a low-vibration shaper whose name differs from the performance
    shaper's and whose vibration percentage is less than or equal to the
    performance shaper's, two recommendation lines are drawn: the
    performance shaper, then the low-vibration shaper. *)
Theorem both_recommendations_drawn (cd : CalibrationData)
  (shapers : list CalibrationResult) (perf : string) (peaks : list Z)
  (peaks_freqs : list float) (thr : float * float)
  (fr zeta max_freq : float) (fs : list float) (st : Locals)
  (lowvib : string) (p_vibr : float) :
  outcome (plot_freq_response cd shapers perf peaks peaks_freqs thr
             fr zeta max_freq) = inr tt ->
  freqs cd = Some fs ->
  outcome (for_each (shaper_step fs perf) shapers initial_locals) = inr st ->
  lowvib_shaper st = Some lowvib ->
  lowvib <> perf ->
  performance_shaper_vibr st = Some p_vibr ->
  (lowvib_shaper_vibrs st <=? p_vibr) = true ->
  exists p_freq l_freq,
    performance_shaper_freq st = Some p_freq
    /\ lowvib_shaper_freq st = Some l_freq
    /\ recommendations
         (trace_of (plot_freq_response cd shapers perf peaks peaks_freqs thr
                      fr zeta max_freq))
       = [RecommendedPerformance (Py.upper perf) p_freq;
          RecommendedLowVibrations (Py.upper lowvib) l_freq].
Proof.
  intros Hret Hfs Hloop Hl Hdiff Hpv Hle.
  rewrite loop_outcome in Hloop.
  destruct (plot_selected _ _ _ _ _ _ _ _ _ Hret) as (st' & Hst' & Hrec).
  rewrite Hloop in Hst'. injection Hst' as <-.
  destruct (fold_locals_performance_agree perf shapers initial_locals st)
    as [(_ & Hnone & _) | (pf & v & vs & Hpf & _ & _)]; auto.
  { left. repeat split. }
  { congruence. }
  pose proof (loop_lowvib_from perf shapers st Hloop) as Hlow.
  unfold lowvib_from in Hlow. rewrite Hl in Hlow.
  destruct Hlow as (c & accel & _ & _ & Hlf & _).
  exists pf, (freq c). repeat split; auto.
  rewrite Hrec. unfold selected, two_recommendations.
  rewrite Hpf, Hpv, Hl, Hlf, Hle.
  apply String.eqb_neq in Hdiff. rewrite Hdiff. reflexivity.
Qed.

Lemma both_recommendations_drawn_witness :
  exists p_freq l_freq,
    performance_shaper_freq demo_locals = Some p_freq
    /\ lowvib_shaper_freq demo_locals = Some l_freq
    /\ recommendations
         (trace_of (plot_freq_response demo_trimmed demo_shapers "zv" [1%Z]
                      [20] (0.45, 1.08) 20 0.05 200))
       = [RecommendedPerformance (Py.upper "zv") p_freq;
          RecommendedLowVibrations (Py.upper "mzv") l_freq].
Proof.
  apply (both_recommendations_drawn demo_trimmed demo_shapers "zv" [1%Z]
           [20] (0.45, 1.08) 20 0.05 200 [10; 20; 30] demo_locals "mzv" 5);
    try (vm_compute; reflexivity).
  discriminate.
Defined.

(** X7.  When no listed shaper passes the smoothing test (every smoothing is
    0.1 or more, or NaN), no low-vibration alternative is drawn: every
    recommendation line of the trace is the "best shaper" line of a listed
    shaper bearing the performance name, and a run that returns has drawn
    exactly that one line. *)
Theorem no_eligible_shaper_single_recommendation (cd : CalibrationData)
  (shapers : list CalibrationResult) (perf : string) (peaks : list Z)
  (peaks_freqs : list float) (thr : float * float)
  (fr zeta max_freq : float) :
  (forall s, In s shapers -> (smoothing s <? MAX_SMOOTHING) = false) ->
  (forall line,
     In line
        (recommendations
           (trace_of (plot_freq_response cd shapers perf peaks peaks_freqs
                        thr fr zeta max_freq))) ->
     exists p,
       In p shapers /\ name p = perf
       /\ line = RecommendedBest (Py.upper perf) (freq p))
  /\ (outcome (plot_freq_response cd shapers perf peaks peaks_freqs thr
                 fr zeta max_freq) = inr tt ->
      exists p,
        In p shapers /\ name p = perf
        /\ recommendations
             (trace_of (plot_freq_response cd shapers perf peaks peaks_freqs
                          thr fr zeta max_freq))
           = [RecommendedBest (Py.upper perf) (freq p)]).
Proof.
  intro Hnone.
  rewrite plot_recommendations, plot_outcome_before_recommend.
  destruct (freqs cd) as [fs|]; [|split; [intros line [] | discriminate]].
  destruct (Np.max (psd_sum cd)) as [e|m];
    [split; [intros line [] | discriminate]|].
  destruct (fold_locals perf shapers initial_locals) as [e|st] eqn:Hfold;
    [split; [intros line [] | discriminate]|].
  assert (Hl : lowvib_shaper st = None).
  { pose proof (loop_lowvib_from perf shapers st Hfold) as Hlow.
    unfold lowvib_from in Hlow.
    destruct (lowvib_shaper st) as [n|]; [|reflexivity].
    destruct Hlow as (c & accel & Hc & _ & _ & _ & _ & _ & _ & Hsm).
    rewrite (Hnone c Hc) in Hsm. discriminate. }
  pose proof (loop_performance_from perf shapers st Hfold) as Hperf.
  unfold performance_from in Hperf.
  destruct (performance_shaper_freq st) as [pf|] eqn:Hpf.
  - destruct Hperf as (p & Hp & Hname & -> & Hpv & Hvals).
    assert (Hrec : recommendations
                     (trace_of (recommend fs (psd_sum cd) perf st))
                   = [RecommendedBest (Py.upper perf) (freq p)]).
    { apply recommend_collapsed
        with (p_vibr := vibrs p * 100) (p_vals := vals p); auto.
      unfold two_recommendations. now rewrite Hl. }
    rewrite Hrec. split.
    + intros line [<- | []]. exists p. auto.
    + intros _. exists p. auto.
  - rewrite (recommend_without_performance fs (psd_sum cd) perf st Hpf).
    split; [intros line [] | discriminate].
Qed.

Lemma no_eligible_shaper_single_recommendation_witness :
  exists p,
    In p [candidate_B 44 [0.2; 0.1; 0.2]] /\ name p = "B"
    /\ recommendations
         (trace_of (plot_freq_response demo_trimmed
                      [candidate_B 44 [0.2; 0.1; 0.2]] "B" [1%Z] [20]
                      (0.45, 1.08) 20 0.05 200))
       = [RecommendedBest (Py.upper "B") (freq p)].
Proof.
  destruct (no_eligible_shaper_single_recommendation demo_trimmed
              [candidate_B 44 [0.2; 0.1; 0.2]] "B" [1%Z] [20] (0.45, 1.08)
              20 0.05 200) as [_ Hreturned].
  - intros s [<- | []]. vm_compute. reflexivity.
  - apply Hreturned. vm_compute. reflexivity.
Defined.

(** ** A maximum acceleration that cannot be rounded *)

Lemma is_infinity_Prim2SF (x : float) :
  is_infinity x = true -> exists s, Prim2SF x = S754_infinity s.
Proof.
  unfold is_infinity. rewrite eqb_spec, abs_spec.
  change (Prim2SF infinity) with (S754_infinity false).
  destruct (Prim2SF x) as [s|s| |s m e]; simpl; try discriminate.
  intros _. now exists s.
Qed.

Lemma rounded_max_accel_not_a_number (s : CalibrationResult) :
  is_nan (max_accel s) = true \/ is_infinity (max_accel s) = true ->
  exists e, rounded_max_accel s = inl e.
Proof.
  intro H. unfold rounded_max_accel, Py.round.
  rewrite div_spec. change (Prim2SF 100) with
    (S754_finite false 7036874417766400 (-46)).
  destruct H as [H | H].
  - rewrite (FloatOrder.is_nan_Prim2SF _ H). simpl. eauto.
  - destruct (is_infinity_Prim2SF _ H) as [sg Hsg]. rewrite Hsg. simpl.
    eauto.
Qed.

Lemma fold_locals_raises (perf : string) (shapers : list CalibrationResult)
  (s : CalibrationResult) (e : Exn) :
  In s shapers -> rounded_max_accel s = inl e ->
  forall st, exists e', fold_locals perf shapers st = inl e'.
Proof.
  induction shapers as [|x rest IH]; intros Hin Hr st; [destruct Hin|].
  simpl. destruct Hin as [<- | Hin].
  - rewrite Hr. eauto.
  - destruct (rounded_max_accel x); eauto.
Qed.

(** X8.  A listed shaper whose maximum acceleration is NaN or infinite makes
    [plot_freq_response] raise, whether or not that shaper passes the
    smoothing test, and no recommendation line is drawn. *)
Theorem unroundable_max_accel_aborts (cd : CalibrationData)
  (shapers : list CalibrationResult) (perf : string) (peaks : list Z)
  (peaks_freqs : list float) (thr : float * float)
  (fr zeta max_freq : float) (s : CalibrationResult) :
  In s shapers ->
  is_nan (max_accel s) = true \/ is_infinity (max_accel s) = true ->
  (exists e,
     outcome (plot_freq_response cd shapers perf peaks peaks_freqs thr
                fr zeta max_freq) = inl e)
  /\ recommendations
       (trace_of (plot_freq_response cd shapers perf peaks peaks_freqs thr
                    fr zeta max_freq)) = [].
Proof.
  intros Hin Hbad.
  destruct (rounded_max_accel_not_a_number s Hbad) as [e He].
  destruct (fold_locals_raises perf shapers s e Hin He initial_locals)
    as [e' He'].
  rewrite plot_outcome_before_recommend, plot_recommendations, He'.
  destruct (freqs cd); [|split; eauto].
  destruct (Np.max (psd_sum cd)); split; eauto.
Qed.

Lemma unroundable_max_accel_aborts_witness :
  (exists e,
     outcome (plot_freq_response demo_trimmed
                [zv; {| name := "ei"; freq := 48; vals := [0.3; 0.1; 0.2];
                        vibrs := 0.02; smoothing := 0.2;
                        max_accel := nan |}]
                "zv" [1%Z] [20] (0.45, 1.08) 20 0.05 200) = inl e)
  /\ recommendations
       (trace_of (plot_freq_response demo_trimmed
                    [zv; {| name := "ei"; freq := 48;
                            vals := [0.3; 0.1; 0.2]; vibrs := 0.02;
                            smoothing := 0.2; max_accel := nan |}]
                    "zv" [1%Z] [20] (0.45, 1.08) 20 0.05 200)) = [].
Proof.
  apply (unroundable_max_accel_aborts demo_trimmed _ "zv" [1%Z] [20]
           (0.45, 1.08) 20 0.05 200
           {| name := "ei"; freq := 48; vals := [0.3; 0.1; 0.2];
              vibrs := 0.02; smoothing := 0.2; max_accel := nan |}).
  - right. left. reflexivity.
  - left. vm_compute. reflexivity.
Defined.

(** ** Where the exceptions of plot_freq_response come from *)

Lemma Np_max_raises (arr : list float) (e : Exn) :
  Np.max arr = inl e ->
  e = ValueError
        "zero-size array to reduction operation maximum which has no identity".
Proof. destruct arr; simpl; intro H; now inversion H. Qed.

Lemma Np_mul_raises (a b : list float) (e : Exn) :
  Np.mul a b = inl e ->
  e = ValueError "operands could not be broadcast together".
Proof.
  unfold Np.mul. destruct (List.length a =? List.length b)%nat;
    [discriminate|].
  destruct a as [|x [|x' a]], b as [|y [|y' b]]; intro H;
    try discriminate; now inversion H.
Qed.

Lemma Np_item_raises (arr : list float) (i : Z) (e : Exn) :
  Np.item arr i = inl e -> e = IndexError "index out of bounds".
Proof.
  unfold Np.item.
  destruct ((0 <=? _) && _)%Z; [|intro H; now inversion H].
  destruct (nth_error arr _); intro H; [discriminate | now inversion H].
Qed.

Lemma Np_take_raises (arr : list float) (idx : list Z) (e : Exn) :
  Np.take arr idx = inl e -> e = IndexError "index out of bounds".
Proof.
  induction idx as [|i idx IH]; simpl; [discriminate|].
  destruct (Np.item arr i) as [e'|x] eqn:Hi.
  - intro H. inversion H; subst. now apply Np_item_raises in Hi.
  - destruct (Np.take arr idx) as [e'|xs]; [|discriminate].
    intro H. inversion H; subst. now apply IH.
Qed.

Lemma rounded_max_accel_raises (s : CalibrationResult) (e : Exn) :
  rounded_max_accel s = inl e ->
  e = ValueError "cannot convert float NaN to integer"
  \/ e = OverflowError "cannot convert float infinity to integer"
  \/ e = OverflowError "int too large to convert to float".
Proof.
  unfold rounded_max_accel, Py.round, Py.float_of_int.
  destruct (Prim2SF (max_accel s / 100)) as [sg|sg| |sg m ex].
  - destruct (is_infinity _); intro H; [|discriminate].
    inversion H. auto.
  - intro H. inversion H. auto.
  - intro H. inversion H. auto.
  - destruct (is_infinity _); intro H; [|discriminate].
    inversion H. auto.
Qed.

Lemma fold_locals_raised (perf : string) (shapers : list CalibrationResult)
  (e : Exn) :
  forall st,
    fold_locals perf shapers st = inl e ->
    exists s, In s shapers /\ rounded_max_accel s = inl e.
Proof.
  induction shapers as [|x rest IH]; intros st H; simpl in H;
    [discriminate|].
  destruct (rounded_max_accel x) as [e'|accel] eqn:Hr.
  - inversion H; subst. exists x. split; [now left | exact Hr].
  - destruct (IH _ H) as (s & Hs & Hrs). exists s. split; [now right|].
    exact Hrs.
Qed.

Lemma annotate_peaks_raises (fs psd : list float) (thr : float)
  (peaks : list Z) (e : Exn) :
  forall idx,
    outcome (annotate_peaks fs psd thr idx peaks) = inl e ->
    e = IndexError "index out of bounds".
Proof.
  induction peaks as [|p rest IH]; intro idx; simpl; run_steps; [raised|].
  destruct (Np.item psd p) as [e'|x] eqn:Hx; run_steps.
  { intro H. inversion H; subst. now apply Np_item_raises in Hx. }
  destruct (Np.item fs p) as [e'|f] eqn:Hf; run_steps.
  { intro H. inversion H; subst. now apply Np_item_raises in Hf. }
  apply IH.
Qed.

Lemma draw_peaks_raises (fs psd : list float) (peaks : list Z)
  (peaks_freqs : list float) (thr : float * float) (fr zeta : float)
  (e : Exn) :
  outcome (draw_peaks fs psd peaks peaks_freqs thr fr zeta) = inl e ->
  e = IndexError "index out of bounds".
Proof.
  unfold draw_peaks. run_steps.
  destruct (Np.take psd peaks) as [e'|pp] eqn:Ht; run_steps.
  { intro H. inversion H; subst. now apply Np_take_raises in Ht. }
  destruct (outcome (annotate_peaks fs psd (snd thr) 0 peaks))
    as [e'|[]] eqn:Ha; run_steps; [|raised].
  intro H. inversion H; subst. now apply annotate_peaks_raises in Ha.
Qed.

Lemma recommend_raises (fs psd : list float) (perf : string) (st : Locals)
  (e : Exn) :
  outcome (recommend fs psd perf st) = inl e ->
  (performance_shaper_freq st = None
   \/ performance_shaper_vibr st = None
   \/ performance_shaper_vals st = None)
  \/ e = ValueError "operands could not be broadcast together"
  \/ e = TypeError "NoneType".
Proof.
  unfold recommend.
  destruct (performance_shaper_freq st) as [pf|]; [|auto].
  destruct (performance_shaper_vibr st) as [pv|]; [|auto].
  destruct (performance_shaper_vals st) as [pvals|]; [|auto].
  intro H. right.
  destruct (two_recommendations st perf pv); revert H; run_steps.
  - destruct (Np.mul psd pvals) as [e'|wp] eqn:Hm; run_steps.
    { intro H. inversion H; subst. left. now apply Np_mul_raises in Hm. }
    destruct (lowvib_shaper st); run_steps;
      [|intro H; inversion H; auto].
    destruct (lowvib_shaper_freq st); run_steps;
      [|intro H; inversion H; auto].
    destruct (lowvib_shaper_vals st) as [lv|]; run_steps;
      [|intro H; inversion H; auto].
    destruct (Np.mul psd lv) as [e'|wl] eqn:Hl; run_steps; [|raised].
    intro H. inversion H; subst. left. now apply Np_mul_raises in Hl.
  - destruct (Np.mul psd pvals) as [e'|wp] eqn:Hm; run_steps; [|raised].
    intro H. inversion H; subst. left. now apply Np_mul_raises in Hm.
Qed.

Lemma fold_locals_finds_performance (perf : string)
  (shapers : list CalibrationResult) :
  forall st st',
    fold_locals perf shapers st = inr st' ->
    performance_shaper_freq st <> None
    \/ (exists p, In p shapers /\ name p = perf) ->
    performance_shaper_freq st' <> None.
Proof.
  induction shapers as [|s rest IH]; intros st st' Hf H; simpl in Hf.
  - inversion Hf; subst. destruct H as [H | (p & [] & _)]. exact H.
  - destruct (rounded_max_accel s) as [e|accel]; [discriminate|].
    apply (IH _ _ Hf).
    destruct (next_locals_performance perf st s accel) as (N1 & _).
    rewrite N1.
    destruct (String.eqb (name s) perf) eqn:Heq; [left; discriminate|].
    destruct H as [H | (p & [<- | Hp] & Hname)].
    + now left.
    + apply String.eqb_neq in Heq. contradiction.
    + right. eauto.
Qed.

(** X9.  [plot_freq_response] raises the error "Failed to find a
    performance shaper" only when no listed shaper bears the performance
    name: with such a shaper in the list, whatever else the run raises, it
    is not that error. *)
Theorem performance_error_only_without_match (cd : CalibrationData)
  (shapers : list CalibrationResult) (perf : string) (peaks : list Z)
  (peaks_freqs : list float) (thr : float * float)
  (fr zeta max_freq : float) :
  outcome (plot_freq_response cd shapers perf peaks peaks_freqs thr
             fr zeta max_freq)
  = inl (ValueError "Failed to find a performance shaper") ->
  forall s, In s shapers -> name s <> perf.
Proof.
  rewrite plot_outcome_before_recommend.
  destruct (freqs cd) as [fs|]; [|discriminate].
  destruct (Np.max (psd_sum cd)) as [e|m] eqn:Hmax.
  { intro H. inversion H; subst. apply Np_max_raises in Hmax.
    discriminate. }
  destruct (fold_locals perf shapers initial_locals) as [e|st] eqn:Hfold.
  { intro H. inversion H; subst.
    destruct (fold_locals_raised _ _ _ _ Hfold) as (s & _ & Hs).
    destruct (rounded_max_accel_raises _ _ Hs) as [E | [E | E]];
      discriminate. }
  destruct (outcome (recommend fs (psd_sum cd) perf st)) as [e|[]] eqn:Hrec.
  - intro H. inversion H; subst. intros s Hs Hname.
    destruct (recommend_raises _ _ _ _ _ Hrec) as [Hnone | [E | E]];
      try discriminate.
    assert (Hfound : performance_shaper_freq st <> None).
    { apply (fold_locals_finds_performance perf shapers initial_locals st
               Hfold).
      right. eauto. }
    destruct (fold_locals_performance_agree perf shapers initial_locals st)
      as [(Hn & _) | (f & v & vs & Hf & Hv & Hvs)]; auto.
    { left. repeat split. }
    destruct Hnone as [Hn | [Hn | Hn]]; congruence.
  - intro H. apply draw_peaks_raises in H. discriminate.
Qed.

Lemma performance_error_only_without_match_witness :
  name zv <> "ei" /\ name mzv <> "ei".
Proof.
  assert (Hrun : outcome (plot_freq_response demo_trimmed demo_shapers "ei"
                            [1%Z] [20] (0.45, 1.08) 20 0.05 200)
                 = inl (ValueError "Failed to find a performance shaper"))
    by (vm_compute; reflexivity).
  split.
  - apply (performance_error_only_without_match demo_trimmed demo_shapers
             "ei" [1%Z] [20] (0.45, 1.08) 20 0.05 200 Hrun zv).
    left. reflexivity.
  - apply (performance_error_only_without_match demo_trimmed demo_shapers
             "ei" [1%Z] [20] (0.45, 1.08) 20 0.05 200 Hrun mzv).
    right. left. reflexivity.
Defined.

(** ** The analysis draws nothing *)

Lemma drawings_app (t1 t2 : Trace) :
  drawings (t1 ++ t2) = drawings t1 ++ drawings t2.
Proof. unfold drawings. apply flat_map_app. Qed.

Lemma logged_draws_nothing (lines : list string) :
  drawings (map (fun line => Print (Logged line)) lines) = [].
Proof. induction lines as [|l lines IH]; simpl; auto. Qed.

#[local] Hint Rewrite drawings_app logged_draws_nothing : run.

Lemma calibrate_shaper_draws_nothing (env : Collaborators)
  (data : RawData env) (max_smoothing : option float) (scv max_freq : float) :
  drawings
    (trace_of (calibrate_shaper env data max_smoothing scv max_freq)) = [].
Proof.
  unfold calibrate_shaper. run_steps.
  destruct (process_accelerometer_data env data) as [e|cd0]; run_steps;
    [reflexivity|].
  destruct (normalize_to_frequencies env cd0) as [e|cd]; run_steps;
    [reflexivity|].
  destruct (compute_mechanical_parameters env (psd_sum cd) (freq_bins cd))
    as [e|mech]; run_steps; [reflexivity|].
  destruct (find_best_shaper env cd (snd mech) scv max_smoothing max_freq)
    as [lines [e|[[best|] all]]]; run_steps; reflexivity.
Qed.

Lemma analyse_draws_nothing (env : Collaborators) (csv_path : Path env)
  (max_smoothing : option float) (scv max_freq : float) :
  drawings (trace_of (analyse env csv_path max_smoothing scv max_freq)) = [].
Proof.
  unfold analyse. run_steps.
  destruct (load_accelerometer_data env csv_path) as [e|data]; run_steps;
    [reflexivity|].
  rewrite calibrate_shaper_draws_nothing.
  destruct (outcome (calibrate_shaper env data max_smoothing scv max_freq))
    as [e|[[[[perf shapers] cd] fr] zeta]]; run_steps; [reflexivity|].
  destruct (compute_spectrogram env data) as [e|[[pdata bins] t]]; run_steps;
    [reflexivity|].
  destruct (trim cd max_freq) as [e|cd']; run_steps; [reflexivity|].
  destruct (freqs cd') as [fs|]; run_steps; [|reflexivity].
  destruct (Np.max (psd_sum cd')) as [e|m]; run_steps; [reflexivity|].
  destruct (detect_peaks env (psd_sum cd') fs (PEAKS_DETECTION_THRESHOLD * m))
    as [e|[[n peaks] pf]]; run_steps; [reflexivity|].
  destruct (Np.take (psd_sum cd') peaks) as [e|pp]; run_steps; reflexivity.
Qed.

(** X10.  Whatever raises during the analysis of a capture (loading, the
    shaper search, the spectrogram, the trimming, the maximum of an empty
    PSD, the peak detection, a peak index out of range), the pipeline raises
    that same exception and has made no drawing call: the figure is not even
    created. *)
Theorem failed_analysis_draws_nothing (env : Collaborators)
  (csv_path : Path env) (max_smoothing : option float)
  (scv max_freq : float) (e : Exn) :
  outcome (analyse env csv_path max_smoothing scv max_freq) = inl e ->
  outcome (graph_resonances_test_results env csv_path max_smoothing scv
             max_freq) = inl e
  /\ drawings
       (trace_of (graph_resonances_test_results env csv_path max_smoothing
                    scv max_freq)) = [].
Proof.
  intro He. unfold graph_resonances_test_results. run_steps.
  rewrite He, analyse_draws_nothing. split; reflexivity.
Qed.

Lemma failed_analysis_draws_nothing_witness :
  outcome (graph_resonances_test_results (demo_env None []) "capture.csv"
             (Some 0.05) 5 200)
  = inl (ValueError "Failed to find a shaper")
  /\ drawings
       (trace_of (graph_resonances_test_results (demo_env None [])
                    "capture.csv" (Some 0.05) 5 200)) = [].
Proof.
  apply (failed_analysis_draws_nothing (demo_env None []) "capture.csv"
           (Some 0.05) 5 200).
  vm_compute. reflexivity.
Defined.

(** ** Trimming *)

Lemma compress_all_false (fs arr : list float) (max_freq : float) :
  Forall (fun f => (f <=? max_freq) = false) fs ->
  Np.compress (Np.le_mask fs max_freq) arr = [].
Proof.
  intro H. revert arr.
  induction H as [|f fs Hf _ IH]; intros [|x arr]; simpl; try reflexivity.
  rewrite Hf. apply IH.
Qed.

Lemma le_mask_length (fs : list float) (max_freq : float) :
  List.length (Np.le_mask fs max_freq) = List.length fs.
Proof. unfold Np.le_mask. apply length_map. Qed.

Lemma bool_index_le_mask (arr fs : list float) (max_freq : float) :
  Np.bool_index arr (Np.le_mask fs max_freq)
  = if (List.length fs =? List.length arr)%nat
    then inr (Np.compress (Np.le_mask fs max_freq) arr)
    else inl (IndexError "boolean index did not match indexed array").
Proof. unfold Np.bool_index. now rewrite le_mask_length. Qed.

(** X11.  Trimming succeeds exactly when the combined PSD and the three
    per-axis PSD vectors all have the length of the frequency bins;
    otherwise it raises [IndexError]. *)
Theorem trim_succeeds_iff_aligned (cd : CalibrationData) (max_freq : float) :
  ((exists cd', trim cd max_freq = inr cd')
   <-> (List.length (psd_sum cd) = List.length (freq_bins cd)
        /\ List.length (psd_x cd) = List.length (freq_bins cd)
        /\ List.length (psd_y cd) = List.length (freq_bins cd)
        /\ List.length (psd_z cd) = List.length (freq_bins cd)))
  /\ forall e,
       trim cd max_freq = inl e ->
       e = IndexError "boolean index did not match indexed array".
Proof.
  unfold trim. rewrite !bool_index_le_mask, Nat.eqb_refl.
  destruct (Nat.eqb_spec (List.length (freq_bins cd))
              (List.length (psd_sum cd))) as [Hs|Hs].
  2: { split; [split|].
       - intros [cd' H]. discriminate.
       - intros (H & _). now symmetry in H.
       - intros e H. now inversion H. }
  destruct (Nat.eqb_spec (List.length (freq_bins cd))
              (List.length (psd_x cd))) as [Hx|Hx].
  2: { split; [split|].
       - intros [cd' H]. discriminate.
       - intros (_ & H & _). now symmetry in H.
       - intros e H. now inversion H. }
  destruct (Nat.eqb_spec (List.length (freq_bins cd))
              (List.length (psd_y cd))) as [Hy|Hy].
  2: { split; [split|].
       - intros [cd' H]. discriminate.
       - intros (_ & _ & H & _). now symmetry in H.
       - intros e H. now inversion H. }
  destruct (Nat.eqb_spec (List.length (freq_bins cd))
              (List.length (psd_z cd))) as [Hz|Hz].
  2: { split; [split|].
       - intros [cd' H]. discriminate.
       - intros (_ & _ & _ & H). now symmetry in H.
       - intros e H. now inversion H. }
  split; [split|].
  - intros _. repeat split; now symmetry.
  - intros _. eauto.
  - intros e H. discriminate.
Qed.

Lemma compress_combine (max_freq : float) (fs : list float) :
  forall arr,
    combine (Np.compress (Np.le_mask fs max_freq) fs)
            (Np.compress (Np.le_mask fs max_freq) arr)
    = filter (fun p => fst p <=? max_freq) (combine fs arr).
Proof.
  induction fs as [|f fs IH]; intros [|x arr]; simpl; try reflexivity.
  - apply combine_nil.
  - destruct (f <=? max_freq); simpl; now rewrite IH.
Qed.

Lemma trim_inv (cd cd' : CalibrationData) (max_freq : float) :
  trim cd max_freq = inr cd' ->
  cd' = {| freq_bins := freq_bins cd;
           psd_sum := Np.compress (Np.le_mask (freq_bins cd) max_freq)
                        (psd_sum cd);
           psd_x := Np.compress (Np.le_mask (freq_bins cd) max_freq)
                      (psd_x cd);
           psd_y := Np.compress (Np.le_mask (freq_bins cd) max_freq)
                      (psd_y cd);
           psd_z := Np.compress (Np.le_mask (freq_bins cd) max_freq)
                      (psd_z cd);
           freqs := Some (Np.compress (Np.le_mask (freq_bins cd) max_freq)
                            (freq_bins cd)) |}.
Proof.
  unfold trim. rewrite !bool_index_le_mask, Nat.eqb_refl.
  destruct (_ =? List.length (psd_sum cd))%nat; [|discriminate].
  destruct (_ =? List.length (psd_x cd))%nat; [|discriminate].
  destruct (_ =? List.length (psd_y cd))%nat; [|discriminate].
  destruct (_ =? List.length (psd_z cd))%nat; [|discriminate].
  intro H. now inversion H.
Qed.

(** X12.  Trimming keeps every PSD value with its frequency: each trimmed
    PSD vector paired with the trimmed frequencies is the original vector
    paired with the frequency bins, restricted to the pairs whose frequency
    is at most [max_freq], in the original order.  The frequency bins
    themselves are left untrimmed. *)
Theorem trim_keeps_pairs (cd cd' : CalibrationData) (max_freq : float) :
  trim cd max_freq = inr cd' ->
  freq_bins cd' = freq_bins cd
  /\ exists fs,
       freqs cd' = Some fs
       /\ combine fs (psd_sum cd')
          = filter (fun p => fst p <=? max_freq)
              (combine (freq_bins cd) (psd_sum cd))
       /\ combine fs (psd_x cd')
          = filter (fun p => fst p <=? max_freq)
              (combine (freq_bins cd) (psd_x cd))
       /\ combine fs (psd_y cd')
          = filter (fun p => fst p <=? max_freq)
              (combine (freq_bins cd) (psd_y cd))
       /\ combine fs (psd_z cd')
          = filter (fun p => fst p <=? max_freq)
              (combine (freq_bins cd) (psd_z cd)).
Proof.
  intro H. apply trim_inv in H. subst cd'. simpl.
  split; [reflexivity|].
  eexists. split; [reflexivity|].
  repeat split; apply compress_combine.
Qed.

Lemma trim_keeps_pairs_witness :
  freq_bins demo_trimmed = freq_bins demo_data
  /\ exists fs,
       freqs demo_trimmed = Some fs
       /\ combine fs (psd_sum demo_trimmed)
          = filter (fun p => fst p <=? 200)
              (combine (freq_bins demo_data) (psd_sum demo_data))
       /\ combine fs (psd_x demo_trimmed)
          = filter (fun p => fst p <=? 200)
              (combine (freq_bins demo_data) (psd_x demo_data))
       /\ combine fs (psd_y demo_trimmed)
          = filter (fun p => fst p <=? 200)
              (combine (freq_bins demo_data) (psd_y demo_data))
       /\ combine fs (psd_z demo_trimmed)
          = filter (fun p => fst p <=? 200)
              (combine (freq_bins demo_data) (psd_z demo_data)).
Proof.
  apply (trim_keeps_pairs demo_data demo_trimmed 200).
  vm_compute. reflexivity.
Defined.

(** X13.  When the analysis reaches the trimming with every frequency bin
    above [max_freq] (comparisons with a NaN count as above), nothing is
    left of the combined PSD, its maximum raises [ValueError], and the
    pipeline raises that error without a drawing call. *)
Theorem cutoff_below_every_frequency (env : Collaborators)
  (csv_path : Path env) (max_smoothing : option float)
  (scv max_freq : float) (data : RawData env) (perf : string)
  (shs : list CalibrationResult) (cd cd' : CalibrationData)
  (fr zeta : float) (spec : PData env * list float * list float) :
  load_accelerometer_data env csv_path = inr data ->
  outcome (calibrate_shaper env data max_smoothing scv max_freq)
  = inr (perf, shs, cd, fr, zeta) ->
  compute_spectrogram env data = inr spec ->
  trim cd max_freq = inr cd' ->
  Forall (fun f => (f <=? max_freq) = false) (freq_bins cd) ->
  psd_sum cd' = []
  /\ outcome (graph_resonances_test_results env csv_path max_smoothing scv
                max_freq)
     = inl (ValueError
         "zero-size array to reduction operation maximum which has no identity")
  /\ drawings
       (trace_of (graph_resonances_test_results env csv_path max_smoothing
                    scv max_freq)) = [].
Proof.
  intros Hload Hcal Hspec Htrim Hall.
  assert (Hempty : psd_sum cd' = []).
  { rewrite (trim_inv cd cd' max_freq Htrim). simpl.
    now apply compress_all_false. }
  assert (Hfs : freqs cd' <> None).
  { rewrite (trim_inv cd cd' max_freq Htrim). discriminate. }
  assert (Ha : outcome (analyse env csv_path max_smoothing scv max_freq)
               = inl (ValueError
         "zero-size array to reduction operation maximum which has no identity")).
  { unfold analyse. run_steps. rewrite Hload. run_steps. rewrite Hcal.
    run_steps. rewrite Hspec. destruct spec as [[pd bn] tm]. run_steps.
    rewrite Htrim. run_steps.
    destruct (freqs cd') as [fs|]; [|contradiction]. run_steps.
    rewrite Hempty. reflexivity. }
  split; [exact Hempty|].
  unfold graph_resonances_test_results. run_steps.
  rewrite Ha, analyse_draws_nothing. split; reflexivity.
Qed.

Lemma cutoff_below_every_frequency_witness :
  psd_sum {| freq_bins := [10; 20; 30; 250]; psd_sum := []; psd_x := [];
             psd_y := []; psd_z := []; freqs := Some [] |} = []
  /\ outcome (graph_resonances_test_results
                (demo_env (Some zv) demo_shapers) "capture.csv" (Some 0.05)
                5 5)
     = inl (ValueError
         "zero-size array to reduction operation maximum which has no identity")
  /\ drawings
       (trace_of (graph_resonances_test_results
                    (demo_env (Some zv) demo_shapers) "capture.csv"
                    (Some 0.05) 5 5)) = [].
Proof.
  apply (cutoff_below_every_frequency (demo_env (Some zv) demo_shapers)
           "capture.csv" (Some 0.05) 5 5 tt "zv" demo_shapers demo_data
           _ 20 0.05 (tt, [0; 100; 200], [0; 1; 2]));
    try (vm_compute; reflexivity).
  repeat constructor.
Defined.

(** ** The numbers written next to the peaks *)

Lemma annotations_app (t1 t2 : Trace) :
  annotations (t1 ++ t2) = annotations t1 ++ annotations t2.
Proof. unfold annotations. apply flat_map_app. Qed.

#[local] Hint Rewrite annotations_app : run.

Lemma no_drawing_no_annotation (t : Trace) :
  drawings t = [] -> annotations t = [].
Proof.
  induction t as [|ev t IH]; simpl; [reflexivity|].
  destruct ev as [line | target c]; simpl; [exact IH | discriminate].
Qed.

Lemma draw_axes_annotates_nothing (fs psd px py pz : list float)
  (max_freq : float) :
  annotations (trace_of (draw_axes fs psd px py pz max_freq)) = [].
Proof.
  unfold draw_axes. run_steps.
  destruct (Np.max psd); run_steps; reflexivity.
Qed.

Lemma loop_annotates_nothing (fs : list float) (perf : string)
  (shapers : list CalibrationResult) :
  forall st,
    annotations (trace_of (for_each (shaper_step fs perf) shapers st)) = [].
Proof.
  induction shapers as [|s rest IH]; intro st; simpl; [reflexivity|].
  rewrite trace_bind, annotations_app, shaper_step_eq.
  destruct (rounded_max_accel s); simpl; [reflexivity | apply IH].
Qed.

Lemma recommend_annotates_nothing (fs psd : list float) (perf : string)
  (st : Locals) :
  annotations (trace_of (recommend fs psd perf st)) = [].
Proof.
  unfold recommend.
  destruct (performance_shaper_freq st); [|reflexivity].
  destruct (performance_shaper_vibr st); [|reflexivity].
  destruct (performance_shaper_vals st) as [pvals|]; [|reflexivity].
  destruct (two_recommendations st perf _); run_steps.
  - destruct (Np.mul psd pvals); run_steps; [reflexivity|].
    destruct (lowvib_shaper st); run_steps; [|reflexivity].
    destruct (lowvib_shaper_freq st); run_steps; [|reflexivity].
    destruct (lowvib_shaper_vals st) as [lv|]; run_steps; [|reflexivity].
    destruct (Np.mul psd lv); reflexivity.
  - destruct (Np.mul psd pvals); reflexivity.
Qed.

Lemma annotate_peaks_annotations (fs psd : list float) (thr : float)
  (peaks : list Z) :
  forall idx,
    outcome (annotate_peaks fs psd thr idx peaks) = inr tt ->
    exists f_peaks p_peaks,
      Np.take fs peaks = inr f_peaks
      /\ Np.take psd peaks = inr p_peaks
      /\ annotations (trace_of (annotate_peaks fs psd thr idx peaks))
         = expected_annotations thr idx f_peaks p_peaks.
Proof.
  induction peaks as [|p rest IH]; intro idx; simpl.
  - intros _. exists [], []. repeat split.
  - run_steps.
    destruct (Np.item psd p) as [e|x]; run_steps; [raised|].
    destruct (Np.item fs p) as [e|f]; run_steps; [raised|].
    intro H. destruct (IH (S idx) H) as (fp & pp & Hf & Hp & Hann).
    exists (f :: fp), (x :: pp). rewrite Hf, Hp, Hann. repeat split.
Qed.

Lemma draw_peaks_annotations (fs psd : list float) (peaks : list Z)
  (peaks_freqs : list float) (thr : float * float) (fr zeta : float) :
  outcome (draw_peaks fs psd peaks peaks_freqs thr fr zeta) = inr tt ->
  exists f_peaks p_peaks,
    Np.take fs peaks = inr f_peaks
    /\ Np.take psd peaks = inr p_peaks
    /\ annotations (trace_of (draw_peaks fs psd peaks peaks_freqs thr fr zeta))
       = expected_annotations (snd thr) 0 f_peaks p_peaks.
Proof.
  unfold draw_peaks. run_steps.
  destruct (Np.take psd peaks) as [e|pp] eqn:Htake; run_steps; [raised|].
  destruct (outcome (annotate_peaks fs psd (snd thr) 0 peaks))
    as [e|[]] eqn:Ha; run_steps; [raised|].
  intros _.
  destruct (annotate_peaks_annotations fs psd (snd thr) peaks 0 Ha)
    as (fp & pp' & Hf & Hp & Hann).
  exists fp, pp'. rewrite Hann, app_nil_r. repeat split; auto.
  congruence.
Qed.

(** X14.  In a run of [plot_freq_response] that returns, the numbers
    written on the frequency profile are 1, 2, 3, ... in the order of the
    peak indices; the k-th is placed at the frequency and the PSD value
    found at the k-th peak index, and it is red and bold exactly when that
    PSD value is strictly above the effect threshold. *)
Theorem peaks_numbered_in_order (cd : CalibrationData)
  (shapers : list CalibrationResult) (perf : string) (peaks : list Z)
  (peaks_freqs : list float) (thr : float * float)
  (fr zeta max_freq : float) (fs : list float) :
  outcome (plot_freq_response cd shapers perf peaks peaks_freqs thr
             fr zeta max_freq) = inr tt ->
  freqs cd = Some fs ->
  exists f_peaks p_peaks,
    Np.take fs peaks = inr f_peaks
    /\ Np.take (psd_sum cd) peaks = inr p_peaks
    /\ annotations
         (trace_of (plot_freq_response cd shapers perf peaks peaks_freqs thr
                      fr zeta max_freq))
       = expected_annotations (snd thr) 0 f_peaks p_peaks.
Proof.
  intros Hret Hfs.
  rewrite plot_outcome_before_recommend, Hfs in Hret.
  unfold plot_freq_response. rewrite Hfs. run_steps.
  rewrite draw_axes_annotates_nothing, draw_axes_outcome.
  destruct (Np.max (psd_sum cd)) as [e|m]; [discriminate|].
  run_steps. rewrite loop_annotates_nothing, loop_outcome.
  destruct (fold_locals perf shapers initial_locals) as [e|st];
    [discriminate|].
  run_steps. rewrite recommend_annotates_nothing.
  destruct (outcome (recommend fs (psd_sum cd) perf st)) as [e|[]];
    [discriminate|].
  simpl.
  exact (draw_peaks_annotations fs (psd_sum cd) peaks peaks_freqs thr fr zeta
           Hret).
Qed.

Lemma peaks_numbered_in_order_witness :
  exists f_peaks p_peaks,
    Np.take [5; 15; 25] [2%Z; 0%Z] = inr f_peaks
    /\ Np.take (psd_sum other_trimmed) [2%Z; 0%Z] = inr p_peaks
    /\ annotations
         (trace_of (plot_freq_response other_trimmed demo_shapers "zv"
                      [2%Z; 0%Z] [25; 5] (0.35, 0.84) 25 0.1 100))
       = expected_annotations (snd (0.35, 0.84)) 0 f_peaks p_peaks.
Proof.
  apply (peaks_numbered_in_order other_trimmed demo_shapers "zv" [2%Z; 0%Z]
           [25; 5] (0.35, 0.84) 25 0.1 100 [5; 15; 25]);
    vm_compute; reflexivity.
Defined.

Lemma plot_annotations_eq (cd : CalibrationData)
  (shapers : list CalibrationResult) (perf : string) (peaks : list Z)
  (peaks_freqs : list float) (thr : float * float)
  (fr zeta max_freq : float) :
  annotations
    (trace_of (plot_freq_response cd shapers perf peaks peaks_freqs thr
                 fr zeta max_freq))
  = match freqs cd, Np.max (psd_sum cd),
          fold_locals perf shapers initial_locals with
    | Some fs, inr _, inr st =>
        match outcome (recommend fs (psd_sum cd) perf st) with
        | inr _ =>
            annotations
              (trace_of (draw_peaks fs (psd_sum cd) peaks peaks_freqs thr
                           fr zeta))
        | inl _ => []
        end
    | _, _, _ => []
    end.
Proof.
  unfold plot_freq_response.
  destruct (freqs cd) as [fs|]; [|reflexivity].
  run_steps. rewrite draw_axes_annotates_nothing, draw_axes_outcome.
  destruct (Np.max (psd_sum cd)); [reflexivity|].
  run_steps. rewrite loop_annotates_nothing, loop_outcome.
  destruct (fold_locals perf shapers initial_locals) as [e|st];
    [reflexivity|].
  run_steps. rewrite recommend_annotates_nothing.
  destruct (outcome (recommend fs (psd_sum cd) perf st)); reflexivity.
Qed.

Lemma take_length (arr : list float) (idx : list Z) :
  forall xs, Np.take arr idx = inr xs -> List.length xs = List.length idx.
Proof.
  induction idx as [|i idx IH]; intros xs H; simpl in H.
  - now inversion H.
  - destruct (Np.item arr i); [discriminate|].
    destruct (Np.take arr idx) as [e|ys]; [discriminate|].
    inversion H; subst. simpl. f_equal. now apply IH.
Qed.

Lemma expected_red_bold (thr : float) (fp : list float) :
  forall idx pp,
    List.length fp = List.length pp ->
    List.length (filter is_red_bold (expected_annotations thr idx fp pp))
    = Np.count_true (map (fun p => Py.gtb p thr) pp).
Proof.
  unfold Np.count_true.
  induction fp as [|f fp IH]; intros idx [|p pp] Hlen; simpl in *;
    try reflexivity; try discriminate.
  injection Hlen as Hlen. unfold is_red_bold at 1, peak_font. simpl.
  destruct (Py.gtb p thr); simpl; now rewrite IH.
Qed.

Lemma figure_header_annotates_nothing (env : Collaborators)
  (csv_path : Path env) (max_smoothing : option float) (scv : float) :
  annotations (trace_of (figure_header env csv_path max_smoothing scv)) = [].
Proof.
  unfold figure_header. run_steps.
  destruct (header_of_name env (path_name env csv_path)); run_steps;
    reflexivity.
Qed.

Lemma mark_peaks_annotates_nothing (bins_last : float) (peaks : list float) :
  forall idx, annotations (trace_of (mark_peaks bins_last idx peaks)) = [].
Proof.
  induction peaks as [|p rest IH]; intro idx; simpl; [reflexivity|].
  run_steps. apply IH.
Qed.

Lemma plot_spectrogram_annotates_nothing {P : Type}
  (pct : P -> float -> Exn + float) (t bins : list float) (pdata : P)
  (peaks : option (list float)) (max_freq : float) :
  annotations (trace_of (plot_spectrogram pct t bins pdata peaks max_freq))
  = [].
Proof.
  unfold plot_spectrogram. run_steps.
  destruct (pct pdata SPECTROGRAM_LOW_PERCENTILE_FILTER); run_steps;
    [reflexivity|].
  destruct (first_last t); run_steps; [reflexivity|].
  destruct (first_last bins); run_steps; [reflexivity|].
  destruct peaks; run_steps;
    [apply mark_peaks_annotates_nothing | reflexivity].
Qed.

(** X15.  In a run of the pipeline that returns, the number of peaks drawn
    red and bold on the frequency profile is the number of peaks above the
    effect threshold printed on the console. *)
Theorem red_bold_peaks_match_console (env : Collaborators)
  (csv_path : Path env) (max_smoothing : option float)
  (scv max_freq : float) (a : Analysis env) :
  outcome (analyse env csv_path max_smoothing scv max_freq) = inr a ->
  outcome (graph_resonances_test_results env csv_path max_smoothing scv
             max_freq) = inr tt ->
  List.length
    (filter is_red_bold
       (annotations
          (trace_of (graph_resonances_test_results env csv_path
                       max_smoothing scv max_freq))))
  = num_peaks_above_effect_threshold env a
  /\ In (Print (PeaksDetected (num_peaks env a) (peaks_freqs env a)
                  (num_peaks_above_effect_threshold env a)))
        (trace_of (graph_resonances_test_results env csv_path max_smoothing
                     scv max_freq)).
Proof.
  intros Ha Hret.
  destruct (analyse_inv env csv_path max_smoothing scv max_freq a Ha)
    as (data & cd0 & fs & m & pp & Hload & Hcal & Hspec & Htrim & Hfs & Hmax
        & Hthr & Hdet & Htake & Hnum).
  split.
  - revert Hret. unfold graph_resonances_test_results. run_steps.
    rewrite Ha.
    rewrite (no_drawing_no_annotation _
               (analyse_draws_nothing env csv_path max_smoothing scv
                  max_freq)).
    unfold render. run_steps.
    rewrite figure_header_annotates_nothing.
    rewrite (proj2 (figure_header_recommends_nothing env csv_path
                      max_smoothing scv)).
    run_steps.
    destruct (outcome (plot_freq_response _ _ _ _ _ _ _ _ _))
      as [e|[]] eqn:Hplot; [raised|].
    intros _.
    rewrite (plot_spectrogram_annotates_nothing (percentile env)).
    rewrite plot_annotations_eq.
    rewrite plot_outcome_before_recommend in Hplot.
    rewrite Hfs, Hmax in *.
    destruct (fold_locals _ _ _) as [e|st]; [discriminate|].
    destruct (outcome (recommend _ _ _ _)) as [e|[]]; [discriminate|].
    rename Hplot into Hpeaks.
    destruct (draw_peaks_annotations _ _ _ _ _ _ _ Hpeaks)
      as (fp & pp' & Hf & Hp & Hann).
    rewrite Hann. simpl. rewrite app_nil_r.
    assert (pp' = pp) by congruence. subst pp'.
    rewrite expected_red_bold.
    + rewrite Hnum. f_equal. apply map_ext. intro p. now rewrite Hthr.
    + rewrite (take_length _ _ _ Hf), (take_length _ _ _ Hp). reflexivity.
  - unfold graph_resonances_test_results. rewrite trace_bind.
    apply in_or_app. left.
    unfold analyse. run_steps. rewrite Hload. run_steps.
    apply in_or_app. right. rewrite Hcal. run_steps.
    rewrite Hspec. run_steps. rewrite Htrim. run_steps.
    rewrite Hfs. run_steps. rewrite Hmax. run_steps.
    rewrite Hdet. run_steps. rewrite Htake. run_steps.
    left. rewrite Hnum. reflexivity.
Qed.

Lemma red_bold_peaks_match_console_witness :
  List.length
    (filter is_red_bold
       (annotations
          (trace_of (graph_resonances_test_results
                       (demo_env (Some zv) demo_shapers) "capture.csv"
                       (Some 0.05) 5 200))))
  = 1%nat
  /\ In (Print (PeaksDetected 1%Z [20] 1))
        (trace_of (graph_resonances_test_results
                     (demo_env (Some zv) demo_shapers) "capture.csv"
                     (Some 0.05) 5 200)).
Proof.
  apply (red_bold_peaks_match_console (demo_env (Some zv) demo_shapers)
           "capture.csv" (Some 0.05) 5 200 demo_analysis);
    vm_compute; reflexivity.
Defined.

(** ** plot_spectrogram *)

Lemma peak_marks_app (t1 t2 : Trace) :
  peak_marks (t1 ++ t2) = peak_marks t1 ++ peak_marks t2.
Proof. unfold peak_marks. apply flat_map_app. Qed.

#[local] Hint Rewrite peak_marks_app : run.

Lemma nth_error_last_element (arr : list float) (x : float) :
  nth_error (arr ++ [x]) (List.length arr) = Some x.
Proof. induction arr as [|y arr IH]; simpl; auto. Qed.

Lemma item_last (arr : list float) :
  arr <> [] -> Np.item arr (-1) = inr (last arr 0).
Proof.
  intro Hne.
  destruct (exists_last Hne) as (front & x & ->).
  rewrite last_last. unfold Np.item.
  rewrite length_app. simpl List.length.
  replace (-1 <? 0)%Z with true by reflexivity.
  replace ((0 <=? -1 + Z.of_nat (List.length front + 1))
           && (-1 + Z.of_nat (List.length front + 1)
               <? Z.of_nat (List.length front + 1)))%Z with true.
  2: { symmetry. apply andb_true_iff. split;
       [apply Z.leb_le | apply Z.ltb_lt]; lia. }
  replace (Z.to_nat (-1 + Z.of_nat (List.length front + 1)))
    with (List.length front) by lia.
  now rewrite nth_error_last_element.
Qed.

Lemma item_first (arr : list float) (x : float) (rest : list float) :
  arr = x :: rest -> Np.item arr 0 = inr x.
Proof.
  intros ->. unfold Np.item. simpl List.length.
  replace (0 <? 0)%Z with false by reflexivity.
  replace ((0 <=? 0) && (0 <? Z.of_nat (S (List.length rest))))%Z with true.
  - reflexivity.
  - symmetry. apply andb_true_iff. split;
      [apply Z.leb_le | apply Z.ltb_lt]; lia.
Qed.

Lemma first_last_nonempty (arr : list float) :
  arr <> [] -> first_last arr = inr (hd 0 arr, last arr 0).
Proof.
  intro Hne. unfold first_last. rewrite (item_last arr Hne).
  destruct arr as [|x rest]; [contradiction|].
  now rewrite (item_first (x :: rest) x rest eq_refl).
Qed.

Lemma first_last_empty :
  first_last [] = inl (IndexError "index out of bounds").
Proof. reflexivity. Qed.

Lemma mark_peaks_marks (bins_last : float) (peaks : list float) :
  forall idx,
    outcome (mark_peaks bins_last idx peaks) = inr tt
    /\ peak_marks (trace_of (mark_peaks bins_last idx peaks))
       = expected_peak_marks bins_last idx peaks.
Proof.
  induction peaks as [|p rest IH]; intro idx; simpl; [split; reflexivity|].
  run_steps. destruct (IH (S idx)) as [Ho Hm]. rewrite Ho, Hm.
  split; reflexivity.
Qed.

(** X16.  A run of [plot_spectrogram] that returns had its percentile
    computed and a time vector and frequency bins that are not empty; it has
    drawn the image with the extent [t[0], t[-1], bins[0], bins[-1]] and
    marked every peak it was given, in order: a vertical line at the peak's
    frequency, then the label "Peak k" (k counted from 1) at that frequency
    and at nine tenths of the last frequency bin. *)
Theorem spectrogram_marks_every_peak {P : Type}
  (pct : P -> float -> Exn + float) (t bins : list float) (pdata : P)
  (peaks : list float) (max_freq : float) :
  outcome (plot_spectrogram pct t bins pdata (Some peaks) max_freq)
  = inr tt ->
  exists v,
    pct pdata SPECTROGRAM_LOW_PERCENTILE_FILTER = inr v
    /\ t <> [] /\ bins <> []
    /\ peak_marks
         (trace_of (plot_spectrogram pct t bins pdata (Some peaks) max_freq))
       = expected_peak_marks (last bins 0) 0 peaks
    /\ In (Draw spectrogram_ax
             (imshow v (hd 0 t, last t 0, hd 0 bins, last bins 0)))
          (trace_of (plot_spectrogram pct t bins pdata (Some peaks)
                       max_freq)).
Proof.
  unfold plot_spectrogram. run_steps.
  destruct (pct pdata SPECTROGRAM_LOW_PERCENTILE_FILTER) as [e|v];
    run_steps; [raised|].
  assert (Ht : t = [] \/ t <> [])
    by (destruct t; [now left | right; discriminate]).
  destruct Ht as [-> | Ht].
  { rewrite first_last_empty. run_steps. raised. }
  rewrite (first_last_nonempty t Ht). run_steps.
  assert (Hb : bins = [] \/ bins <> [])
    by (destruct bins; [now left | right; discriminate]).
  destruct Hb as [-> | Hb].
  { rewrite first_last_empty. run_steps. raised. }
  rewrite (first_last_nonempty bins Hb). run_steps.
  intros _. exists v.
  destruct (mark_peaks_marks (last bins 0) peaks 0) as [Ho Hm].
  rewrite Hm. repeat split; auto; right; left; reflexivity.
Qed.

Lemma spectrogram_marks_every_peak_witness :
  exists v,
    (fun (_ : unit) (_ : float) => @inr Exn float 1) tt
      SPECTROGRAM_LOW_PERCENTILE_FILTER = inr v
    /\ [0; 1; 2] <> [] /\ [0; 100; 200] <> []
    /\ peak_marks
         (trace_of (plot_spectrogram (fun (_ : unit) (_ : float) => inr 1)
                      [0; 1; 2] [0; 100; 200] tt (Some [20; 150]) 200))
       = expected_peak_marks (last [0; 100; 200] 0) 0 [20; 150]
    /\ In (Draw spectrogram_ax
             (imshow v (hd 0 [0; 1; 2], last [0; 1; 2] 0,
                        hd 0 [0; 100; 200], last [0; 100; 200] 0)))
          (trace_of (plot_spectrogram (fun (_ : unit) (_ : float) => inr 1)
                       [0; 1; 2] [0; 100; 200] tt (Some [20; 150]) 200)).
Proof.
  apply (spectrogram_marks_every_peak (fun (_ : unit) (_ : float) => inr 1)
           [0; 1; 2] [0; 100; 200] tt [20; 150] 200).
  vm_compute. reflexivity.
Defined.

(** X17.  With an empty time vector or empty frequency bins,
    [plot_spectrogram] raises [IndexError] once the percentile is computed:
    the image is not drawn and no peak is marked. *)
Theorem spectrogram_needs_time_and_bins {P : Type}
  (pct : P -> float -> Exn + float) (t bins : list float) (pdata : P)
  (peaks : option (list float)) (max_freq v : float) :
  pct pdata SPECTROGRAM_LOW_PERCENTILE_FILTER = inr v ->
  t = [] \/ bins = [] ->
  plot_spectrogram pct t bins pdata peaks max_freq
  = ([Draw spectrogram_ax (set_title_text "Time-Frequency Spectrogram")],
     inl (IndexError "index out of bounds")).
Proof.
  intros Hv Hempty.
  unfold plot_spectrogram, bind, lift, draw, emit.
  rewrite Hv. cbv beta iota.
  destruct Hempty as [-> | ->].
  - rewrite first_last_empty. reflexivity.
  - rewrite first_last_empty.
    destruct (first_last t) as [e|tt'] eqn:Ht; [|reflexivity].
    unfold first_last in Ht.
    destruct (Np.item t 0) as [e0|a] eqn:H0.
    + apply Np_item_raises in H0. subst e0.
      destruct (Np.item t (-1)); inversion Ht; reflexivity.
    + destruct (Np.item t (-1)) as [e1|b] eqn:H1; [|discriminate].
      apply Np_item_raises in H1. subst e1. inversion Ht. reflexivity.
Qed.

Lemma spectrogram_needs_time_and_bins_witness :
  plot_spectrogram (fun (_ : unit) (_ : float) => inr 1) [0; 1; 2] [] tt
    (Some [20]) 200
  = ([Draw spectrogram_ax (set_title_text "Time-Frequency Spectrogram")],
     inl (IndexError "index out of bounds")).
Proof.
  apply (spectrogram_needs_time_and_bins
           (fun (_ : unit) (_ : float) => inr 1) [0; 1; 2] [] tt (Some [20])
           200 1); [reflexivity | right; reflexivity].
Defined.

(** ** A search that finds a shaper *)

(** X18.  Whenever [calibrate_shaper] returns, the name it returns is the
    name of the shaper the search picked, the list is the search's list,
    the damping ratio handed to the search is the one estimated from the
    normalized calibration data, which is also returned, and the console
    shows the lines of the search followed by one "recommended shaper" line
    with the pick's name in upper case. *)
Theorem calibrate_shaper_returns_the_pick (env : Collaborators)
  (data : RawData env) (max_smoothing : option float) (scv max_freq : float)
  (performance : string) (all_shapers : list CalibrationResult)
  (cd : CalibrationData) (fr zeta : float) :
  outcome (calibrate_shaper env data max_smoothing scv max_freq)
  = inr (performance, all_shapers, cd, fr, zeta) ->
  exists cd0 lines best,
    process_accelerometer_data env data = inr cd0
    /\ normalize_to_frequencies env cd0 = inr cd
    /\ compute_mechanical_parameters env (psd_sum cd) (freq_bins cd)
       = inr (fr, zeta)
    /\ find_best_shaper env cd zeta scv max_smoothing max_freq
       = (lines, inr (Some best, all_shapers))
    /\ performance = name best
    /\ trace_of (calibrate_shaper env data max_smoothing scv max_freq)
       = map (fun line => Print (Logged line)) lines
         ++ [Print (RecommendedShaper (Py.upper (name best)) (freq best)
                      scv zeta)].
Proof.
  unfold calibrate_shaper. run_steps.
  destruct (process_accelerometer_data env data) as [e|cd0] eqn:Hp;
    run_steps; [raised|].
  destruct (normalize_to_frequencies env cd0) as [e|cd1] eqn:Hn; run_steps;
    [raised|].
  destruct (compute_mechanical_parameters env (psd_sum cd1) (freq_bins cd1))
    as [e|[fr1 zeta1]] eqn:Hm; run_steps; [raised|].
  destruct (find_best_shaper env cd1 zeta1 scv max_smoothing max_freq)
    as [lines [e|[[best|] all]]] eqn:Hfind; run_steps; try raised.
  intro H. inversion H; subst. exists cd0, lines, best.
  repeat split; assumption.
Qed.

Lemma calibrate_shaper_returns_the_pick_witness :
  exists cd0 lines best,
    process_accelerometer_data (demo_env (Some zv) demo_shapers) tt
    = inr cd0
    /\ normalize_to_frequencies (demo_env (Some zv) demo_shapers) cd0
       = inr demo_data
    /\ compute_mechanical_parameters (demo_env (Some zv) demo_shapers)
         (psd_sum demo_data) (freq_bins demo_data)
       = inr (20, 0.05)
    /\ find_best_shaper (demo_env (Some zv) demo_shapers) demo_data 0.05 5
         (Some 0.05) 200
       = (lines, inr (Some best, demo_shapers))
    /\ "zv" = name best
    /\ trace_of (calibrate_shaper (demo_env (Some zv) demo_shapers) tt
                   (Some 0.05) 5 200)
       = map (fun line => Print (Logged line)) lines
         ++ [Print (RecommendedShaper (Py.upper (name best)) (freq best)
                      5 0.05)].
Proof.
  apply (calibrate_shaper_returns_the_pick (demo_env (Some zv) demo_shapers)
           tt (Some 0.05) 5 200 "zv" demo_shapers demo_data 20 0.05).
  reflexivity.
Defined.

(** ** The low-vibration pick and the performance name *)

Lemma lowvib_condition_same (st1 st2 : Locals) (s : CalibrationResult)
  (accel : float) :
  lowvib_shaper_vibrs st1 = lowvib_shaper_vibrs st2 ->
  lowvib_shaper_accel st1 = lowvib_shaper_accel st2 ->
  lowvib_condition st1 s accel = lowvib_condition st2 s accel.
Proof. unfold lowvib_condition. now intros -> ->. Qed.

Lemma fold_locals_lowvib_same (perf1 perf2 : string)
  (shapers : list CalibrationResult) :
  forall st1 st2 st1' st2',
    lowvib_shaper st1 = lowvib_shaper st2 ->
    lowvib_shaper_freq st1 = lowvib_shaper_freq st2 ->
    lowvib_shaper_vals st1 = lowvib_shaper_vals st2 ->
    lowvib_shaper_vibrs st1 = lowvib_shaper_vibrs st2 ->
    lowvib_shaper_accel st1 = lowvib_shaper_accel st2 ->
    fold_locals perf1 shapers st1 = inr st1' ->
    fold_locals perf2 shapers st2 = inr st2' ->
    lowvib_shaper st1' = lowvib_shaper st2'
    /\ lowvib_shaper_freq st1' = lowvib_shaper_freq st2'
    /\ lowvib_shaper_vals st1' = lowvib_shaper_vals st2'
    /\ lowvib_shaper_vibrs st1' = lowvib_shaper_vibrs st2'
    /\ lowvib_shaper_accel st1' = lowvib_shaper_accel st2'.
Proof.
  induction shapers as [|s rest IH];
    intros st1 st2 st1' st2' Hn Hf Hv Hvib Hacc H1 H2; simpl in *.
  - inversion H1; inversion H2; subst. auto.
  - destruct (rounded_max_accel s) as [e|accel]; [discriminate|].
    pose proof (lowvib_condition_same st1 st2 s accel Hvib Hacc) as Hc.
    destruct (lowvib_condition st1 s accel) eqn:Hc1; symmetry in Hc.
    + destruct (next_locals_taken perf1 st1 s accel Hc1)
        as (A1 & A2 & A3 & A4 & A5).
      destruct (next_locals_taken perf2 st2 s accel Hc)
        as (B1 & B2 & B3 & B4 & B5).
      apply (IH _ _ _ _) with (6 := H1) (7 := H2); congruence.
    + destruct (next_locals_kept perf1 st1 s accel Hc1)
        as (A1 & A2 & A3 & A4 & A5).
      destruct (next_locals_kept perf2 st2 s accel Hc)
        as (B1 & B2 & B3 & B4 & B5).
      apply (IH _ _ _ _) with (6 := H1) (7 := H2); congruence.
Qed.

(** X19.  The low-vibration shaper the loop ends with does not depend on
    which name is designated as the performance shaper: two loops over the
    same list with different performance names end with the same
    low-vibration name, frequency, curve, vibration percentage and rounded
    maximum acceleration. *)
Theorem lowvib_pick_ignores_performance_name (fs1 fs2 : list float)
  (perf1 perf2 : string) (shapers : list CalibrationResult)
  (st1 st2 : Locals) :
  outcome (for_each (shaper_step fs1 perf1) shapers initial_locals)
  = inr st1 ->
  outcome (for_each (shaper_step fs2 perf2) shapers initial_locals)
  = inr st2 ->
  lowvib_shaper st1 = lowvib_shaper st2
  /\ lowvib_shaper_freq st1 = lowvib_shaper_freq st2
  /\ lowvib_shaper_vals st1 = lowvib_shaper_vals st2
  /\ lowvib_shaper_vibrs st1 = lowvib_shaper_vibrs st2
  /\ lowvib_shaper_accel st1 = lowvib_shaper_accel st2.
Proof.
  rewrite !loop_outcome. intros H1 H2.
  apply (fold_locals_lowvib_same perf1 perf2 shapers initial_locals
           initial_locals st1 st2); auto.
Qed.

Lemma lowvib_pick_ignores_performance_name_witness :
  lowvib_shaper demo_locals
  = lowvib_shaper
      {| lowvib_shaper_vibrs := 1; lowvib_shaper := Some "mzv";
         lowvib_shaper_freq := Some 52; lowvib_shaper_accel := 6000;
         lowvib_shaper_vals := Some [0.4; 0.05; 0.3];
         performance_shaper_freq := Some 52;
         performance_shaper_vibr := Some 1;
         performance_shaper_vals := Some [0.4; 0.05; 0.3] |}
  /\ lowvib_shaper_freq demo_locals = Some 52
  /\ lowvib_shaper_vals demo_locals = Some [0.4; 0.05; 0.3]
  /\ lowvib_shaper_vibrs demo_locals = 1
  /\ lowvib_shaper_accel demo_locals = 6000.
Proof.
  apply (lowvib_pick_ignores_performance_name [10; 20; 30] [5; 15; 25]
           "zv" "mzv" demo_shapers demo_locals
           {| lowvib_shaper_vibrs := 1; lowvib_shaper := Some "mzv";
              lowvib_shaper_freq := Some 52; lowvib_shaper_accel := 6000;
              lowvib_shaper_vals := Some [0.4; 0.05; 0.3];
              performance_shaper_freq := Some 52;
              performance_shaper_vibr := Some 1;
              performance_shaper_vals := Some [0.4; 0.05; 0.3] |});
    vm_compute; reflexivity.
Defined.

(** X20.  A run of [plot_freq_response] that returns always recommends the
    performance shaper: it has drawn either the "best shaper" line alone or
    the "performance shaper" line followed by a "low vibrations shaper"
    line, with the performance name and the frequency of a listed shaper
    bearing it. *)
Theorem returning_run_recommends_performance (cd : CalibrationData)
  (shapers : list CalibrationResult) (perf : string) (peaks : list Z)
  (peaks_freqs : list float) (thr : float * float)
  (fr zeta max_freq : float) :
  outcome (plot_freq_response cd shapers perf peaks peaks_freqs thr
             fr zeta max_freq) = inr tt ->
  exists p,
    In p shapers /\ name p = perf
    /\ (recommendations
          (trace_of (plot_freq_response cd shapers perf peaks peaks_freqs
                       thr fr zeta max_freq))
        = [RecommendedBest (Py.upper perf) (freq p)]
        \/ exists c,
             In c shapers /\ name c <> perf
             /\ recommendations
                  (trace_of (plot_freq_response cd shapers perf peaks
                               peaks_freqs thr fr zeta max_freq))
                = [RecommendedPerformance (Py.upper perf) (freq p);
                   RecommendedLowVibrations (Py.upper (name c)) (freq c)]).
Proof.
  intro Hret.
  assert (Hout := Hret). rewrite plot_outcome_before_recommend in Hout.
  destruct (plot_selected _ _ _ _ _ _ _ _ _ Hret) as (st & Hfold & Hrec).
  rewrite Hrec. clear Hrec.
  destruct (freqs cd) as [fs|]; [|discriminate].
  destruct (Np.max (psd_sum cd)) as [e|m]; [discriminate|].
  rewrite Hfold in Hout.
  destruct (outcome (recommend fs (psd_sum cd) perf st)) as [e|[]] eqn:Hr;
    [discriminate|].
  pose proof (loop_performance_from perf shapers st Hfold) as Hperf.
  pose proof (loop_lowvib_from perf shapers st Hfold) as Hlow.
  unfold performance_from in Hperf. unfold lowvib_from in Hlow.
  unfold selected.
  destruct (performance_shaper_freq st) as [pf|] eqn:Hpf.
  2: { rewrite (recommend_without_performance fs (psd_sum cd) perf st Hpf)
         in Hr. discriminate. }
  destruct Hperf as (p & Hp & Hname & -> & Hpv & _).
  rewrite Hpv. exists p. repeat split; auto.
  destruct (two_recommendations st perf (vibrs p * 100)) eqn:Htwo;
    [|now left].
  right. unfold two_recommendations in Htwo.
  destruct (lowvib_shaper st) as [l|]; [|discriminate].
  destruct Hlow as (c & accel & Hc & Hcname & Hcfreq & _).
  rewrite Hcfreq. exists c. rewrite Hcname. repeat split; auto.
  apply andb_true_iff in Htwo. destruct Htwo as [Hdiff _].
  apply negb_true_iff, String.eqb_neq in Hdiff. congruence.
Qed.

Lemma returning_run_recommends_performance_witness :
  exists p,
    In p demo_shapers /\ name p = "zv"
    /\ (recommendations
          (trace_of (plot_freq_response demo_trimmed demo_shapers "zv"
                       [1%Z] [20] (0.45, 1.08) 20 0.05 200))
        = [RecommendedBest (Py.upper "zv") (freq p)]
        \/ exists c,
             In c demo_shapers /\ name c <> "zv"
             /\ recommendations
                  (trace_of (plot_freq_response demo_trimmed demo_shapers
                               "zv" [1%Z] [20] (0.45, 1.08) 20 0.05 200))
                = [RecommendedPerformance (Py.upper "zv") (freq p);
                   RecommendedLowVibrations (Py.upper (name c)) (freq c)]).
Proof.
  apply (returning_run_recommends_performance demo_trimmed demo_shapers "zv"
           [1%Z] [20] (0.45, 1.08) 20 0.05 200).
  vm_compute. reflexivity.
Defined.
